(** * Signal scoring, trade plans and orchestration of the Bitcoin macro model

    A shallow embedding of [bitcoin_model/config/settings.py],
    [bitcoin_model/models/fed_pivot.py], [bitcoin_model/models/m2_miner.py]
    and [bitcoin_model/core.py].

    Python floats are modelled by the rationals [Q]: every constant of the
    source is a decimal literal and the scorers only add, multiply, divide,
    compare and take [min]/[max], so the arithmetic is followed exactly;
    rounding of binary floating point is not modelled, except in the
    position arithmetic of the trader, which is parametrised by the
    rounding of its operations.  Python dicts with a
    fixed set of keys become records, an optional key becomes an [option]
    field read with the default the source passes to [.get], and a call
    that may raise returns an [outcome]. *)

(** The development also embeds the data providers
    ([data_providers/fred_client.py], [data_providers/crypto_data.py]), the
    error handling utilities ([utils/error_handling.py]) and the trading
    layer ([exchange_integration/trading_config.py],
    [exchange_integration/automated_trader.py]). *)

From Stdlib Require Import QArith Qabs Qminmax Qround Lqa Lia List String Bool
  ZArith.
Import ListNotations.

Local Open Scope string_scope.
Local Open Scope list_scope.
Local Open Scope Q_scope.

(** ** Python primitives used by the source *)

(** [x < y], [x > y] and [x >= y] on floats, as booleans. *)
Definition Qltb (x y : Q) : bool := negb (Qle_bool y x).
Definition Qgtb (x y : Q) : bool := Qltb y x.
Definition Qgeb (x y : Q) : bool := Qle_bool y x.

(** [d.get(key, default)] for an optional key. *)
Definition get {A : Type} (field : option A) (default : A) : A :=
  match field with
  | Some v => v
  | None => default
  end.

(** The result of a call that either returns or raises [Exception(msg)]. *)
Inductive outcome (A : Type) : Type :=
| Returned (a : A)
| Raised (msg : string).
Arguments Returned {A} a.
Arguments Raised {A} msg.

(** Lookup in a dict written as an association list. *)
Fixpoint lookup {K V : Type} (eqb : K -> K -> bool) (k : K) (d : list (K * V))
  : option V :=
  match d with
  | [] => None
  | (k', v) :: d' => if eqb k k' then Some v else lookup eqb k d'
  end.

(** ** config/settings.py *)

Module Settings.

Record position_limits := mk_limits { base : Q; max : Q }.

Record reserve_thresholds := mk_reserve_thresholds {
  critical_low : Q; low : Q; high : Q; critical_high : Q }.

Record m2_thresholds := mk_m2_thresholds {
  extreme_expansion : Q; strong_expansion : Q;
  normal_expansion : Q; contraction : Q }.

Record fed_rate_thresholds := mk_fed_rate_thresholds {
  ultra_low : Q; rate_low : Q; neutral : Q; rate_high : Q }.

(** The attributes of a [Settings] object the scorers read.
    [SIGNAL_THRESHOLDS] is keyed by the scenario number [n] of its key
    ['scenario_n']. *)
Record t := mk {
  POSITION_LIMITS : list (string * position_limits);
  SIGNAL_THRESHOLDS : list (Z * Q);
  EXCHANGE_RESERVE_THRESHOLDS : reserve_thresholds;
  M2_THRESHOLDS : m2_thresholds;
  FED_RATE_THRESHOLDS : fed_rate_thresholds;
  RISK_PROFILE : string }.

Definition moderate : position_limits := mk_limits 0.05 0.15.

(** [Settings.__init__], with the value of the environment variable
    [RISK_PROFILE] (['moderate'] when unset). *)
Definition init (risk_profile : string) : t :=
  {| POSITION_LIMITS :=
       [ ("conservative", mk_limits 0.03 0.10);
         ("moderate", moderate);
         ("aggressive", mk_limits 0.10 0.25) ];
     SIGNAL_THRESHOLDS := [ (1%Z, 0.70); (2%Z, 0.75) ];
     EXCHANGE_RESERVE_THRESHOLDS :=
       mk_reserve_thresholds 2350000 2500000 2800000 3000000;
     M2_THRESHOLDS := mk_m2_thresholds 0.15 0.10 0.05 0.0;
     FED_RATE_THRESHOLDS := mk_fed_rate_thresholds 1.0 3.0 5.0 5.0;
     RISK_PROFILE := risk_profile |}.

Definition default : t := init "moderate".

(** [get_position_limits(risk_profile=None)]: the empty string is falsy,
    so [risk_profile or self.RISK_PROFILE] skips it too. *)
Definition get_position_limits (s : t) (risk_profile : option string)
  : position_limits :=
  let profile :=
    match risk_profile with
    | Some p => if String.eqb p "" then RISK_PROFILE s else p
    | None => RISK_PROFILE s
    end in
  get (lookup String.eqb profile (POSITION_LIMITS s))
      (get (lookup String.eqb "moderate" (POSITION_LIMITS s)) moderate).

Definition get_signal_threshold (s : t) (scenario : Z) : Q :=
  get (lookup Z.eqb scenario (SIGNAL_THRESHOLDS s)) 0.7.

(** The entries of the ['issues'] list of [validate_config]; the source
    formats each into a text. *)
Inductive issue :=
| InvalidRiskProfile (profile : string)
| InvalidPortfolioValue (portfolio_value : Q).

(** [validate_config], with the attribute [DEFAULT_PORTFOLIO_VALUE] read
    from the environment: the pair of ['valid'] and ['issues']. *)
Definition validate_config (s : t) (DEFAULT_PORTFOLIO_VALUE : Q)
  : bool * list issue :=
  let issues := [] in
  let issues :=
    match lookup String.eqb (RISK_PROFILE s) (POSITION_LIMITS s) with
    | None => issues ++ [InvalidRiskProfile (RISK_PROFILE s)]
    | Some _ => issues
    end in
  let issues :=
    if Qle_bool DEFAULT_PORTFOLIO_VALUE 0
    then issues ++ [InvalidPortfolioValue DEFAULT_PORTFOLIO_VALUE]
    else issues in
  (Nat.eqb (List.length issues) 0, issues).

End Settings.

(** ** Signals and trade plans (the dicts both scenario models build) *)

(** The dict returned by [calculate_signal_strength].  The two sub-score
    keys are ['fed_score'], ['reserve_score'] in scenario 1 and ['m2_score'],
    ['miner_score'] in scenario 2; the other keys are the same. *)
Record signal_data := mk_signal {
  first_score : Q;
  second_score : Q;
  combined_score : Q;
  buy_signal : bool;
  signal_strength : string;
  threshold : Q }.

Record tranche := mk_tranche {
  timing : string; percentage : Q; value : Q }.

(** The dict returned by [generate_trade_plan]: the three-key dict of the
    early return, or the full plan.  The rationale text embeds the strength
    label, kept here, and the score printed with two decimals, left out. *)
Inductive trade_plan :=
| NoAction (reason : string) (position_size : Q)
| Plan (action : string) (position_size position_value : Q)
       (entry_strategy : string) (entry_plan : list tranche)
       (rationale_strength : string) (hold_period : string)
       (exit_conditions : list string).

(** The strength tiers, computed by both models with the same cascade. *)
Definition strength_tier (combined : Q) : string :=
  if Qgeb combined 0.8 then "very_strong"
  else if Qgeb combined 0.6 then "strong"
  else if Qgeb combined 0.4 then "moderate"
  else "weak".

(** ** data_providers/fred_client.py *)

Module FREDClient.

(** The dict returned by [detect_fed_pivot], without its ['current_rate']
    key, which nothing reads; the early returns carry only
    ['pivot_detected']. *)
Record pivot_info := mk_pivot_info {
  pi_pivot_detected : option bool;
  direction : option string;
  magnitude : option Q;
  trend_change : option Q }.

Definition sum (l : list Q) : Q := fold_left Qplus l 0.

Definition len (l : list Q) : Q := inject_Z (Z.of_nat (List.length l)).

(** [detect_fed_pivot], from the ['value'] column of the data frame that
    [get_fed_funds_rate] returns, oldest first, or from its failure.  The
    two averages are exact here, where the source rounds every partial
    sum: on a series whose trend change is within a rounding error of 0.25
    or 0.5 the source may sit on the other side of the comparison.  The
    statements about the detector relate the fields of the dict to the
    trend change it stores, whatever its value. *)
Definition detect_fed_pivot (df : outcome (list Q)) : pivot_info :=
  match df with
  | Raised msg => mk_pivot_info (Some false) None None None
  | Returned values =>
      if (List.length values <? 10)%nat
      then mk_pivot_info (Some false) None None None
      else
        let recent_rates := skipn (List.length values - 30) values in
        let older_rates := firstn 30 values in
        let recent_avg := sum recent_rates / len recent_rates in
        let older_avg := sum older_rates / len older_rates in
        let rate_change := recent_avg - older_avg in
        mk_pivot_info
          (Some (Qgtb (Qabs rate_change) 0.5))
          (Some (if Qltb rate_change (-0.25) then "cutting"
                 else if Qgtb rate_change 0.25 then "hiking"
                 else "neutral"))
          (Some (Qabs rate_change))
          (Some rate_change)
  end.

(** [get_current_fed_rate], from the ['value'] column of the data frame
    [get_fed_funds_rate] returns, or from its failure: the last value, or
    [None]. *)
Definition get_current_fed_rate (df : outcome (list Q)) : option Q :=
  match df with
  | Raised _ => None
  | Returned values => last (map Some values) None
  end.

(** A float computed by a division of data-frame values: a number, or
    [inf]/[nan] when the divisor is 0 (the division of the data frame's
    floats does not raise). *)
Inductive quotient :=
| Finite (q : Q)
| NotFinite.

(** [df.iloc[-k]['value']] for [k >= 1]: the [k]-th value from the end, or
    an [IndexError]. *)
Definition iloc_neg (values : list Q) (k : nat) : option Q :=
  if (List.length values <? k)%nat then None
  else nth_error values (List.length values - k).

(** [get_m2_growth_rate], from the ['value'] column of the data frame
    [get_m2_money_supply] returns, or from its failure. *)
Definition get_m2_growth_rate (df : outcome (list Q)) : option quotient :=
  match df with
  | Raised _ => None
  | Returned values =>
      if (List.length values <? 12)%nat then None
      else
        match iloc_neg values 1, iloc_neg values 13 with
        | Some current_value, Some year_ago_value =>
            if Qeq_bool year_ago_value 0 then Some NotFinite
            else Some (Finite ((current_value - year_ago_value)
                               / year_ago_value))
        | _, _ => None
        end
  end.

(** [health_check]: the ['status'] of the returned dict.  The [except]
    branch of the source cannot be reached, [get_current_fed_rate] catches
    every exception. *)
Definition health_check (df : outcome (list Q)) : string :=
  match get_current_fed_rate df with
  | Some _ => "healthy"
  | None => "degraded"
  end.

End FREDClient.

(** ** data_providers/crypto_data.py *)

Module CoinGeckoClient.

(** [get_bitcoin_price], from what the price request does: it returns the
    JSON field [bitcoin.usd] ([None] when missing) or raises. *)
Definition get_bitcoin_price (request : outcome (option Q)) : option Q :=
  match request with
  | Returned price => price
  | Raised _ => None
  end.

(** [health_check]: the ['status'] of the returned dict. *)
Definition health_check (request : outcome (option Q)) : string :=
  match get_bitcoin_price request with
  | Some _ => "healthy"
  | None => "degraded"
  end.

End CoinGeckoClient.

(** The overall status both scenario models derive from the statuses of
    their providers ([provider.get('status')], [None] when the key is
    missing). *)
Definition status_is (expected : string) (status : option string) : bool :=
  match status with
  | Some st => String.eqb st expected
  | None => false
  end.

Definition providers_status (statuses : list (option string)) : string :=
  if forallb (status_is "healthy") statuses then "healthy"
  else if existsb (status_is "error") statuses then "error"
  else "degraded".

(** The dict a scenario model's [analyze] returns; [D] is the content of
    its ['data'] key. *)
Record analysis (D : Type) := mk_analysis {
  scenario : Z;
  scenario_name : string;
  data : D;
  signals : signal_data;
  plan : trade_plan }.
Arguments mk_analysis {D}.
Arguments scenario {D}.
Arguments scenario_name {D}.
Arguments data {D}.
Arguments signals {D}.
Arguments plan {D}.

(** ** models/fed_pivot.py *)

Module FedPivotModel.

(** The dict produced by [get_fed_data] and read by [calculate_fed_score];
    its keys ['trend_change'], ['m2_growth_rate'] and ['timestamp'], which
    no scorer reads, are left out. *)
Record fed_data := mk_fed_data {
  fed_funds_rate : option Q;
  pivot_detected : option bool;
  pivot_direction : option string;
  pivot_magnitude : option Q;
  fed_error : option string }.

(** What the three FRED calls of [get_fed_data] return when none raises. *)
Record fred_readings := mk_fred_readings {
  current_rate : option Q;
  pivot_info : FREDClient.pivot_info;
  m2_growth : option Q }.

Definition get_fed_data (fred : outcome fred_readings) : fed_data :=
  match fred with
  | Returned r =>
      let pivot_info := pivot_info r in
      mk_fed_data (current_rate r)
                  (Some (get (FREDClient.pi_pivot_detected pivot_info) false))
                  (Some (get (FREDClient.direction pivot_info) "neutral"))
                  (Some (get (FREDClient.magnitude pivot_info) 0))
                  None
  | Raised msg => mk_fed_data None (Some false) None None (Some msg)
  end.

Record reserve_data := mk_reserve_data {
  exchange_reserves : option Q;
  reserve_level : option string;
  reserve_score : option Q;
  reserve_error : option string }.

(** [get_exchange_reserves], from what the on-chain provider's
    [get_exchange_reserves()] does: return a reading, return [None], or
    raise. *)
Definition get_exchange_reserves (s : Settings.t) (provider : outcome (option Q))
  : reserve_data :=
  match provider with
  | Raised msg => mk_reserve_data None None None (Some msg)
  | Returned None =>
      mk_reserve_data None None None (Some "No reserve data available")
  | Returned (Some reserves) =>
      let thresholds := Settings.EXCHANGE_RESERVE_THRESHOLDS s in
      let '(level, score) :=
        if Qltb reserves (Settings.critical_low thresholds)
        then ("critical_low", 1.0)
        else if Qltb reserves (Settings.low thresholds)
        then ("low", 0.7)
        else if Qgtb reserves (Settings.critical_high thresholds)
        then ("critical_high", 0.0)
        else if Qgtb reserves (Settings.high thresholds)
        then ("high", 0.2)
        else ("normal", 0.4) in
      mk_reserve_data (Some reserves) (Some level) (Some score) None
  end.

(** Base score from the rate level (the first cascade of
    [calculate_fed_score]). *)
Definition base_score (s : Settings.t) (current_rate : Q) : Q :=
  let thresholds := Settings.FED_RATE_THRESHOLDS s in
  if Qltb current_rate (Settings.ultra_low thresholds) then 0.8
  else if Qltb current_rate (Settings.rate_low thresholds) then 0.5
  else if Qltb current_rate (Settings.neutral thresholds) then 0.3
  else 0.1.

(** The pivot adjustment (the second cascade of [calculate_fed_score]). *)
Definition direction_multiplier
  (pivot_detected : bool) (pivot_direction : string) (pivot_magnitude : Q) : Q :=
  if pivot_detected then
    if String.eqb pivot_direction "cutting"
    then 1.5 + Qmin 0.5 (pivot_magnitude / 2.0)
    else if String.eqb pivot_direction "hiking"
    then 0.3
    else 1.0
  else if String.eqb pivot_direction "cutting"
  then 1.2
  else 1.0.

Definition calculate_fed_score (s : Settings.t) (fd : fed_data) : Q :=
  match fed_funds_rate fd with
  | None => 0.0
  | Some current_rate =>
      let pivot_detected := get (pivot_detected fd) false in
      let pivot_direction := get (pivot_direction fd) "neutral" in
      let pivot_magnitude := get (pivot_magnitude fd) 0 in
      Qmin 1.0 (base_score s current_rate
                * direction_multiplier pivot_detected pivot_direction
                                       pivot_magnitude)
  end.

Definition calculate_signal_strength
  (s : Settings.t) (fd : fed_data) (rd : reserve_data) : signal_data :=
  let fed_score := calculate_fed_score s fd in
  let reserve_score := get (reserve_score rd) 0.0 in
  let combined_score := (fed_score * 0.6) + (reserve_score * 0.4) in
  let threshold := Settings.get_signal_threshold s 1 in
  let buy_signal := Qgeb combined_score threshold in
  mk_signal fed_score reserve_score combined_score buy_signal
            (strength_tier combined_score) threshold.

Definition generate_trade_plan
  (s : Settings.t) (sd : signal_data) (portfolio_value : Q) : trade_plan :=
  if negb (buy_signal sd) then
    NoAction "Signal threshold not met" 0.0
  else
    let combined_score := combined_score sd in
    let position_limits := Settings.get_position_limits s None in
    let base_size := Settings.base position_limits in
    let max_size := Settings.max position_limits in
    let threshold := threshold sd in
    let excess_signal := Qmax 0 (combined_score - threshold) in
    let max_excess := 1.0 - threshold in
    let size_multiplier :=
      if Qgtb max_excess 0
      then 1.0 + (excess_signal / max_excess) * 2.0
      else 1.0 in
    let position_size := Qmin max_size (base_size * size_multiplier) in
    let position_value := portfolio_value * position_size in
    let entry_plan :=
      [ mk_tranche "immediate" 0.40 (position_value * 0.40);
        mk_tranche "24_hours" 0.30 (position_value * 0.30);
        mk_tranche "48_hours" 0.20 (position_value * 0.20);
        mk_tranche "72_hours" 0.10 (position_value * 0.10) ] in
    Plan "buy" position_size position_value "scaled_72h" entry_plan
         (signal_strength sd) "minimum_90_days"
         [ "NUPL > 0.70 (euphoria)";
           "Exchange reserves > 2.8M BTC";
           "Fed policy reversal (rate hikes)" ].

(** [analyze], once the two data dicts are fetched. *)
Definition analyze_data (s : Settings.t) (fd : fed_data) (rd : reserve_data)
  (portfolio_value : Q) : analysis (fed_data * reserve_data) :=
  let signals := calculate_signal_strength s fd rd in
  let trade_plan := generate_trade_plan s signals portfolio_value in
  mk_analysis 1 "Fed Pivot + Low Exchange Reserves" (fd, rd) signals trade_plan.

Definition analyze (s : Settings.t) (fred : outcome fred_readings)
  (reserves : outcome (option Q)) (portfolio_value : Q)
  : analysis (fed_data * reserve_data) :=
  analyze_data s (get_fed_data fred) (get_exchange_reserves s reserves)
               portfolio_value.

(** [health_check], from the ['status'] of the three providers. *)
Definition health_check (fred crypto onchain : option string) : string :=
  providers_status [fred; crypto; onchain].

End FedPivotModel.

(** ** models/m2_miner.py *)

Module M2MinerModel.

(** The dict produced by [get_m2_data].  [m2_acceleration = None] stands
    for the key holding [None] and for the key being absent: the bonus of
    [calculate_m2_score] is 0 in both cases. *)
Record m2_data := mk_m2_data {
  m2_growth_rate : option Q;
  m2_acceleration : option Q;
  growth_level : option string;
  growth_score : option Q;
  m2_error : option string }.

(** What [get_hash_ribbon_signal()] returns when it is a non-empty dict. *)
Record hash_data := mk_hash_data {
  signal : option string;
  hd_miner_capitulation : option bool }.

Record miner_data := mk_miner_data {
  hash_ribbon_signal : option string;
  miner_capitulation : option bool;
  ribbon_score : option Q;
  ribbon_strength : option string;
  miner_error : option string }.

(** [get_m2_data], from the growth rate [get_m2_growth_rate()] returns
    (it never raises) and from the acceleration the source derives from the
    M2 series, a step that raises when the series cannot be fetched; the
    data-frame arithmetic of that step is taken as given. *)
Definition get_m2_data
  (s : Settings.t) (m2_growth : option Q) (acceleration : outcome (option Q))
  : m2_data :=
  match m2_growth with
  | None => mk_m2_data None None None None (Some "M2 data unavailable")
  | Some m2_growth =>
      match acceleration with
      | Raised msg => mk_m2_data None None None None (Some msg)
      | Returned m2_acceleration =>
          let thresholds := Settings.M2_THRESHOLDS s in
          let '(growth_level, growth_score) :=
            if Qgeb m2_growth (Settings.extreme_expansion thresholds)
            then ("extreme_expansion", 1.0)
            else if Qgeb m2_growth (Settings.strong_expansion thresholds)
            then ("strong_expansion", 0.8)
            else if Qgeb m2_growth (Settings.normal_expansion thresholds)
            then ("normal_expansion", 0.5)
            else if Qgeb m2_growth (Settings.contraction thresholds)
            then ("slow_growth", 0.2)
            else ("contraction", 0.0) in
          mk_m2_data (Some m2_growth) m2_acceleration
                     (Some growth_level) (Some growth_score) None
      end
  end.

(** [get_hash_ribbon_data]; [Returned None] is a falsy return value
    ([None] or the empty dict). *)
Definition get_hash_ribbon_data (provider : outcome (option hash_data))
  : miner_data :=
  match provider with
  | Raised msg => mk_miner_data None None None None (Some msg)
  | Returned None =>
      mk_miner_data None None None None (Some "Hash data unavailable")
  | Returned (Some hd) =>
      let signal := get (signal hd) "neutral" in
      let miner_capitulation := get (hd_miner_capitulation hd) false in
      let '(ribbon_score, signal_strength) :=
        if String.eqb signal "buy" then (1.0, "strong_buy")
        else if String.eqb signal "sell" then (0.0, "strong_sell")
        else (0.4, "neutral") in
      let capitulation_bonus := if miner_capitulation then 0.3 else 0.0 in
      let total_score := Qmin 1.0 (ribbon_score + capitulation_bonus) in
      mk_miner_data (Some signal) (Some miner_capitulation)
                    (Some total_score) (Some signal_strength) None
  end.

Definition calculate_m2_score (md : m2_data) : Q :=
  match m2_growth_rate md with
  | None => 0.0
  | Some growth_rate =>
      let base_score := get (growth_score md) 0 in
      let accel_bonus :=
        match m2_acceleration md with
        | Some acceleration => Qmin 0.2 (Qmax (-0.2) (acceleration * 5))
        | None => 0.0
        end in
      let velocity_adjustment := 0.0 in
      Qmin 1.0 (Qmax 0.0 (base_score + accel_bonus + velocity_adjustment))
  end.

Definition is_extreme_expansion (md : m2_data) : bool :=
  match growth_level md with
  | Some level => String.eqb level "extreme_expansion"
  | None => false
  end.

Definition calculate_signal_strength
  (s : Settings.t) (md : m2_data) (mi : miner_data) : signal_data :=
  let m2_score := calculate_m2_score md in
  let miner_score := get (ribbon_score mi) 0.0 in
  let combined_score := (m2_score * 0.5) + (miner_score * 0.5) in
  let threshold := Settings.get_signal_threshold s 2 in
  let buy_signal := Qgeb combined_score threshold in
  let strength := strength_tier combined_score in
  let '(buy_signal, strength) :=
    if is_extreme_expansion md then
      if Qgeb combined_score 0.6
      then (true, "strong_m2_override")
      else (buy_signal, strength)
    else (buy_signal, strength) in
  mk_signal m2_score miner_score combined_score buy_signal strength threshold.

Definition generate_trade_plan
  (s : Settings.t) (sd : signal_data) (portfolio_value : Q) : trade_plan :=
  if negb (buy_signal sd) then
    NoAction "Signal threshold not met" 0.0
  else
    let combined_score := combined_score sd in
    let position_limits := Settings.get_position_limits s None in
    let base_size := Settings.base position_limits in
    let max_size := Settings.max position_limits in
    let threshold := threshold sd in
    let excess_signal := Qmax 0 (combined_score - threshold) in
    let max_excess := 1.0 - threshold in
    let size_multiplier :=
      if Qgtb max_excess 0
      then 1.2 + (excess_signal / max_excess) * 2.5
      else 1.2 in
    let position_size := Qmin max_size (base_size * size_multiplier) in
    let position_value := portfolio_value * position_size in
    let entry_plan :=
      [ mk_tranche "week_1" 0.30 (position_value * 0.30);
        mk_tranche "week_2" 0.25 (position_value * 0.25);
        mk_tranche "week_3" 0.25 (position_value * 0.25);
        mk_tranche "week_4" 0.20 (position_value * 0.20) ] in
    Plan "accumulate" position_size position_value "accumulate_30_days"
         entry_plan (signal_strength sd) "minimum_180_days"
         [ "M2 growth deceleration below 5% YoY";
           "Hash ribbon sell signal";
           "NUPL > 0.75 (euphoria)";
           "Fed aggressive tightening cycle" ].

(** [analyze], once the two data dicts are fetched. *)
Definition analyze_data (s : Settings.t) (md : m2_data) (mi : miner_data)
  (portfolio_value : Q) : analysis (m2_data * miner_data) :=
  let signals := calculate_signal_strength s md mi in
  let trade_plan := generate_trade_plan s signals portfolio_value in
  mk_analysis 2 "M2 Expansion + Miner Capitulation" (md, mi) signals trade_plan.

Definition analyze (s : Settings.t) (m2_growth : option Q)
  (acceleration : outcome (option Q)) (hash : outcome (option hash_data))
  (portfolio_value : Q) : analysis (m2_data * miner_data) :=
  analyze_data s (get_m2_data s m2_growth acceleration)
               (get_hash_ribbon_data hash) portfolio_value.

(** [health_check], from the ['status'] of the three providers. *)
Definition health_check (fred crypto onchain : option string) : string :=
  providers_status [fred; crypto; onchain].

End M2MinerModel.

(** ** data_providers/crypto_data.py: the mock on-chain provider *)

Module MockOnChainDataProvider.

(** [get_exchange_reserves]: 2.35e6 BTC. *)
Definition get_exchange_reserves : option Q := Some 2350000.

(** [get_hash_ribbon_signal]: the keys [get_hash_ribbon_data] scores. *)
Definition get_hash_ribbon_signal : M2MinerModel.hash_data :=
  M2MinerModel.mk_hash_data (Some "neutral") (Some false).

(** [health_check]: the ['status'] of the returned dict;
    [get_bitcoin_metrics] cannot raise. *)
Definition health_check : string := "healthy".

End MockOnChainDataProvider.

(** ** core.py *)

Module BitcoinMacroModel.

Section Orchestrator.

(** What a scenario model's [analyze] returns, and its
    [result['signals']['combined_score']]. *)
Variable Analysis : Type.
Variable score_of : Analysis -> Q.

(** The interface the orchestrator uses of a scenario model:
    [analyze(portfolio_value, None)] and [health_check()], of which only
    [.get('status')] is read; either may raise. *)
Record model := mk_model {
  model_analyze : Q -> outcome Analysis;
  model_health_check : outcome (option string) }.

(** [self.scenarios], in insertion order. *)
Definition scenarios := list (Z * model).

(** An entry of the dict built by [get_all_signals], under the key
    ['scenario_<id>'] (written as the number [id]): the analysis with the
    metadata [run_analysis] adds (the time stamp is left out), or the error
    dict with its ['error'] text and its two ['signals'] fields. *)
Inductive result :=
| Analysed (a : Analysis) (scenario : Z) (portfolio_value : Q)
| ErrorResult (error : string) (buy_signal : bool) (combined_score : Q).

(** ['error' in result]. *)
Definition has_error (r : result) : bool :=
  match r with
  | Analysed _ _ _ => false
  | ErrorResult _ _ _ => true
  end.

(** [result['signals']['combined_score']]. *)
Definition result_score (r : result) : Q :=
  match r with
  | Analysed a _ _ => score_of a
  | ErrorResult _ _ combined_score => combined_score
  end.

(** [d[k] = v] on a dict kept in insertion order. *)
Fixpoint dict_set {V : Type} (k : Z) (v : V) (d : list (Z * V)) : list (Z * V) :=
  match d with
  | [] => [(k, v)]
  | (k', v') :: d' =>
      if Z.eqb k k' then (k, v) :: d' else (k', v') :: dict_set k v d'
  end.

(** [run_analysis]; the text of the [ValueError] is shortened. *)
Definition run_analysis (scs : scenarios) (scenario : Z) (portfolio_value : Q)
  : outcome result :=
  match lookup Z.eqb scenario scs with
  | None => Raised "Unknown scenario"
  | Some model =>
      match model_analyze model portfolio_value with
      | Returned a => Returned (Analysed a scenario portfolio_value)
      | Raised msg => Raised msg
      end
  end.

(** One turn of the loop of [get_all_signals]. *)
Definition signals_step (scs : scenarios) (portfolio_value : Q)
  (results : list (Z * result)) (scenario_id : Z) : list (Z * result) :=
  match run_analysis scs scenario_id portfolio_value with
  | Returned r => dict_set scenario_id r results
  | Raised msg => dict_set scenario_id (ErrorResult msg false 0.0) results
  end.

Definition get_all_signals (scs : scenarios) (portfolio_value : Q)
  : list (Z * result) :=
  fold_left (signals_step scs portfolio_value) (map fst scs) [].

(** One turn of the loop of [get_strongest_signal], on the pair
    [(strongest, max_score)]. *)
Definition strongest_step (st : option result * Q) (item : Z * result)
  : option result * Q :=
  let '(strongest, max_score) := st in
  let r := snd item in
  if has_error r then st
  else
    let score := result_score r in
    if Qgtb score max_score then (Some r, score) else st.

Definition strongest_of (all_signals : list (Z * result)) : result :=
  match fst (fold_left strongest_step all_signals (None, 0.0)) with
  | None => ErrorResult "No valid signals available" false 0.0
  | Some strongest => strongest
  end.

Definition get_strongest_signal (scs : scenarios) (portfolio_value : Q) : result :=
  strongest_of (get_all_signals scs portfolio_value).

(** An entry of [health['components']]: the status and, for a model whose
    [health_check] raised, the error text. *)
Record component := mk_component {
  status : option string;
  component_error : option string }.

Record health := mk_health {
  overall_status : string;
  components : list (Z * component) }.

(** One turn of the loop of [health_check]. *)
Definition health_step (h : health) (item : Z * model) : health :=
  let '(scenario_id, model) := item in
  match model_health_check model with
  | Returned model_status =>
      let comps := dict_set scenario_id (mk_component model_status None)
                            (components h) in
      if status_is "healthy" model_status
      then mk_health (overall_status h) comps
      else mk_health "degraded" comps
  | Raised msg =>
      mk_health "error"
                (dict_set scenario_id (mk_component (Some "error") (Some msg))
                          (components h))
  end.

Definition health_check (scs : scenarios) : health :=
  fold_left health_step scs (mk_health "healthy" []).

End Orchestrator.

Arguments mk_model {Analysis}.
Arguments model_analyze {Analysis}.
Arguments model_health_check {Analysis}.
Arguments Analysed {Analysis}.
Arguments ErrorResult {Analysis}.
Arguments has_error {Analysis}.
Arguments result_score {Analysis}.
Arguments run_analysis {Analysis}.
Arguments get_all_signals {Analysis}.
Arguments strongest_step {Analysis}.
Arguments strongest_of {Analysis}.
Arguments get_strongest_signal {Analysis}.
Arguments health_step {Analysis}.
Arguments health_check {Analysis}.

(** What either registered model's [analyze] returns. *)
Inductive scenario_analysis :=
| FedPivotAnalysis
    (a : analysis (FedPivotModel.fed_data * FedPivotModel.reserve_data))
| M2MinerAnalysis
    (a : analysis (M2MinerModel.m2_data * M2MinerModel.miner_data)).

Definition scenario_signals (a : scenario_analysis) : signal_data :=
  match a with
  | FedPivotAnalysis a => signals a
  | M2MinerAnalysis a => signals a
  end.

Definition scenario_score (a : scenario_analysis) : Q :=
  combined_score (scenario_signals a).

(** What the data providers answer during one analysis cycle. *)
Record snapshot := mk_snapshot {
  fred : outcome FedPivotModel.fred_readings;
  reserves : outcome (option Q);
  m2_growth : option Q;
  acceleration : outcome (option Q);
  hash : outcome (option M2MinerModel.hash_data);
  fred_status : option string;
  crypto_status : option string;
  onchain_status : option string }.

(** [self.scenarios] as [__init__] registers it: [{1: fed_pivot_model,
    2: m2_miner_model}].  The models catch what their providers raise, so
    neither [analyze] nor [health_check] raises here. *)
Definition registered (s : Settings.t) (sn : snapshot)
  : scenarios scenario_analysis :=
  [ (1%Z,
     mk_model
       (fun portfolio_value =>
          Returned (FedPivotAnalysis
                      (FedPivotModel.analyze s (fred sn) (reserves sn)
                                             portfolio_value)))
       (Returned (Some (FedPivotModel.health_check
                          (fred_status sn) (crypto_status sn)
                          (onchain_status sn)))));
    (2%Z,
     mk_model
       (fun portfolio_value =>
          Returned (M2MinerAnalysis
                      (M2MinerModel.analyze s (m2_growth sn) (acceleration sn)
                                            (hash sn) portfolio_value)))
       (Returned (Some (M2MinerModel.health_check
                          (fred_status sn) (crypto_status sn)
                          (onchain_status sn))))) ].

End BitcoinMacroModel.

(** ** utils/error_handling.py *)

Module ErrorHandling.

(** [safe_division]; the [except] branch for operands that are not numbers
    does not arise on floats. *)
Definition safe_division (numerator denominator default : Q) : Q :=
  if Qeq_bool denominator 0 then default else numerator / denominator.

(** [validate_percentage] on a number; the text of the [ValueError] is
    shortened. *)
Definition validate_percentage (value : Q) (name : string) : outcome Q :=
  if Qle_bool 0 value && Qle_bool value 1 then Returned value
  else Raised (name ++ " must be between 0 and 1").

(** [validate_positive_number] on a number; the text of the [ValueError]
    is shortened. *)
Definition validate_positive_number (value : Q) (name : string) : outcome Q :=
  if Qle_bool value 0 then Raised (name ++ " must be positive")
  else Returned value.

(** What a call of the wrapper built by [retry_on_exception] did: its
    result, the number of calls of the wrapped function and the number of
    calls of [time.sleep(delay)]. *)
Record retried (A : Type) := mk_retried {
  retry_result : outcome A;
  calls : nat;
  sleeps : nat }.
Arguments mk_retried {A}.
Arguments retry_result {A}.
Arguments calls {A}.
Arguments sleeps {A}.

(** The [for attempt in range(max_retries + 1)] loop of the wrapper with
    [remaining] iterations to go.  [func n] is what the [n]-th call of the
    wrapped function does, [retryable e] says whether the exception [e] is
    an instance of [exceptions]; an exception that is not propagates at
    once.  [time.sleep(delay)] is called inside the [except] handler and
    raises a [ValueError] for a negative [delay], which leaves the wrapper.
    After the loop [last_exception] is raised, and raising [None] is a
    [TypeError]. *)
Fixpoint retry_loop {A : Type} (func : nat -> outcome A)
  (retryable : string -> bool) (max_retries : Z) (delay : Q)
  (remaining attempt : nat) (last_exception : option string) (slept : nat)
  : retried A :=
  match remaining with
  | O =>
      mk_retried
        (Raised (get last_exception
                     "TypeError: exceptions must derive from BaseException"))
        attempt slept
  | S remaining' =>
      match func attempt with
      | Returned a => mk_retried (Returned a) (S attempt) slept
      | Raised e =>
          if retryable e then
            if (Z.of_nat attempt <? max_retries)%Z then
              if Qltb delay 0 then
                mk_retried
                  (Raised "ValueError: sleep length must be non-negative")
                  (S attempt) (S slept)
              else
                retry_loop func retryable max_retries delay remaining'
                           (S attempt) (Some e) (S slept)
            else
              retry_loop func retryable max_retries delay remaining'
                         (S attempt) (Some e) slept
          else mk_retried (Raised e) (S attempt) slept
      end
  end.

(** The wrapper built by [retry_on_exception(max_retries, delay,
    exceptions)]. *)
Definition retry_on_exception {A : Type} (max_retries : Z) (delay : Q)
  (retryable : string -> bool) (func : nat -> outcome A) : retried A :=
  retry_loop func retryable max_retries delay (Z.to_nat (max_retries + 1))
             0 None 0.

(** An entry of [ErrorTracker.errors]; the time stamp is the reading of
    the clock passed to [record_error]. *)
Record error_record := mk_error_record {
  timestamp : string;
  error_type : string;
  message : string;
  context : string;
  component : string }.

Record ErrorTracker := mk_tracker {
  errors : list error_record;
  error_counts : list (string * Z) }.

(** [ErrorTracker.__init__]. *)
Definition new_tracker : ErrorTracker := mk_tracker [] [].

(** [d[k] = v] on a dict with string keys kept in insertion order. *)
Fixpoint set_item {V : Type} (k : string) (v : V) (d : list (string * V))
  : list (string * V) :=
  match d with
  | [] => [(k, v)]
  | (k', v') :: d' =>
      if String.eqb k k' then (k, v) :: d' else (k', v') :: set_item k v d'
  end.

(** The key [f"{component}:{type(error).__name__}"]. *)
Definition error_key (component error_type : string) : string :=
  component ++ ":" ++ error_type.

(** [record_error], for an exception of type name [error_type] and text
    [message], at the clock reading [now]. *)
Definition record_error (t : ErrorTracker)
  (now error_type message context component : string) : ErrorTracker :=
  let error_record :=
    mk_error_record now error_type message context component in
  let error_key := error_key component error_type in
  mk_tracker
    (errors t ++ [error_record])
    (set_item error_key
              (get (lookup String.eqb error_key (error_counts t)) 0 + 1)%Z
              (error_counts t)).

Record error_summary := mk_summary {
  total_errors : nat;
  error_types : list (string * Z);
  recent_errors : list (string * string * string * string) }.

Definition get_error_summary (t : ErrorTracker) : error_summary :=
  match errors t with
  | [] => mk_summary 0 [] []
  | _ =>
      let recent_errors := skipn (List.length (errors t) - 10) (errors t) in
      mk_summary
        (List.length (errors t))
        (error_counts t)
        (map (fun err => (timestamp err, error_type err, message err,
                          component err))
             recent_errors)
  end.

Definition clear_errors (t : ErrorTracker) : ErrorTracker := mk_tracker [] [].

End ErrorHandling.

(** ** exchange_integration/trading_config.py *)

Module TradingConfig.

(** The fields of the dataclass that [validate] and the trader read;
    [default_order_type], [order_timeout], [burst_limit], the stop-loss and
    take-profit percentages and [health_check_interval] are read nowhere. *)
Record t := mk {
  exchange : string;
  api_key : string;
  api_secret : string;
  api_passphrase : option string;
  testnet : bool;
  dry_run : bool;
  max_position_size : Q;
  min_order_size_btc : Q;
  max_daily_trades : Z;
  max_daily_loss : Q;
  slippage_tolerance : Q;
  requests_per_minute : Z }.

(** The values of the enum [ExchangeType]. *)
Definition ExchangeType : list string :=
  ["binance"; "coinbase"; "kraken"; "bybit"; "okx"; "kucoin"; "gemini"].

(** [errors.append(e)] when [condition] holds. *)
Definition append_if (condition : bool) (e : string) (errors : list string)
  : list string :=
  if condition then errors ++ [e] else errors.

Definition validate (c : t) : list string :=
  let errors := [] in
  let errors := append_if (String.eqb (api_key c) "")
                          "API key is required" errors in
  let errors := append_if (String.eqb (api_secret c) "")
                          "API secret is required" errors in
  let errors := append_if (negb (existsb (String.eqb (exchange c)) ExchangeType))
                          ("Unsupported exchange: " ++ exchange c) errors in
  let errors := append_if (Qle_bool (max_position_size c) 0
                           || Qgtb (max_position_size c) 1.0)
                          "max_position_size must be between 0 and 1.0"
                          errors in
  let errors := append_if (Qle_bool (min_order_size_btc c) 0)
                          "min_order_size_btc must be positive" errors in
  let errors := append_if (Qle_bool (max_daily_loss c) 0
                           || Qgtb (max_daily_loss c) 1.0)
                          "max_daily_loss must be between 0 and 1.0" errors in
  let errors := append_if (Qltb (slippage_tolerance c) 0
                           || Qgtb (slippage_tolerance c) 0.5)
                          "slippage_tolerance must be between 0 and 0.5"
                          errors in
  let errors := append_if (negb (testnet c))
                          "WARNING: testnet=False means real money trading!"
                          errors in
  let errors := append_if (negb (dry_run c))
                          "WARNING: dry_run=False means real order execution!"
                          errors in
  errors.

(** The dict built by [get_exchange_specific_config]; ['enableRateLimit']
    is always [True]. *)
Record exchange_config := mk_exchange_config {
  apiKey : string;
  secret : string;
  sandbox : bool;
  rateLimit : Q;
  passphrase : option (option string);
  pro : option bool;
  options_defaultType : option string }.

(** [get_exchange_specific_config]: [60000 / requests_per_minute] divides
    two ints and raises for 0. *)
Definition get_exchange_specific_config (c : t) : outcome exchange_config :=
  if Z.eqb (requests_per_minute c) 0 then Raised "ZeroDivisionError"
  else
    let rateLimit := 60000 / inject_Z (requests_per_minute c) in
    let base_config :=
      mk_exchange_config (api_key c) (api_secret c) (testnet c) rateLimit
                         None None None in
    if String.eqb (exchange c) "coinbase" then
      Returned (mk_exchange_config (api_key c) (api_secret c) (testnet c)
                                   rateLimit (Some (api_passphrase c))
                                   (Some true) None)
    else if String.eqb (exchange c) "binance" then
      Returned (mk_exchange_config (api_key c) (api_secret c) (testnet c)
                                   rateLimit None None (Some "spot"))
    else Returned base_config.

End TradingConfig.

Module SafetyManager.

Record t := mk {
  daily_loss_limit : Q;
  consecutive_loss_limit : Z;
  unusual_price_movement_threshold : Q;
  daily_pnl : Q;
  consecutive_losses : Z;
  last_price_check : Q;
  trades_today : Z }.

(** [SafetyManager()] with the defaults of the dataclass. *)
Definition init : t := mk 0.02 3 0.10 0.0 0 0.0 0.

(** The entries of ['reasons'] and ['warnings']; the source formats each
    into a text. *)
Inductive reason :=
| DailyLossLimitExceeded (daily_loss_pct : Q)
| ConsecutiveLossLimitExceeded (consecutive_losses : Z).

Inductive warning :=
| UnusualPriceMovement (price_change : Q).

Record checks := mk_checks {
  safe_to_trade : bool;
  reasons : list reason;
  warnings : list warning }.

(** [check_safety_conditions]: the returned dict and the manager with its
    [last_price_check] updated.  The division of two Python floats raises
    for a portfolio value of 0, before anything is updated. *)
Definition check_safety_conditions (m : t)
  (current_portfolio_value btc_price : Q) : outcome (checks * t) :=
  if Qeq_bool current_portfolio_value 0 then Raised "ZeroDivisionError"
  else
    let daily_loss_pct := Qabs (daily_pnl m) / current_portfolio_value in
    let c := mk_checks true [] [] in
    let c :=
      if Qgeb daily_loss_pct (daily_loss_limit m)
      then mk_checks false
                     (reasons c ++ [DailyLossLimitExceeded daily_loss_pct])
                     (warnings c)
      else c in
    let c :=
      if (consecutive_loss_limit m <=? consecutive_losses m)%Z
      then mk_checks false
                     (reasons c
                      ++ [ConsecutiveLossLimitExceeded (consecutive_losses m)])
                     (warnings c)
      else c in
    let c :=
      if Qgtb (last_price_check m) 0 then
        let price_change :=
          Qabs (btc_price - last_price_check m) / last_price_check m in
        if Qgeb price_change (unusual_price_movement_threshold m)
        then mk_checks (safe_to_trade c) (reasons c)
                       (warnings c ++ [UnusualPriceMovement price_change])
        else c
      else c in
    Returned (c, mk (daily_loss_limit m) (consecutive_loss_limit m)
                    (unusual_price_movement_threshold m) (daily_pnl m)
                    (consecutive_losses m) btc_price (trades_today m)).

Definition record_trade_result (m : t) (pnl : Q) (is_profitable : bool) : t :=
  mk (daily_loss_limit m) (consecutive_loss_limit m)
     (unusual_price_movement_threshold m)
     (daily_pnl m + pnl)
     (if is_profitable then 0 else consecutive_losses m + 1)%Z
     (last_price_check m)
     (trades_today m + 1)%Z.

Definition reset_daily_counters (m : t) : t :=
  mk (daily_loss_limit m) (consecutive_loss_limit m)
     (unusual_price_movement_threshold m)
     0.0 (consecutive_losses m) (last_price_check m) 0.

End SafetyManager.

(** ** exchange_integration/automated_trader.py

    The coroutines of the trader run one after the other within a trading
    cycle; each is written as a function of the trader's state and of what
    the exchange or the price provider answers. *)

Module AutomatedTrader.

(** The attributes of the trader that change, with its configuration. *)
Record t := mk {
  config : TradingConfig.t;
  safety_manager : SafetyManager.t;
  is_running : bool;
  current_position : Q }.

(** [_initialize_exchange], from what [getattr(ccxt, exchange)] and the
    construction of the exchange object (with [load_markets()] outside dry
    run) do; every exception is raised again. *)
Definition _initialize_exchange (c : TradingConfig.t)
  (exchange_class connection : outcome unit) : outcome unit :=
  match exchange_class with
  | Raised e => Raised e
  | Returned _ =>
      match TradingConfig.get_exchange_specific_config c with
      | Raised e => Raised e
      | Returned _ => connection
      end
  end.

(** [AutomatedTrader.__init__]. *)
Definition init (c : TradingConfig.t)
  (exchange_class connection : outcome unit) : outcome t :=
  match TradingConfig.validate c with
  | e :: errors' =>
      Raised ("Trading configuration errors: "
              ++ String.concat "; " (e :: errors'))
  | [] =>
      match _initialize_exchange c exchange_class connection with
      | Raised e => Raised e
      | Returned _ => Returned (mk c SafetyManager.init false 0.0)
      end
  end.

(** [_get_btc_price], from what the price provider (dry run) or the
    ticker of the exchange answers; [price or 50000.0] also replaces a
    price of 0. *)
Definition _get_btc_price (tr : t) (provider : outcome (option Q))
  (ticker : outcome Q) : Q :=
  if TradingConfig.dry_run (config tr) then
    match provider with
    | Returned (Some price) => if Qeq_bool price 0 then 50000.0 else price
    | Returned None => 50000.0
    | Raised _ => 50000.0
    end
  else
    match ticker with
    | Returned last => last
    | Raised _ => 50000.0
    end.

(** [_health_check], from the dict [model.health_check()] returned and
    from what [fetch_ticker] does outside dry run. *)
Definition _health_check (tr : t) (model_health : BitcoinMacroModel.health)
  (ticker : outcome Q) : bool :=
  if String.eqb (BitcoinMacroModel.overall_status model_health) "error"
  then false
  else if TradingConfig.dry_run (config tr) then true
  else
    match ticker with
    | Returned _ => true
    | Raised _ => false
    end.

(** [trade_plan.get('action')], [.get('position_size', 0)] and
    [.get('entry_strategy', 'immediate')]; [None] is the empty dict. *)
Definition plan_action (p : option trade_plan) : option string :=
  match p with
  | None => None
  | Some (NoAction _ _) => Some "no_action"
  | Some (Plan action _ _ _ _ _ _ _) => Some action
  end.

Definition plan_size (p : option trade_plan) : Q :=
  match p with
  | None => 0
  | Some (NoAction _ position_size) => position_size
  | Some (Plan _ position_size _ _ _ _ _ _) => position_size
  end.

Definition plan_strategy (p : option trade_plan) : string :=
  match p with
  | Some (Plan _ _ _ entry_strategy _ _ _ _) => entry_strategy
  | _ => "immediate"
  end.

(** The position arithmetic of the trader is followed with its rounding:
    [fl] maps the exact result of an operation on floats to the float the
    source computes, so that [a - b] of the source is [fl (a - b)], and the
    decimal literal [0.9] is the float [fl 0.9].  The quantities passed in
    (position, portfolio value, price, minimum order size) are floats. *)
Section Rounding.

Variable fl : Q -> Q.

(** [_execute_immediate_buy]; [order] says whether [_place_order] returned
    an order (it returns [None] when the exchange raises). *)
Definition _execute_immediate_buy (tr : t) (btc_amount : Q) (order : bool) : t :=
  if TradingConfig.dry_run (config tr) || order
  then mk (config tr) (safety_manager tr) (is_running tr)
          (fl (current_position tr + btc_amount))
  else tr.

(** [_execute_scaled_entry]: an immediate buy, whatever the time frame. *)
Definition _execute_scaled_entry (tr : t) (total_btc_amount : Q)
  (timeframe : string) (order : bool) : t :=
  _execute_immediate_buy tr total_btc_amount order.

(** [portfolio_value * position_size / btc_price], as
    [_execute_trade_plan] computes it. *)
Definition target_btc_amount (portfolio_value position_size btc_price : Q) : Q :=
  fl (fl (portfolio_value * position_size) / btc_price).

(** [_execute_trade_plan] at the price [btc_price] that [_get_btc_price]
    returned; dividing by a price of 0 raises. *)
Definition _execute_trade_plan (tr : t) (p : option trade_plan)
  (portfolio_value btc_price : Q) (order : bool) : outcome t :=
  let action := plan_action p in
  if negb (status_is "buy" action) && negb (status_is "accumulate" action)
  then Returned tr
  else
    let position_size := plan_size p in
    if Qeq_bool btc_price 0 then Raised "ZeroDivisionError"
    else
      let target_btc_amount :=
        target_btc_amount portfolio_value position_size btc_price in
      if Qgeb (current_position tr) (fl (target_btc_amount * fl 0.9))
      then Returned tr
      else
        let btc_to_buy := fl (target_btc_amount - current_position tr) in
        if Qltb btc_to_buy (TradingConfig.min_order_size_btc (config tr))
        then Returned tr
        else
          let entry_strategy := plan_strategy p in
          if String.eqb entry_strategy "scaled_72h"
          then Returned (_execute_scaled_entry tr btc_to_buy "72h" order)
          else if String.eqb entry_strategy "accumulate_30_days"
          then Returned (_execute_scaled_entry tr btc_to_buy "30d" order)
          else Returned (_execute_immediate_buy tr btc_to_buy order).


End Rounding.

End AutomatedTrader.

Import BitcoinMacroModel.

(** * Vocabulary of the properties

    Readings, runs and predicates the statements below are about. *)

(** The reserve classification and score of a reading [r]. *)
Definition reserve_bucket (s : Settings.t) (r : Q) : option string * option Q :=
  let rd := FedPivotModel.get_exchange_reserves s (Returned (Some r)) in
  (FedPivotModel.reserve_level rd, FedPivotModel.reserve_score rd).

(** The growth classification and score of a growth rate [g]. *)
Definition growth_bucket (s : Settings.t) (g : Q) : option string * option Q :=
  let md := M2MinerModel.get_m2_data s (Some g) (Returned None) in
  (M2MinerModel.growth_level md, M2MinerModel.growth_score md).

Definition in_unit (x : Q) : Prop := 0 <= x /\ x <= 1.

(** Two snapshots classified ['extreme_expansion'] (growth 16%): a slowing
    growth with a neutral ribbon scores 0.65, a sharply slowing growth with a
    sell ribbon after capitulation scores 0.55. *)
Definition extreme_at_065 : signal_data :=
  M2MinerModel.calculate_signal_strength Settings.default
    (M2MinerModel.get_m2_data Settings.default (Some 0.16)
       (Returned (Some (-0.02))))
    (M2MinerModel.get_hash_ribbon_data
       (Returned (Some (M2MinerModel.mk_hash_data (Some "neutral")
                          (Some false))))).

Definition extreme_at_055 : signal_data :=
  M2MinerModel.calculate_signal_strength Settings.default
    (M2MinerModel.get_m2_data Settings.default (Some 0.16)
       (Returned (Some (-0.04))))
    (M2MinerModel.get_hash_ribbon_data
       (Returned (Some (M2MinerModel.mk_hash_data (Some "sell")
                          (Some true))))).

(** The same classification with a buy ribbon: the combined score is 1.0. *)
Definition extreme_at_100 : signal_data :=
  M2MinerModel.calculate_signal_strength Settings.default
    (M2MinerModel.get_m2_data Settings.default (Some 0.16) (Returned None))
    (M2MinerModel.get_hash_ribbon_data
       (Returned (Some (M2MinerModel.mk_hash_data (Some "buy")
                          (Some false))))).

Definition is_plan (p : trade_plan) : bool :=
  match p with
  | NoAction _ _ => false
  | Plan _ _ _ _ _ _ _ _ => true
  end.

(** [plan['position_size']]. *)
Definition plan_position_size (p : trade_plan) : Q :=
  match p with
  | NoAction _ position_size => position_size
  | Plan _ position_size _ _ _ _ _ _ => position_size
  end.

(** [plan['position_value']]; the early return has no such key. *)
Definition plan_position_value (p : trade_plan) : option Q :=
  match p with
  | NoAction _ _ => None
  | Plan _ _ position_value _ _ _ _ _ => Some position_value
  end.

(** [plan['entry_plan']]; the early return has no such key. *)
Definition plan_entry_plan (p : trade_plan) : list tranche :=
  match p with
  | NoAction _ _ => []
  | Plan _ _ _ _ entry_plan _ _ _ => entry_plan
  end.

Definition fractions_sum (entry_plan : list tranche) : Q :=
  fold_right (fun t acc => percentage t + acc) 0 entry_plan.

(** What C7 asks of a plan [p] made for [portfolio_value] under the
    settings [s]. *)
Definition well_formed_plan (s : Settings.t) (portfolio_value : Q)
  (p : trade_plan) : Prop :=
  is_plan p = true /\
  fractions_sum (plan_entry_plan p) == 1 /\
  plan_position_size p <= Settings.max (Settings.get_position_limits s None) /\
  exists position_value,
    plan_position_value p = Some position_value /\
    position_value = portfolio_value * plan_position_size p /\
    Forall (fun t => value t = position_value * percentage t)
           (plan_entry_plan p).

(** The entry [get_all_signals] records for the model [m] registered under
    [id]. *)
Definition entry {Analysis : Type} (m : model Analysis) (id : Z)
  (portfolio_value : Q) : result Analysis :=
  match model_analyze m portfolio_value with
  | Returned a => Analysed a id portfolio_value
  | Raised msg => ErrorResult msg false 0.0
  end.

(** [del self.scenarios[id]]. *)
Definition unregister {Analysis : Type} (id : Z) (scs : scenarios Analysis)
  : scenarios Analysis :=
  filter (fun item => negb (Z.eqb (fst item) id)) scs.

(** The entries of [all] that can be selected: no error field and a
    positive score. *)
Definition candidate {Analysis : Type} (score_of : Analysis -> Q)
  (r : result Analysis) : bool :=
  negb (has_error r) && Qgtb (result_score score_of r) 0.

(** [r] is the first entry of [all] with the greatest score among those
    without an error field. *)
Definition first_maximum {Analysis : Type} (score_of : Analysis -> Q)
  (all : list (Z * result Analysis)) (r : result Analysis) : Prop :=
  exists before k after,
    all = before ++ (k, r) :: after /\
    has_error r = false /\
    (forall e, In e before -> has_error (snd e) = false ->
               result_score score_of (snd e) < result_score score_of r) /\
    (forall e, In e after -> has_error (snd e) = false ->
               result_score score_of (snd e) <= result_score score_of r).

(** The state of the loop after the entries [all]. *)
Definition loop_invariant {Analysis : Type} (score_of : Analysis -> Q)
  (all : list (Z * result Analysis)) (st : option (result Analysis) * Q)
  : Prop :=
  match fst st with
  | None =>
      snd st = 0.0 /\ forall e, In e all -> candidate score_of (snd e) = false
  | Some r =>
      snd st = result_score score_of r /\ 0 < result_score score_of r /\
      first_maximum score_of all r
  end.

(** What the loop of [get_all_signals] stores under [id]. *)
Definition recorded {Analysis : Type} (scs : scenarios Analysis)
  (portfolio_value : Q) (id : Z) : result Analysis :=
  match run_analysis scs id portfolio_value with
  | Returned r => r
  | Raised msg => ErrorResult msg false 0.0
  end.

(** The model's [health_check] returns the status ['healthy']. *)
Definition reports_healthy {Analysis : Type} (m : model Analysis) : bool :=
  match model_health_check m with
  | Returned st => status_is "healthy" st
  | Raised _ => false
  end.

(** Nothing can be read: FRED has neither rate nor M2 growth, the on-chain
    provider has neither reserves nor hash data.  No call raises. *)
Definition no_data : BitcoinMacroModel.snapshot :=
  BitcoinMacroModel.mk_snapshot
    (Returned (FedPivotModel.mk_fred_readings None
                 (FREDClient.detect_fed_pivot (Returned [])) None))
    (Returned None) None (Returned None) (Returned None)
    (Some "degraded") (Some "degraded") (Some "healthy").

(** All data is there, and the FRED client reports the status ['error']. *)
Definition fred_in_error : BitcoinMacroModel.snapshot :=
  BitcoinMacroModel.mk_snapshot
    (Returned (FedPivotModel.mk_fred_readings (Some 0.5)
                 (FREDClient.detect_fed_pivot (Returned [])) (Some 0.16)))
    (Returned (Some 2350000)) (Some 0.16) (Returned None)
    (Returned (Some (M2MinerModel.mk_hash_data (Some "neutral") (Some false))))
    (Some "error") (Some "healthy") (Some "healthy").

(** A model whose [health_check] returns the given status. *)
Definition reporting (st : string)
  : BitcoinMacroModel.model BitcoinMacroModel.scenario_analysis :=
  BitcoinMacroModel.mk_model (fun _ => Raised "analysis not available")
                             (Returned (Some st)).

(** A model whose [analyze] and [health_check] raise. *)
Definition crashing
  : BitcoinMacroModel.model BitcoinMacroModel.scenario_analysis :=
  BitcoinMacroModel.mk_model (fun _ => Raised "connection refused")
                             (Raised "connection refused").

(** The statuses recorded in [health['components']], in order. *)
Definition component_statuses (h : BitcoinMacroModel.health)
  : list (option string) :=
  map (fun c => BitcoinMacroModel.status (snd c))
      (BitcoinMacroModel.components h).

(** The sum of the tranche values of an entry plan. *)
Definition values_sum (entry_plan : list tranche) : Q :=
  fold_right (fun t acc => value t + acc) 0 entry_plan.

(** The multiplier [calculate_fed_score] applies to the Fed data [fd]. *)
Definition multiplier_of (fd : FedPivotModel.fed_data) : Q :=
  FedPivotModel.direction_multiplier
    (get (FedPivotModel.pivot_detected fd) false)
    (get (FedPivotModel.pivot_direction fd) "neutral")
    (get (FedPivotModel.pivot_magnitude fd) 0).

(** The Fed data [get_fed_data] builds from the rate series [df] of the
    FRED client. *)
Definition fed_data_of_series (df : outcome (list Q))
  (m2_growth : option Q) : FedPivotModel.fed_data :=
  FedPivotModel.get_fed_data
    (Returned (FedPivotModel.mk_fred_readings
                 (FREDClient.get_current_fed_rate df)
                 (FREDClient.detect_fed_pivot df) m2_growth)).

(** The signals of both scenarios when the on-chain data comes from the
    mock provider the factory creates. *)
Definition shipped_fed_signals (s : Settings.t) (fd : FedPivotModel.fed_data)
  : signal_data :=
  FedPivotModel.calculate_signal_strength s fd
    (FedPivotModel.get_exchange_reserves s
       (Returned MockOnChainDataProvider.get_exchange_reserves)).

Definition shipped_m2_signals (s : Settings.t) (m2_growth : option Q)
  (acceleration : outcome (option Q)) : signal_data :=
  M2MinerModel.calculate_signal_strength s
    (M2MinerModel.get_m2_data s m2_growth acceleration)
    (M2MinerModel.get_hash_ribbon_data
       (Returned (Some MockOnChainDataProvider.get_hash_ribbon_signal))).

(** The status a scenario model reports with the providers the factory
    creates, from the rate series and the price request. *)
Definition shipped_status (rates : outcome (list Q))
  (price : outcome (option Q)) : string :=
  providers_status
    [ Some (FREDClient.health_check rates);
      Some (CoinGeckoClient.health_check price);
      Some MockOnChainDataProvider.health_check ].

(** The model's [health_check] raises. *)
Definition health_check_raises {Analysis : Type} (m : model Analysis) : bool :=
  match model_health_check m with
  | Returned _ => false
  | Raised _ => true
  end.

(** The operations on an [ErrorTracker], and a tracker after a sequence of
    them. *)
Inductive tracker_op :=
| RecordError (now error_type message context component : string)
| ClearErrors.

Definition apply_op (t : ErrorHandling.ErrorTracker) (op : tracker_op)
  : ErrorHandling.ErrorTracker :=
  match op with
  | RecordError now error_type message context component =>
      ErrorHandling.record_error t now error_type message context component
  | ClearErrors => ErrorHandling.clear_errors t
  end.

Definition run_tracker (ops : list tracker_op) : ErrorHandling.ErrorTracker :=
  fold_left apply_op ops ErrorHandling.new_tracker.

(** The number of recorded errors whose key is [key]. *)
Definition count_key (key : string) (errs : list ErrorHandling.error_record)
  : Z :=
  Z.of_nat
    (List.length
       (filter (fun e =>
                  String.eqb (ErrorHandling.error_key
                                (ErrorHandling.component e)
                                (ErrorHandling.error_type e)) key)
               errs)).

(** The safety manager after a sequence of trade results, each a profit or
    loss and whether the trade was profitable. *)
Definition run_trades (m : SafetyManager.t) (trades : list (Q * bool))
  : SafetyManager.t :=
  fold_left (fun m t => SafetyManager.record_trade_result m (fst t) (snd t))
            trades m.

(** The sum of the profits and losses of a sequence of trade results. *)
Definition total_pnl (trades : list (Q * bool)) : Q :=
  fold_right (fun t acc => fst t + acc) 0 trades.

(** The configuration of the source's examples, in dry run. *)
Definition example_config (requests_per_minute : Z) : TradingConfig.t :=
  TradingConfig.mk "binance" "key" "secret" None true true 0.10 0.001 10 0.02
                   0.02 requests_per_minute.

(** The Fed data [get_fed_data] builds from what the FRED client answers:
    the current rate, the pivot information [detect_fed_pivot] derives from
    the rate series [rates], and the M2 growth. *)
Definition fed_data_of_readings (current_rate : option Q)
  (rates : outcome (list Q)) (m2_growth : option Q) : FedPivotModel.fed_data :=
  FedPivotModel.get_fed_data
    (Returned (FedPivotModel.mk_fred_readings
                 current_rate (FREDClient.detect_fed_pivot rates) m2_growth)).

(** What the statements about the trader's arithmetic ask of the rounding
    [fl]: it is monotone, it leaves a float as it is, and 0 and 1 are
    floats.  Rounding to nearest has these properties. *)
Definition float_rounding (fl : Q -> Q) : Prop :=
  (forall x y, x <= y -> fl x <= fl y) /\
  (forall x, fl (fl x) == fl x) /\
  fl 0 == 0 /\
  fl 1 == 1.

(** [x] is a float. *)
Definition representable (fl : Q -> Q) (x : Q) : Prop := fl x == x.

(** Rounding down to a multiple of 1/8. *)
Definition eighths (x : Q) : Q := inject_Z (Qfloor (x * 8)) / 8.

(** * Properties *)

(** ** Comparisons and dict lookups *)

Lemma Qltb_true (x y : Q) : Qltb x y = true <-> x < y.
Proof.
  unfold Qltb. rewrite negb_true_iff. split; intro H.
  - apply Qnot_le_lt. intro Hle. apply Qle_bool_iff in Hle. congruence.
  - destruct (Qle_bool y x) eqn:E; [|reflexivity].
    apply Qle_bool_iff in E. exfalso. apply (Qlt_not_le _ _ H E).
Qed.

Lemma Qltb_false (x y : Q) : Qltb x y = false <-> y <= x.
Proof.
  unfold Qltb. rewrite negb_false_iff. apply Qle_bool_iff.
Qed.

Lemma Qgeb_true (x y : Q) : Qgeb x y = true <-> y <= x.
Proof. apply Qle_bool_iff. Qed.

Lemma Qgeb_false (x y : Q) : Qgeb x y = false <-> x < y.
Proof.
  unfold Qgeb. rewrite <- (Qltb_true x y). unfold Qltb.
  destruct (Qle_bool y x); simpl; split; congruence.
Qed.

Lemma Qgtb_true (x y : Q) : Qgtb x y = true <-> y < x.
Proof. apply Qltb_true. Qed.

Lemma Qgtb_false (x y : Q) : Qgtb x y = false <-> x <= y.
Proof. apply Qltb_false. Qed.

(** Turns every boolean comparison among the hypotheses into its order
    statement. *)
Ltac order_facts :=
  repeat match goal with
    | H : Qltb _ _ = true |- _ => apply Qltb_true in H
    | H : Qltb _ _ = false |- _ => apply Qltb_false in H
    | H : Qgtb _ _ = true |- _ => apply Qgtb_true in H
    | H : Qgtb _ _ = false |- _ => apply Qgtb_false in H
    | H : Qgeb _ _ = true |- _ => apply Qgeb_true in H
    | H : Qgeb _ _ = false |- _ => apply Qgeb_false in H
    end.

(** Splits on the first comparison that decides the goal's cascade. *)
Ltac split_cascade :=
  repeat match goal with
    | |- context [if Qltb ?x ?y then _ else _] =>
        let E := fresh "E" in destruct (Qltb x y) eqn:E
    | |- context [if Qgtb ?x ?y then _ else _] =>
        let E := fresh "E" in destruct (Qgtb x y) eqn:E
    | |- context [if Qgeb ?x ?y then _ else _] =>
        let E := fresh "E" in destruct (Qgeb x y) eqn:E
    end.

(** Replaces each [Qmin]/[Qmax] of the goal by a fresh variable with the
    order facts that define it. *)
Ltac name_minmax :=
  repeat match goal with
    | |- context [Qmin ?a ?b] =>
        let m := fresh "m" in
        let Hm := fresh "Hm" in
        destruct (Q.min_spec a b) as [[? Hm]|[? Hm]];
        remember (Qmin a b) as m
    | |- context [Qmax ?a ?b] =>
        let m := fresh "m" in
        let Hm := fresh "Hm" in
        destruct (Q.max_spec a b) as [[? Hm]|[? Hm]];
        remember (Qmax a b) as m
    end.

(** Rewrites a division by a constant as a multiplication. *)
Ltac constant_division :=
  repeat match goal with
    | |- context [?a / ?c] =>
        is_ground c;
        let v := eval vm_compute in (/ c) in change (a / c) with (a * v)
    | H : context [?a / ?c] |- _ =>
        is_ground c;
        let v := eval vm_compute in (/ c) in change (a / c) with (a * v) in H
    end.

Lemma lookup_dict_set {V : Type} (k k' : Z) (v : V) (d : list (Z * V)) :
  lookup Z.eqb k (BitcoinMacroModel.dict_set k' v d)
  = if Z.eqb k k' then Some v else lookup Z.eqb k d.
Proof.
  induction d as [|[k0 v0] d IH]; simpl.
  - reflexivity.
  - destruct (Z.eqb k' k0) eqn:E0; simpl.
    + apply Z.eqb_eq in E0. subst k0.
      destruct (Z.eqb k k'); reflexivity.
    + destruct (Z.eqb k k0) eqn:E1.
      * apply Z.eqb_eq in E1. subst k0.
        rewrite Z.eqb_sym, E0. reflexivity.
      * exact IH.
Qed.

(** ** Bucket scans (C3) *)

Lemma reserve_bucket_scan (profile : string) (r : Q) :
  let bucket := reserve_bucket (Settings.init profile) r in
  (r < 2350000 -> bucket = (Some "critical_low", Some 1.0)) /\
  (2350000 <= r -> r < 2500000 -> bucket = (Some "low", Some 0.7)) /\
  (3000000 < r -> bucket = (Some "critical_high", Some 0.0)) /\
  (2800000 < r -> r <= 3000000 -> bucket = (Some "high", Some 0.2)) /\
  (2500000 <= r -> r <= 2800000 -> bucket = (Some "normal", Some 0.4)).
Proof.
  unfold reserve_bucket, FedPivotModel.get_exchange_reserves.
  cbn [Settings.EXCHANGE_RESERVE_THRESHOLDS Settings.init Settings.critical_low
       Settings.low Settings.high Settings.critical_high].
  split_cascade; order_facts; cbn;
    repeat split; intros; try reflexivity; exfalso; lra.
Qed.

Lemma fed_rate_scan (profile : string) (rate : Q) :
  let score := FedPivotModel.base_score (Settings.init profile) rate in
  (rate < 1.0 -> score = 0.8) /\
  (1.0 <= rate -> rate < 3.0 -> score = 0.5) /\
  (3.0 <= rate -> rate < 5.0 -> score = 0.3) /\
  (5.0 <= rate -> score = 0.1).
Proof.
  unfold FedPivotModel.base_score.
  cbn [Settings.FED_RATE_THRESHOLDS Settings.init Settings.ultra_low
       Settings.rate_low Settings.neutral].
  split_cascade; order_facts; cbn;
    repeat split; intros; try reflexivity; exfalso; lra.
Qed.

Lemma growth_bucket_scan (profile : string) (g : Q) :
  let bucket := growth_bucket (Settings.init profile) g in
  (0.15 <= g -> bucket = (Some "extreme_expansion", Some 1.0)) /\
  (0.10 <= g -> g < 0.15 -> bucket = (Some "strong_expansion", Some 0.8)) /\
  (0.05 <= g -> g < 0.10 -> bucket = (Some "normal_expansion", Some 0.5)) /\
  (0.0 <= g -> g < 0.05 -> bucket = (Some "slow_growth", Some 0.2)) /\
  (g < 0.0 -> bucket = (Some "contraction", Some 0.0)).
Proof.
  unfold growth_bucket, M2MinerModel.get_m2_data.
  cbn [Settings.M2_THRESHOLDS Settings.init Settings.extreme_expansion
       Settings.strong_expansion Settings.normal_expansion
       Settings.contraction].
  split_cascade; order_facts; cbn;
    repeat split; intros; try reflexivity; exfalso; lra.
Qed.

(** C3, as stated, fails on the M2 scan: the growth rate 0.15, equal to the
    top boundary, is put in the most extreme bucket ['extreme_expansion']
    with score 1.0, not in the less extreme ['strong_expansion']; so the scan
    does not compare with a strict [>]. *)
Lemma growth_scan_not_strict :
  growth_bucket Settings.default 0.15 = (Some "extreme_expansion", Some 1.0) /\
  ~ (forall g : Q,
       fst (growth_bucket Settings.default g) = Some "extreme_expansion"
       -> 0.15 < g).
Proof.
  split.
  - reflexivity.
  - intro H. specialize (H 0.15 eq_refl). lra.
Qed.

(** C3, amended: the exchange-reserve scan and the Fed-rate scan compare
    strictly ([<] on the low side, [>] on the high side), so a reading equal
    to a boundary falls into the less extreme bucket, with the reserve
    scores 1.0 below 2.35M, 0.7 below 2.5M, 0.0 above 3.0M, 0.2 above 2.8M and
    0.4 otherwise; the M2-growth scan compares with [>=], so a growth rate
    equal to a boundary falls into the more extreme bucket. *)
Theorem bucket_scans (profile : string) (r rate g : Q) :
  let s := Settings.init profile in
  ((r < 2350000 -> reserve_bucket s r = (Some "critical_low", Some 1.0)) /\
   (2350000 <= r -> r < 2500000 -> reserve_bucket s r = (Some "low", Some 0.7)) /\
   (3000000 < r -> reserve_bucket s r = (Some "critical_high", Some 0.0)) /\
   (2800000 < r -> r <= 3000000 -> reserve_bucket s r = (Some "high", Some 0.2)) /\
   (2500000 <= r -> r <= 2800000 -> reserve_bucket s r = (Some "normal", Some 0.4)))
  /\
  ((rate < 1.0 -> FedPivotModel.base_score s rate = 0.8) /\
   (1.0 <= rate -> rate < 3.0 -> FedPivotModel.base_score s rate = 0.5) /\
   (3.0 <= rate -> rate < 5.0 -> FedPivotModel.base_score s rate = 0.3) /\
   (5.0 <= rate -> FedPivotModel.base_score s rate = 0.1))
  /\
  ((0.15 <= g -> growth_bucket s g = (Some "extreme_expansion", Some 1.0)) /\
   (0.10 <= g -> g < 0.15 ->
    growth_bucket s g = (Some "strong_expansion", Some 0.8)) /\
   (0.05 <= g -> g < 0.10 ->
    growth_bucket s g = (Some "normal_expansion", Some 0.5)) /\
   (0.0 <= g -> g < 0.05 -> growth_bucket s g = (Some "slow_growth", Some 0.2)) /\
   (g < 0.0 -> growth_bucket s g = (Some "contraction", Some 0.0))).
Proof.
  intro s. split; [|split].
  - exact (reserve_bucket_scan profile r).
  - exact (fed_rate_scan profile rate).
  - exact (growth_bucket_scan profile g).
Qed.

(** The boundary readings 2.35M, 5.0 and 0.15 of the amended claim. *)
Lemma bucket_scans_witness :
  reserve_bucket Settings.default 2350000 = (Some "low", Some 0.7) /\
  FedPivotModel.base_score Settings.default 5.0 = 0.1 /\
  growth_bucket Settings.default 0.15 = (Some "extreme_expansion", Some 1.0).
Proof.
  destruct (bucket_scans "moderate" 2350000 5.0 0.15)
    as [[_ [Hr _]] [[_ [_ [_ Hf]]] [Hg _]]].
  split; [|split].
  - apply Hr; lra.
  - apply Hf; lra.
  - apply Hg; lra.
Defined.

(** ** Scenario 1: the rate score and its multiplier (C8, C6) *)

Lemma base_score_range (s : Settings.t) (rate : Q) :
  0.1 <= FedPivotModel.base_score s rate /\
  FedPivotModel.base_score s rate <= 0.8.
Proof.
  unfold FedPivotModel.base_score. cbv zeta.
  split_cascade; split; lra.
Qed.

Lemma direction_multiplier_range (detected : bool) (direction : string)
  (magnitude : Q) :
  0 <= magnitude ->
  0.3 <= FedPivotModel.direction_multiplier detected direction magnitude /\
  FedPivotModel.direction_multiplier detected direction magnitude <= 2.0.
Proof.
  intro Hm. unfold FedPivotModel.direction_multiplier.
  destruct detected, (String.eqb direction "cutting"),
    (String.eqb direction "hiking"); try (split; lra).
  all: name_minmax; constant_division; split; lra.
Qed.

Lemma reserve_score_range (s : Settings.t) (reserves : outcome (option Q)) :
  let score :=
    get (FedPivotModel.reserve_score
           (FedPivotModel.get_exchange_reserves s reserves)) 0.0 in
  0 <= score /\ score <= 1.
Proof.
  unfold FedPivotModel.get_exchange_reserves.
  destruct reserves as [[r|]|msg]; cbn; try (split; lra).
  split_cascade; cbn; split; lra.
Qed.

(** The reserve score of a reading, bucket by bucket. *)
Lemma reserve_score_cases (profile : string) (r : Q) :
  let score :=
    get (FedPivotModel.reserve_score
           (FedPivotModel.get_exchange_reserves (Settings.init profile)
              (Returned (Some r)))) 0.0 in
  (r < 2350000 /\ score = 1.0) \/
  (2350000 <= r /\ r < 2500000 /\ score = 0.7) \/
  (3000000 < r /\ score = 0.0) \/
  (2800000 < r /\ r <= 3000000 /\ score = 0.2) \/
  (2500000 <= r /\ r <= 2800000 /\ score = 0.4).
Proof.
  unfold FedPivotModel.get_exchange_reserves.
  cbn [Settings.EXCHANGE_RESERVE_THRESHOLDS Settings.init Settings.critical_low
       Settings.low Settings.high Settings.critical_high].
  split_cascade; order_facts; cbn [get FedPivotModel.reserve_score]; tauto.
Qed.

(** C8: the multiplier is [1.5 + min(0.5, magnitude/2.0)] for a detected
    pivot that is cutting (easing), 0.3 for a detected pivot that is hiking
    (tightening), 1.2 for cutting without a detected pivot and 1.0
    otherwise; the rate score is the base score times the multiplier, clamped
    to at most 1.0, and the clamp is applied before the 0.6 weighting: with
    base 0.8, multiplier 2.0 and reserve score 1.0 the combined score is
    1.0, where a clamp after the weighting would give 0.96 + 0.4. *)
Theorem fed_directional_multiplier
  (s : Settings.t) (rate magnitude : Q) (detected : bool) (direction : string)
  (err : option string) (rd : FedPivotModel.reserve_data) :
  let m := FedPivotModel.direction_multiplier detected direction magnitude in
  let fd := FedPivotModel.mk_fed_data (Some rate) (Some detected)
              (Some direction) (Some magnitude) err in
  (detected = true -> direction = "cutting" ->
   m = 1.5 + Qmin 0.5 (magnitude / 2.0)) /\
  (detected = true -> direction = "hiking" -> m = 0.3) /\
  (detected = false -> direction = "cutting" -> m = 1.2) /\
  (detected = true -> direction <> "cutting" -> direction <> "hiking" ->
   m = 1.0) /\
  (detected = false -> direction <> "cutting" -> m = 1.0) /\
  FedPivotModel.calculate_fed_score s fd
  = Qmin 1.0 (FedPivotModel.base_score s rate * m) /\
  FedPivotModel.calculate_fed_score s fd <= 1 /\
  combined_score (FedPivotModel.calculate_signal_strength s fd rd)
  = Qmin 1.0 (FedPivotModel.base_score s rate * m) * 0.6
    + get (FedPivotModel.reserve_score rd) 0.0 * 0.4 /\
  combined_score
    (FedPivotModel.calculate_signal_strength Settings.default
       (FedPivotModel.mk_fed_data (Some 0.5) (Some true) (Some "cutting")
                                  (Some 1.0) None)
       (FedPivotModel.mk_reserve_data (Some 2300000) (Some "critical_low")
                                      (Some 1.0) None))
  == 1.0.
Proof.
  intros m fd. subst m fd. unfold FedPivotModel.direction_multiplier.
  repeat split.
  - intros -> ->. reflexivity.
  - intros -> ->. reflexivity.
  - intros -> ->. reflexivity.
  - intros -> Hc Hh.
    apply String.eqb_neq in Hc, Hh. rewrite Hc, Hh. reflexivity.
  - intros -> Hc. apply String.eqb_neq in Hc. rewrite Hc. reflexivity.
  - unfold FedPivotModel.calculate_fed_score. cbn [FedPivotModel.fed_funds_rate].
    eapply Qle_trans; [apply Q.le_min_l | lra].
Qed.

(** The test case of the source: a detected cutting pivot. *)
Lemma fed_directional_multiplier_witness :
  FedPivotModel.direction_multiplier true "cutting" 1.0
  = 1.5 + Qmin 0.5 (1.0 / 2.0) /\
  FedPivotModel.direction_multiplier true "hiking" 1.0 = 0.3 /\
  FedPivotModel.direction_multiplier false "cutting" 1.0 = 1.2 /\
  FedPivotModel.direction_multiplier true "neutral" 1.0 = 1.0 /\
  FedPivotModel.direction_multiplier false "hiking" 1.0 = 1.0.
Proof.
  pose (rd := FedPivotModel.mk_reserve_data None None None None).
  split; [|split; [|split; [|split]]].
  - apply (fed_directional_multiplier Settings.default 0.5 1.0 true "cutting"
             None rd); reflexivity.
  - apply (fed_directional_multiplier Settings.default 0.5 1.0 true "hiking"
             None rd); reflexivity.
  - apply (fed_directional_multiplier Settings.default 0.5 1.0 false "cutting"
             None rd); reflexivity.
  - destruct (fed_directional_multiplier Settings.default 0.5 1.0 true
                "neutral" None rd) as (_ & _ & _ & H & _).
    apply H; [reflexivity|discriminate|discriminate].
  - destruct (fed_directional_multiplier Settings.default 0.5 1.0 false
                "hiking" None rd) as (_ & _ & _ & _ & H & _).
    apply H; [reflexivity|discriminate].
Defined.

(** C6: without a policy-rate reading the rate score of scenario 1 is 0.0
    whatever the other fields of the Fed data are, the combined score is 0.4
    times the reserve score, hence at most 0.4, and with the default
    threshold 0.70 there is no buy signal.  The reserve score is the one
    [get_exchange_reserves] gives the reading: 1.0 below 2.35M (combined
    score 0.4), 0.7 below 2.5M, 0.4 up to 2.8M, 0.2 up to 3.0M, 0.0 above,
    and 0.0 without a reading (combined score 0). *)
Theorem missing_rate_never_buys
  (profile : string) (fd : FedPivotModel.fed_data)
  (reserves : outcome (option Q)) :
  FedPivotModel.fed_funds_rate fd = None ->
  let s := Settings.init profile in
  let rd := FedPivotModel.get_exchange_reserves s reserves in
  let sd := FedPivotModel.calculate_signal_strength s fd rd in
  FedPivotModel.calculate_fed_score s fd = 0.0 /\
  first_score sd = 0.0 /\
  threshold sd = 0.70 /\
  combined_score sd == 0.4 * second_score sd /\
  combined_score sd <= 0.4 /\
  buy_signal sd = false /\
  second_score sd = get (FedPivotModel.reserve_score rd) 0.0 /\
  combined_score sd == 0.4 * get (FedPivotModel.reserve_score rd) 0.0 /\
  match reserves with
  | Returned (Some r) =>
      (r < 2350000 -> second_score sd = 1.0 /\ combined_score sd == 0.4) /\
      (2350000 <= r -> r < 2500000 -> second_score sd = 0.7) /\
      (2500000 <= r -> r <= 2800000 -> second_score sd = 0.4) /\
      (2800000 < r -> r <= 3000000 -> second_score sd = 0.2) /\
      (3000000 < r -> second_score sd = 0.0 /\ combined_score sd == 0)
  | Returned None | Raised _ =>
      second_score sd = 0.0 /\ combined_score sd == 0
  end.
Proof.
  intros Hrate s rd sd.
  assert (Hfed : FedPivotModel.calculate_fed_score s fd = 0.0).
  { unfold FedPivotModel.calculate_fed_score. rewrite Hrate. reflexivity. }
  destruct (reserve_score_range s reserves) as [Hlo Hhi].
  assert (Hsec : second_score sd = get (FedPivotModel.reserve_score rd) 0.0)
    by reflexivity.
  assert (Hcomb : combined_score sd == 0.4 * second_score sd).
  { subst sd. unfold FedPivotModel.calculate_signal_strength.
    cbn [combined_score second_score]. rewrite Hfed. lra. }
  assert (Hle : combined_score sd <= 0.4).
  { rewrite Hcomb. subst sd rd.
    unfold FedPivotModel.calculate_signal_strength. cbn [second_score].
    cbv zeta in Hhi. lra. }
  split; [exact Hfed|]. split; [exact Hfed|]. split; [reflexivity|].
  split; [exact Hcomb|]. split; [exact Hle|].
  split; [apply Qgeb_false; change (combined_score sd < 0.70); lra|].
  split; [exact Hsec|].
  split; [rewrite <- Hsec; exact Hcomb|].
  destruct reserves as [[r|]|msg];
    try (split; [reflexivity|]; rewrite Hcomb, Hsec; cbn; lra).
  destruct (reserve_score_cases profile r)
    as [[H Hs]|[(H1 & H2 & Hs)|[[H Hs]|[(H1 & H2 & Hs)|(H1 & H2 & Hs)]]]];
    cbv zeta in Hs; fold s in Hs; fold rd in Hs; rewrite <- Hsec in Hs;
    rewrite Hcomb, Hs;
    repeat split; intros; try reflexivity; try lra; exfalso; lra.
Qed.

(** A snapshot with no Fed data at all: with reserves at a critical low
    (2.3M) the combined score is 0.4, with reserves of 2.4M the reserve
    score is 0.7; neither buys. *)
Lemma missing_rate_never_buys_witness :
  let fd := FedPivotModel.get_fed_data (Raised "FRED unavailable") in
  let sd r :=
    FedPivotModel.calculate_signal_strength Settings.default fd
      (FedPivotModel.get_exchange_reserves Settings.default
         (Returned (Some r))) in
  (combined_score (sd 2300000) == 0.4 /\ buy_signal (sd 2300000) = false) /\
  (second_score (sd 2400000) = 0.7 /\ buy_signal (sd 2400000) = false).
Proof.
  intros fd sd.
  destruct (missing_rate_never_buys "moderate" fd (Returned (Some 2300000))
              eq_refl)
    as (_ & _ & _ & _ & _ & Hbuy & _ & _ & Hlow & _).
  destruct (missing_rate_never_buys "moderate" fd (Returned (Some 2400000))
              eq_refl)
    as (_ & _ & _ & _ & _ & Hbuy' & _ & _ & _ & Hmid & _).
  split; split.
  - apply Hlow. lra.
  - exact Hbuy.
  - apply Hmid; lra.
  - exact Hbuy'.
Defined.

(** ** Scenario 2: the sub-scores *)

Lemma clamp_unit (x : Q) :
  0 <= Qmin 1.0 (Qmax 0.0 x) /\ Qmin 1.0 (Qmax 0.0 x) <= 1.
Proof.
  split.
  - apply Q.min_glb; [lra|].
    apply Qle_trans with 0.0; [lra | apply Q.le_max_l].
  - apply Qle_trans with 1.0; [apply Q.le_min_l | lra].
Qed.

Lemma m2_score_range (md : M2MinerModel.m2_data) :
  0 <= M2MinerModel.calculate_m2_score md /\
  M2MinerModel.calculate_m2_score md <= 1.
Proof.
  unfold M2MinerModel.calculate_m2_score.
  destruct (M2MinerModel.m2_growth_rate md); [|split; lra].
  apply clamp_unit.
Qed.

Lemma ribbon_score_range (hash : outcome (option M2MinerModel.hash_data)) :
  let score :=
    get (M2MinerModel.ribbon_score (M2MinerModel.get_hash_ribbon_data hash))
        0.0 in
  0 <= score /\ score <= 1.
Proof.
  unfold M2MinerModel.get_hash_ribbon_data.
  destruct hash as [[hd|]|msg]; cbn [get M2MinerModel.ribbon_score];
    try (split; lra).
  destruct (String.eqb (get (M2MinerModel.signal hd) "neutral") "buy"),
    (String.eqb (get (M2MinerModel.signal hd) "neutral") "sell"),
    (get (M2MinerModel.hd_miner_capitulation hd) false);
    cbn [get M2MinerModel.ribbon_score];
    name_minmax; split; lra.
Qed.

(** The fields of scenario 2's signal that the override leaves alone. *)
Lemma m2_signal_fields (s : Settings.t) (md : M2MinerModel.m2_data)
  (mi : M2MinerModel.miner_data) :
  let sd := M2MinerModel.calculate_signal_strength s md mi in
  first_score sd = M2MinerModel.calculate_m2_score md /\
  second_score sd = get (M2MinerModel.ribbon_score mi) 0.0 /\
  combined_score sd = first_score sd * 0.5 + second_score sd * 0.5 /\
  threshold sd = Settings.get_signal_threshold s 2.
Proof.
  unfold M2MinerModel.calculate_signal_strength.
  destruct (M2MinerModel.is_extreme_expansion md);
    [match goal with |- context [Qgeb ?x 0.6] => destruct (Qgeb x 0.6) end|];
    cbn; repeat split; reflexivity.
Qed.

(** ** Scores lie in the unit interval (C4) *)

(** The multiplier of the rate score is negative only for a detected
    cutting pivot whose magnitude is below -3. *)
Lemma direction_multiplier_sign (detected : bool) (direction : string)
  (magnitude : Q) :
  0 <= FedPivotModel.direction_multiplier detected direction magnitude
  <-> ~ (detected = true /\ direction = "cutting" /\ magnitude < -3).
Proof.
  unfold FedPivotModel.direction_multiplier.
  destruct detected; [destruct (String.eqb direction "cutting") eqn:Ec|].
  - apply String.eqb_eq in Ec. split.
    + intros H (_ & _ & Hm). revert H.
      name_minmax; constant_division; lra.
    + intro H. destruct (Qlt_le_dec magnitude (-3)) as [Hm|Hm];
        [exfalso; apply H; repeat split; assumption|].
      name_minmax; constant_division; lra.
  - apply String.eqb_neq in Ec.
    split; [intros _ (_ & H & _); contradiction|].
    intros _. destruct (String.eqb direction "hiking"); lra.
  - split; [intros _ (H & _); discriminate|].
    intros _. destruct (String.eqb direction "cutting"); lra.
Qed.

(** The rate score never exceeds 1, and it is below 0 exactly for a rate
    reading with a detected cutting pivot of a magnitude below -3: the
    clamp of [calculate_fed_score] is [min(1.0, ...)] only. *)
Lemma fed_score_in_unit (s : Settings.t) (fd : FedPivotModel.fed_data) :
  in_unit (FedPivotModel.calculate_fed_score s fd)
  <-> ~ ((exists rate, FedPivotModel.fed_funds_rate fd = Some rate) /\
         get (FedPivotModel.pivot_detected fd) false = true /\
         get (FedPivotModel.pivot_direction fd) "neutral" = "cutting" /\
         get (FedPivotModel.pivot_magnitude fd) 0 < -3).
Proof.
  unfold FedPivotModel.calculate_fed_score, in_unit.
  destruct (FedPivotModel.fed_funds_rate fd) as [rate|].
  - cbv zeta.
    pose proof (base_score_range s rate) as [Hb0 Hb1].
    pose proof (direction_multiplier_sign
                  (get (FedPivotModel.pivot_detected fd) false)
                  (get (FedPivotModel.pivot_direction fd) "neutral")
                  (get (FedPivotModel.pivot_magnitude fd) 0)) as Hsign.
    set (b := FedPivotModel.base_score s rate) in *.
    set (m := FedPivotModel.direction_multiplier _ _ _) in *.
    clearbody b m.
    assert (Hle : Qmin 1.0 (b * m) <= 1)
      by (apply Qle_trans with 1.0; [apply Q.le_min_l | lra]).
    assert (Hprod : 0 <= Qmin 1.0 (b * m) <-> 0 <= m).
    { split; intro H.
      - assert (H' : 0 <= b * m)
          by (apply Qle_trans with (Qmin 1.0 (b * m));
              [exact H | apply Q.le_min_r]).
        nra.
      - apply Q.min_glb; [lra|]. apply Qmult_le_0_compat; lra. }
    split.
    + intros [H0 _] (_ & Hrest).
      apply (proj1 Hsign (proj1 Hprod H0)), Hrest.
    + intro H. split; [|exact Hle]. apply (proj2 Hprod), (proj2 Hsign).
      intro Hrest. apply H. split; [exists rate; reflexivity | exact Hrest].
  - split; [intros _ ((rate & H) & _); discriminate | intros _; split; lra].
Qed.

(** The magnitude [get_fed_data] passes on is never negative when the pivot
    information comes from [detect_fed_pivot], which reports an absolute
    value. *)
Lemma detected_magnitude_nonneg
  (df : outcome (list Q)) (current_rate m2_growth : option Q) :
  0 <= get (FedPivotModel.pivot_magnitude
              (FedPivotModel.get_fed_data
                 (Returned (FedPivotModel.mk_fred_readings
                              current_rate (FREDClient.detect_fed_pivot df)
                              m2_growth)))) 0.
Proof.
  unfold FREDClient.detect_fed_pivot.
  destruct df as [values|msg]; [|cbn; lra].
  destruct (List.length values <? 10)%nat; [cbn; lra|].
  cbn [FedPivotModel.get_fed_data FedPivotModel.pivot_info
       FedPivotModel.pivot_magnitude FREDClient.magnitude get].
  apply Qabs_nonneg.
Qed.

(** Hence the rate score of every snapshot the FRED client can produce
    lies in [0,1]. *)
Lemma detected_fed_score_range (s : Settings.t)
  (df : outcome (list Q)) (current_rate m2_growth : option Q) :
  in_unit (FedPivotModel.calculate_fed_score s
             (fed_data_of_readings current_rate df m2_growth)).
Proof.
  apply fed_score_in_unit. intros (_ & _ & _ & Hm).
  pose proof (detected_magnitude_nonneg df current_rate m2_growth) as H.
  unfold fed_data_of_readings in Hm. lra.
Qed.

(** The rate score when [get_fed_data] caught an exception. *)
Lemma failed_fed_score (s : Settings.t) (msg : string) :
  FedPivotModel.calculate_fed_score s (FedPivotModel.get_fed_data (Raised msg))
  = 0.0.
Proof. reflexivity. Qed.

(** C4: for every snapshot of the indicators, whatever the providers
    answer (readings, missing readings or failures), the Fed score, the
    reserve score, the M2 score and the miner ribbon score lie in [0,1],
    and so do the combined scores of both scenarios.  The Fed data is the
    dict [get_fed_data] builds: from the current rate and the pivot
    information of [detect_fed_pivot] on any rate series, or its fallback
    dict when a FRED call raises.  (On Fed data built by hand
    [calculate_fed_score] stays in [0,1] as long as the pivot magnitude is
    at least -3.) *)
Theorem scores_in_unit_interval
  (s : Settings.t) (current_rate : option Q) (rates : outcome (list Q))
  (fred_m2_growth : option Q) (fred_failure : option string)
  (reserves : outcome (option Q)) (m2_growth : option Q)
  (acceleration : outcome (option Q))
  (hash : outcome (option M2MinerModel.hash_data)) :
  let fd :=
    match fred_failure with
    | None => fed_data_of_readings current_rate rates fred_m2_growth
    | Some msg => FedPivotModel.get_fed_data (Raised msg)
    end in
  let a := FedPivotModel.calculate_signal_strength s fd
             (FedPivotModel.get_exchange_reserves s reserves) in
  let b := M2MinerModel.calculate_signal_strength s
             (M2MinerModel.get_m2_data s m2_growth acceleration)
             (M2MinerModel.get_hash_ribbon_data hash) in
  (first_score a = FedPivotModel.calculate_fed_score s fd /\
   in_unit (first_score a)) /\
  (second_score a
   = get (FedPivotModel.reserve_score
            (FedPivotModel.get_exchange_reserves s reserves)) 0.0 /\
   in_unit (second_score a)) /\
  (first_score b
   = M2MinerModel.calculate_m2_score
       (M2MinerModel.get_m2_data s m2_growth acceleration) /\
   in_unit (first_score b)) /\
  (second_score b
   = get (M2MinerModel.ribbon_score (M2MinerModel.get_hash_ribbon_data hash))
         0.0 /\
   in_unit (second_score b)) /\
  in_unit (combined_score a) /\
  in_unit (combined_score b) /\
  forall fd' : FedPivotModel.fed_data,
    -3 <= get (FedPivotModel.pivot_magnitude fd') 0 ->
    in_unit (FedPivotModel.calculate_fed_score s fd') /\
    in_unit (combined_score
               (FedPivotModel.calculate_signal_strength s fd'
                  (FedPivotModel.get_exchange_reserves s reserves))).
Proof.
  intros fd a b.
  assert (Hfed : in_unit (FedPivotModel.calculate_fed_score s fd)).
  { subst fd. destruct fred_failure as [msg|].
    - rewrite failed_fed_score. split; lra.
    - apply detected_fed_score_range. }
  pose proof (reserve_score_range s reserves) as Hres.
  pose proof (m2_score_range
                (M2MinerModel.get_m2_data s m2_growth acceleration)) as Hm2.
  pose proof (ribbon_score_range hash) as Hrib.
  cbv zeta in Hres, Hrib.
  assert (Ha1 : first_score a = FedPivotModel.calculate_fed_score s fd)
    by reflexivity.
  assert (Ha2 : second_score a
                = get (FedPivotModel.reserve_score
                         (FedPivotModel.get_exchange_reserves s reserves)) 0.0)
    by reflexivity.
  assert (Hac : combined_score a
                = first_score a * 0.6 + second_score a * 0.4)
    by reflexivity.
  destruct (m2_signal_fields s
              (M2MinerModel.get_m2_data s m2_growth acceleration)
              (M2MinerModel.get_hash_ribbon_data hash))
    as (Hb1 & Hb2 & Hbc & _).
  fold b in Hb1, Hb2, Hbc.
  assert (Hdirect : forall fd' : FedPivotModel.fed_data,
             -3 <= get (FedPivotModel.pivot_magnitude fd') 0 ->
             in_unit (FedPivotModel.calculate_fed_score s fd') /\
             in_unit (combined_score
                        (FedPivotModel.calculate_signal_strength s fd'
                           (FedPivotModel.get_exchange_reserves s reserves)))).
  { intros fd' Hm.
    assert (Hf : in_unit (FedPivotModel.calculate_fed_score s fd')).
    { apply fed_score_in_unit. intros (_ & _ & _ & Hlt). lra. }
    split; [exact Hf|].
    unfold FedPivotModel.calculate_signal_strength. cbn [combined_score].
    unfold in_unit in *. lra. }
  split; [split; [exact Ha1 | rewrite Ha1; exact Hfed]|].
  split; [split; [exact Ha2 | rewrite Ha2; exact Hres]|].
  split; [split; [exact Hb1 | rewrite Hb1; exact Hm2]|].
  split; [split; [exact Hb2 | rewrite Hb2; exact Hrib]|].
  split; [|split; [|exact Hdirect]].
  - rewrite Hac, Ha1, Ha2. unfold in_unit in *. lra.
  - rewrite Hbc, Hb1, Hb2. unfold in_unit in *. lra.
Qed.

(** Two snapshots: a rate series of 30 days at 5.0 followed by 30 days at
    4.0 (a detected cutting pivot of magnitude 1.0) with the rate 0.5,
    reserves at 2.3M, M2 growth 16% and a neutral hash ribbon; and a
    snapshot in which every provider fails.  On Fed data built by hand with
    the magnitude -3 the rate score is 0. *)
Lemma scores_in_unit_interval_witness :
  let fd := fed_data_of_readings (Some 0.5)
              (Returned (repeat 5.0 30 ++ repeat 4.0 30)) (Some 0.16) in
  let fd' := FedPivotModel.mk_fed_data (Some 0.5) (Some true) (Some "cutting")
               (Some (-3)) None in
  FedPivotModel.pivot_detected fd = Some true /\
  in_unit (FedPivotModel.calculate_fed_score Settings.default fd) /\
  in_unit (combined_score
             (FedPivotModel.calculate_signal_strength Settings.default fd
                (FedPivotModel.get_exchange_reserves Settings.default
                   (Returned (Some 2300000))))) /\
  in_unit (combined_score
             (FedPivotModel.calculate_signal_strength Settings.default
                (FedPivotModel.get_fed_data (Raised "FRED unavailable"))
                (FedPivotModel.get_exchange_reserves Settings.default
                   (Raised "no on-chain data")))) /\
  -3 <= get (FedPivotModel.pivot_magnitude fd') 0 /\
  in_unit (FedPivotModel.calculate_fed_score Settings.default fd').
Proof.
  intros fd fd'. subst fd.
  destruct (scores_in_unit_interval Settings.default (Some 0.5)
              (Returned (repeat 5.0 30 ++ repeat 4.0 30)) (Some 0.16) None
              (Returned (Some 2300000)) (Some 0.16) (Returned None)
              (Returned (Some (M2MinerModel.mk_hash_data (Some "neutral")
                                 (Some false)))))
    as ((Heq & Hfed) & _ & _ & _ & Hcomb & _ & Hdirect).
  destruct (scores_in_unit_interval Settings.default None (Raised "no series")
              None (Some "FRED unavailable") (Raised "no on-chain data")
              None (Raised "no series") (Raised "no on-chain data"))
    as (_ & _ & _ & _ & Hfail & _).
  assert (Hm : -3 <= get (FedPivotModel.pivot_magnitude fd') 0)
    by (cbn; lra).
  split; [vm_compute; reflexivity|].
  split; [rewrite <- Heq; exact Hfed|]. split; [exact Hcomb|].
  split; [exact Hfail|]. split; [exact Hm | apply (Hdirect fd' Hm)].
Defined.

(** ** Scenario 2: the extreme-expansion override (C5, C10) *)

Lemma extreme_expansion_level (md : M2MinerModel.m2_data) :
  M2MinerModel.growth_level md = Some "extreme_expansion" ->
  M2MinerModel.is_extreme_expansion md = true.
Proof.
  intro H. unfold M2MinerModel.is_extreme_expansion. rewrite H. reflexivity.
Qed.

(** What the classifier of scenario 2 answers under the extreme-expansion
    classification, by the side of 0.6 the combined score is on. *)
Lemma override_cases (s : Settings.t) (md : M2MinerModel.m2_data)
  (mi : M2MinerModel.miner_data) :
  M2MinerModel.growth_level md = Some "extreme_expansion" ->
  let sd := M2MinerModel.calculate_signal_strength s md mi in
  (0.6 <= combined_score sd ->
   buy_signal sd = true /\ signal_strength sd = "strong_m2_override") /\
  (combined_score sd < 0.6 ->
   buy_signal sd = Qgeb (combined_score sd) (threshold sd) /\
   signal_strength sd = strength_tier (combined_score sd)).
Proof.
  intros Hlevel. apply extreme_expansion_level in Hlevel.
  unfold M2MinerModel.calculate_signal_strength. rewrite Hlevel.
  match goal with |- context [Qgeb ?x 0.6] => destruct (Qgeb x 0.6) eqn:E end;
    order_facts; cbn [combined_score buy_signal signal_strength threshold];
    split; intro H; try (split; reflexivity); exfalso; lra.
Qed.

(** C5: in scenario 2, under the ['extreme_expansion'] classification a
    combined score of at least 0.6 forces the buy signal with the strength
    ['strong_m2_override'], also below the threshold 0.75; below 0.6 the
    buy signal is the plain threshold test, hence false.  At 0.65 the signal
    is a buy with the override tier, at 0.55 it is not a buy.  Scenario 1
    has no such rule: its buy signal is always the threshold test. *)
Theorem m2_override_forces_buy
  (profile : string) (md : M2MinerModel.m2_data)
  (mi : M2MinerModel.miner_data)
  (fd : FedPivotModel.fed_data) (rd : FedPivotModel.reserve_data) :
  M2MinerModel.growth_level md = Some "extreme_expansion" ->
  let s := Settings.init profile in
  let sd := M2MinerModel.calculate_signal_strength s md mi in
  let sa := FedPivotModel.calculate_signal_strength s fd rd in
  threshold sd = 0.75 /\
  (0.6 <= combined_score sd ->
   buy_signal sd = true /\ signal_strength sd = "strong_m2_override") /\
  (combined_score sd < 0.6 -> buy_signal sd = false) /\
  (combined_score extreme_at_065 == 0.65 /\
   buy_signal extreme_at_065 = true /\
   signal_strength extreme_at_065 = "strong_m2_override") /\
  (combined_score extreme_at_055 == 0.55 /\
   buy_signal extreme_at_055 = false) /\
  buy_signal sa = Qgeb (combined_score sa) (threshold sa).
Proof.
  intros Hlevel s sd sa.
  destruct (override_cases s md mi Hlevel) as [Hhigh Hlow].
  destruct (m2_signal_fields s md mi) as (_ & _ & _ & Hthr).
  fold sd in Hhigh, Hlow, Hthr.
  split; [exact Hthr|]. split; [exact Hhigh|]. split.
  - intro Hlt. destruct (Hlow Hlt) as [-> _].
    apply Qgeb_false. rewrite Hthr.
    change (Settings.get_signal_threshold s 2) with 0.75. lra.
  - repeat split; reflexivity.
Qed.

Lemma m2_override_forces_buy_witness :
  M2MinerModel.growth_level
    (M2MinerModel.get_m2_data Settings.default (Some 0.16)
       (Returned (Some (-0.02)))) = Some "extreme_expansion" /\
  buy_signal extreme_at_065 = true /\
  signal_strength extreme_at_065 = "strong_m2_override".
Proof.
  split; [reflexivity|].
  destruct (m2_override_forces_buy "moderate"
              (M2MinerModel.get_m2_data Settings.default (Some 0.16)
                 (Returned (Some (-0.02))))
              (M2MinerModel.get_hash_ribbon_data
                 (Returned (Some (M2MinerModel.mk_hash_data (Some "neutral")
                                    (Some false)))))
              (FedPivotModel.get_fed_data (Raised "unused"))
              (FedPivotModel.get_exchange_reserves Settings.default
                 (Returned None))
              eq_refl) as (_ & Hhigh & _).
  apply Hhigh. vm_compute. discriminate.
Defined.

(** C10: in scenario 2, under the ['extreme_expansion'] classification and
    with a combined score of at least 0.6, the strength is
    ['strong_m2_override'] whatever the score: from 0.6 it displaces
    ['strong'] (also at or above the threshold 0.75) and from 0.8 it
    displaces ['very_strong'], as at the combined score 1.0. *)
Theorem m2_override_displaces_tier
  (s : Settings.t) (md : M2MinerModel.m2_data) (mi : M2MinerModel.miner_data) :
  M2MinerModel.growth_level md = Some "extreme_expansion" ->
  let sd := M2MinerModel.calculate_signal_strength s md mi in
  0.6 <= combined_score sd ->
  signal_strength sd = "strong_m2_override" /\
  (combined_score sd < 0.8 -> strength_tier (combined_score sd) = "strong") /\
  (0.8 <= combined_score sd ->
   strength_tier (combined_score sd) = "very_strong") /\
  (combined_score extreme_at_100 == 1.0 /\
   strength_tier (combined_score extreme_at_100) = "very_strong" /\
   signal_strength extreme_at_100 = "strong_m2_override").
Proof.
  intros Hlevel sd Hscore.
  destruct (override_cases s md mi Hlevel) as [Hhigh _].
  split; [apply (Hhigh Hscore)|].
  unfold strength_tier. split; [|split].
  - intro Hlt. apply Qgeb_false in Hlt. apply Qgeb_true in Hscore.
    rewrite Hlt, Hscore. reflexivity.
  - intro Hge. apply Qgeb_true in Hge. rewrite Hge. reflexivity.
  - repeat split; reflexivity.
Qed.

Lemma m2_override_displaces_tier_witness :
  signal_strength extreme_at_100 = "strong_m2_override".
Proof.
  apply (m2_override_displaces_tier Settings.default
           (M2MinerModel.get_m2_data Settings.default (Some 0.16)
              (Returned None))
           (M2MinerModel.get_hash_ribbon_data
              (Returned (Some (M2MinerModel.mk_hash_data (Some "buy")
                                 (Some false)))))
           eq_refl).
  vm_compute. discriminate.
Defined.

(** ** Trade plans (C7) *)

(** C7: a trade plan made for a buy signal, by either scenario, has tranche
    fractions (40/30/20/10 % and 30/25/25/20 %) that sum to 1, tranche
    values equal to the position value times the fraction, and a position
    size of at most the [max] of the active risk profile. *)
Theorem trade_plan_invariants
  (s : Settings.t) (sd : signal_data) (portfolio_value : Q) :
  buy_signal sd = true ->
  let pa := FedPivotModel.generate_trade_plan s sd portfolio_value in
  let pb := M2MinerModel.generate_trade_plan s sd portfolio_value in
  well_formed_plan s portfolio_value pa /\
  map percentage (plan_entry_plan pa) = [0.40; 0.30; 0.20; 0.10] /\
  well_formed_plan s portfolio_value pb /\
  map percentage (plan_entry_plan pb) = [0.30; 0.25; 0.25; 0.20].
Proof.
  intros Hbuy pa pb. subst pa pb.
  unfold FedPivotModel.generate_trade_plan, M2MinerModel.generate_trade_plan.
  rewrite Hbuy. cbn [negb]. cbv zeta.
  unfold well_formed_plan.
  cbn [is_plan plan_entry_plan plan_position_size plan_position_value map
       percentage].
  repeat split; try reflexivity; try apply Q.le_min_l.
  - eexists. split; [reflexivity|]. split; [reflexivity|].
    repeat constructor.
  - eexists. split; [reflexivity|]. split; [reflexivity|].
    repeat constructor.
Qed.

(** The plans for the strongest possible scenario signals under the
    moderate profile: both are capped at 15% of the portfolio. *)
Lemma trade_plan_invariants_witness :
  buy_signal extreme_at_100 = true /\
  well_formed_plan Settings.default 100000
    (FedPivotModel.generate_trade_plan Settings.default extreme_at_100 100000) /\
  well_formed_plan Settings.default 100000
    (M2MinerModel.generate_trade_plan Settings.default extreme_at_100 100000) /\
  plan_position_size
    (M2MinerModel.generate_trade_plan Settings.default extreme_at_100 100000)
  == 0.15.
Proof.
  destruct (trade_plan_invariants Settings.default extreme_at_100 100000
              eq_refl) as (Ha & _ & Hb & _).
  split; [reflexivity|]. split; [exact Ha|]. split; [exact Hb|].
  vm_compute. reflexivity.
Defined.

(** ** The orchestrator: all signals (C9) *)

Section AllSignals.

Context {Analysis : Type}.
Implicit Types (scs : scenarios Analysis) (m : model Analysis).

Lemma registered_lookup scs (id : Z) :
  existsb (Z.eqb id) (map fst scs) = true ->
  exists m, lookup Z.eqb id scs = Some m.
Proof.
  induction scs as [|[k m] scs IH]; simpl; [discriminate|].
  destruct (Z.eqb id k); simpl; [eauto | exact IH].
Qed.

Lemma unregistered_lookup scs (id : Z) :
  existsb (Z.eqb id) (map fst scs) = false -> lookup Z.eqb id scs = None.
Proof.
  induction scs as [|[k m] scs IH]; simpl; [reflexivity|].
  destruct (Z.eqb id k); simpl; [discriminate | exact IH].
Qed.

Lemma signals_step_entry scs (portfolio_value : Q) (results : list (Z * result Analysis))
  (id : Z) m :
  lookup Z.eqb id scs = Some m ->
  signals_step Analysis scs portfolio_value results id
  = dict_set id (entry m id portfolio_value) results.
Proof.
  intro Hm. unfold signals_step, run_analysis, entry. rewrite Hm.
  destruct (model_analyze m portfolio_value); reflexivity.
Qed.

Lemma lookup_signals_loop scs (portfolio_value : Q) (ids : list Z) :
  (forall id, In id ids -> existsb (Z.eqb id) (map fst scs) = true) ->
  forall (results : list (Z * result Analysis)) (id : Z),
    lookup Z.eqb id
      (fold_left (signals_step Analysis scs portfolio_value) ids results)
    = if existsb (Z.eqb id) ids
      then option_map (fun m => entry m id portfolio_value)
                      (lookup Z.eqb id scs)
      else lookup Z.eqb id results.
Proof.
  induction ids as [|i ids IH]; intros Hreg results id; simpl.
  - reflexivity.
  - rewrite IH by (intros; apply Hreg; right; assumption).
    destruct (existsb (Z.eqb id) ids); [rewrite orb_true_r; reflexivity|].
    rewrite orb_false_r.
    destruct (registered_lookup scs i (Hreg i (or_introl eq_refl))) as [m Hm].
    rewrite (signals_step_entry _ _ _ _ _ Hm), lookup_dict_set.
    destruct (Z.eqb id i) eqn:E; [|reflexivity].
    apply Z.eqb_eq in E. subst i. rewrite Hm. reflexivity.
Qed.

Lemma registered_keys scs (id : Z) :
  In id (map fst scs) -> existsb (Z.eqb id) (map fst scs) = true.
Proof.
  intro Hin. apply existsb_exists. exists id. split; [exact Hin|].
  apply Z.eqb_refl.
Qed.

(** The dict [get_all_signals] returns holds, under every registered id,
    the entry of the model registered there, and nothing else. *)
Lemma lookup_get_all_signals scs (portfolio_value : Q) (id : Z) :
  lookup Z.eqb id (get_all_signals scs portfolio_value)
  = option_map (fun m => entry m id portfolio_value) (lookup Z.eqb id scs).
Proof.
  unfold get_all_signals.
  rewrite lookup_signals_loop by (intros; apply registered_keys; assumption).
  destruct (existsb (Z.eqb id) (map fst scs)) eqn:E; [reflexivity|].
  rewrite (unregistered_lookup _ _ E). reflexivity.
Qed.

Lemma lookup_unregister scs (failing id : Z) :
  id <> failing ->
  lookup Z.eqb id (unregister failing scs) = lookup Z.eqb id scs.
Proof.
  intro Hne. induction scs as [|[k m] scs IH]; simpl; [reflexivity|].
  destruct (Z.eqb k failing) eqn:E; simpl.
  - apply Z.eqb_eq in E. subst k.
    apply Z.eqb_neq in Hne. rewrite Hne. exact IH.
  - rewrite IH. reflexivity.
Qed.

End AllSignals.

(** C9: when the analysis of a registered scenario raises, [get_all_signals]
    still returns an entry for every registered scenario (it is a total
    function: every exception of [run_analysis] is caught); the entry of the
    failing scenario is the error result with [buy_signal = False] and
    [combined_score = 0.0], and the entry of every other scenario is the one
    it has when the failing scenario is not registered. *)
Theorem get_all_signals_isolates_failure
  (Analysis : Type) (scs : BitcoinMacroModel.scenarios Analysis)
  (portfolio_value : Q) (failing : Z) (m : BitcoinMacroModel.model Analysis)
  (msg : string) :
  lookup Z.eqb failing scs = Some m ->
  BitcoinMacroModel.model_analyze m portfolio_value = Raised msg ->
  let results := BitcoinMacroModel.get_all_signals scs portfolio_value in
  (forall id, In id (map fst scs) ->
              exists r, lookup Z.eqb id results = Some r) /\
  lookup Z.eqb failing results
  = Some (BitcoinMacroModel.ErrorResult msg false 0.0) /\
  (forall id, id <> failing ->
     lookup Z.eqb id results
     = lookup Z.eqb id
         (BitcoinMacroModel.get_all_signals (unregister failing scs)
                                            portfolio_value)).
Proof.
  intros Hm Hraise results. subst results. split; [|split].
  - intros id Hin. rewrite lookup_get_all_signals.
    destruct (registered_lookup scs id (registered_keys scs id Hin))
      as [m' ->].
    eexists. reflexivity.
  - rewrite lookup_get_all_signals, Hm. unfold entry. cbn [option_map].
    rewrite Hraise. reflexivity.
  - intros id Hne. rewrite !lookup_get_all_signals.
    rewrite (lookup_unregister scs failing id Hne). reflexivity.
Qed.

(** ** The orchestrator: the strongest signal (C2) *)

Section Strongest.

Context {Analysis : Type} (score_of : Analysis -> Q).

Local Abbreviation score := (result_score score_of).
Local Abbreviation step := (strongest_step score_of).

Lemma strongest_loop_invariant (all : list (Z * result Analysis)) :
  loop_invariant score_of all (fold_left step all (None, 0.0)).
Proof.
  induction all as [|[k x] all IH] using rev_ind.
  - simpl. split; [reflexivity | intros e []].
  - rewrite fold_left_app. simpl.
    destruct (fold_left step all (None, 0.0)) as [strongest max_score].
    unfold loop_invariant in IH. cbn [fst snd] in IH.
    unfold strongest_step. cbn [snd].
    destruct (has_error x) eqn:Herr.
    + (* an error entry is skipped *)
      unfold loop_invariant. cbn [fst snd].
      destruct strongest as [r|].
      * destruct IH as (Hmax & Hpos & before & k' & after & Hall & Hr & Hb & Ha).
        split; [exact Hmax|]. split; [exact Hpos|].
        exists before, k', (after ++ [(k, x)]).
        split; [rewrite Hall, <- app_assoc; reflexivity|].
        split; [exact Hr|]. split; [exact Hb|].
        intros e Hin Hne. apply in_app_or in Hin. destruct Hin as [Hin|[<-|[]]].
        -- apply Ha; assumption.
        -- cbn in Hne. congruence.
      * destruct IH as (Hmax & Hnone). split; [exact Hmax|].
        intros e Hin. apply in_app_or in Hin. destruct Hin as [Hin|[<-|[]]].
        -- apply Hnone; assumption.
        -- unfold candidate. cbn [snd]. rewrite Herr. reflexivity.
    + destruct (Qgtb (score x) max_score) eqn:Hgt; order_facts;
        unfold loop_invariant; cbn [fst snd].
      * (* a strictly greater score replaces the selection *)
        assert (Hpos : 0 < score x).
        { destruct strongest as [r|].
          - destruct IH as (Hmax & Hp & _). rewrite Hmax in Hgt. lra.
          - destruct IH as (Hmax & _). rewrite Hmax in Hgt. lra. }
        split; [reflexivity|]. split; [exact Hpos|].
        exists all, k, []. split; [reflexivity|]. split; [exact Herr|].
        split; [|intros e []].
        intros e Hin Hne.
        destruct strongest as [r|].
        -- destruct IH as (Hmax & _ & before & k' & after & Hall & Hr & Hb & Ha).
           rewrite Hmax in Hgt.
           rewrite Hall in Hin. apply in_app_or in Hin.
           destruct Hin as [Hin|[<-|Hin]].
           ++ specialize (Hb e Hin Hne). lra.
           ++ exact Hgt.
           ++ specialize (Ha e Hin Hne). lra.
        -- destruct IH as (_ & Hnone). specialize (Hnone e Hin).
           unfold candidate in Hnone. rewrite Hne in Hnone. cbn in Hnone.
           order_facts. lra.
      * (* a score that is not greater keeps the selection *)
        destruct strongest as [r|].
        -- destruct IH as (Hmax & Hpos & before & k' & after & Hall & Hr & Hb & Ha).
           split; [exact Hmax|]. split; [exact Hpos|].
           exists before, k', (after ++ [(k, x)]).
           split; [rewrite Hall, <- app_assoc; reflexivity|].
           split; [exact Hr|]. split; [exact Hb|].
           intros e Hin Hne. apply in_app_or in Hin.
           destruct Hin as [Hin|[<-|[]]].
           ++ apply Ha; assumption.
           ++ cbn [snd]. rewrite Hmax in Hgt. exact Hgt.
        -- destruct IH as (Hmax & Hnone). split; [exact Hmax|].
           intros e Hin. apply in_app_or in Hin. destruct Hin as [Hin|[<-|[]]].
           ++ apply Hnone; assumption.
           ++ unfold candidate. cbn [snd]. rewrite Herr. cbn.
              apply Qgtb_false. rewrite Hmax in Hgt. lra.
Qed.

(** With a candidate among the entries, the strongest signal is the first
    entry with the greatest score among those without an error field. *)
Lemma strongest_of_candidate (all : list (Z * result Analysis)) :
  (exists e, In e all /\ candidate score_of (snd e) = true) ->
  first_maximum score_of all (strongest_of score_of all).
Proof.
  intros (e & Hin & Hc). unfold strongest_of.
  pose proof (strongest_loop_invariant all) as Hinv.
  unfold loop_invariant in Hinv.
  destruct (fst (fold_left step all (None, 0.0))) as [r|].
  - apply Hinv.
  - destruct Hinv as (_ & Hnone). rewrite (Hnone e Hin) in Hc. discriminate.
Qed.

(** Without a candidate the sentinel is returned, also when some entries
    have no error field. *)
Lemma strongest_of_no_candidate (all : list (Z * result Analysis)) :
  (forall e, In e all -> candidate score_of (snd e) = false) ->
  strongest_of score_of all
  = ErrorResult "No valid signals available" false 0.0.
Proof.
  intro Hnone. unfold strongest_of.
  pose proof (strongest_loop_invariant all) as Hinv.
  unfold loop_invariant in Hinv.
  destruct (fst (fold_left step all (None, 0.0))) as [r|]; [|reflexivity].
  destruct Hinv as (_ & Hpos & before & k & after & Hall & Hr & _).
  assert (Hin : In (k, r) all) by (rewrite Hall; apply in_elt).
  specialize (Hnone _ Hin). unfold candidate in Hnone. cbn [snd] in Hnone.
  rewrite Hr in Hnone. cbn in Hnone. order_facts. lra.
Qed.

End Strongest.

(** ** The orchestrator: registration order *)

Section RegistrationOrder.

Context {Analysis : Type}.

Lemma dict_set_fresh {V : Type} (k : Z) (v : V) (d : list (Z * V)) :
  ~ In k (map fst d) -> dict_set k v d = d ++ [(k, v)].
Proof.
  induction d as [|[k' v'] d IH]; simpl; intro Hfresh; [reflexivity|].
  destruct (Z.eqb k k') eqn:E.
  - apply Z.eqb_eq in E. exfalso. apply Hfresh. left. congruence.
  - rewrite IH by tauto. reflexivity.
Qed.

Lemma signals_loop_fresh (scs : scenarios Analysis) (portfolio_value : Q)
  (ids : list Z) :
  NoDup ids ->
  forall results : list (Z * result Analysis),
    (forall id, In id ids -> ~ In id (map fst results)) ->
    fold_left (signals_step Analysis scs portfolio_value) ids results
    = results ++ map (fun id => (id, recorded scs portfolio_value id)) ids.
Proof.
  induction 1 as [|i ids Hi Hnodup IH]; intros results Hfresh; simpl.
  - rewrite app_nil_r. reflexivity.
  - assert (Hstep : signals_step Analysis scs portfolio_value results i
                    = results ++ [(i, recorded scs portfolio_value i)]).
    { unfold signals_step, recorded.
      destruct (run_analysis scs i portfolio_value);
        apply dict_set_fresh, Hfresh; left; reflexivity. }
    rewrite Hstep, IH.
    + rewrite <- app_assoc. reflexivity.
    + intros id Hin. rewrite map_app, in_app_iff. simpl.
      intros [Hold|[<-|[]]].
      * apply (Hfresh id); [right; exact Hin | exact Hold].
      * exact (Hi Hin).
Qed.

(** The ids of a dict are distinct: then [get_all_signals] lists one entry
    per scenario, in registration order. *)
Lemma get_all_signals_in_order (scs : scenarios Analysis) (portfolio_value : Q) :
  NoDup (map fst scs) ->
  get_all_signals scs portfolio_value
  = map (fun id => (id, recorded scs portfolio_value id)) (map fst scs).
Proof.
  intro Hnodup. unfold get_all_signals.
  rewrite signals_loop_fresh; [reflexivity | exact Hnodup | intros id _ []].
Qed.

(** With distinct ids and a candidate among the recorded entries, the
    strongest signal is the entry of the first registered scenario whose
    score is the greatest among the entries without an error field. *)
Lemma get_strongest_signal_first_maximum (score_of : Analysis -> Q)
  (scs : scenarios Analysis) (portfolio_value : Q) :
  NoDup (map fst scs) ->
  (exists id, In id (map fst scs) /\
              candidate score_of (recorded scs portfolio_value id) = true) ->
  first_maximum score_of
    (map (fun id => (id, recorded scs portfolio_value id)) (map fst scs))
    (get_strongest_signal score_of scs portfolio_value).
Proof.
  intros Hnodup (id & Hin & Hc). unfold get_strongest_signal.
  rewrite (get_all_signals_in_order scs portfolio_value Hnodup).
  apply strongest_of_candidate.
  exists (id, recorded scs portfolio_value id). split; [|exact Hc].
  apply (in_map (fun id => (id, recorded scs portfolio_value id))).
  exact Hin.
Qed.

End RegistrationOrder.

(** ** The orchestrator: health (C1) *)

Section Health.

Context {Analysis : Type}.

Lemma health_loop_healthy (scs : scenarios Analysis) :
  forall h : health,
    overall_status (fold_left health_step scs h) = "healthy"
    <-> overall_status h = "healthy"
        /\ forallb reports_healthy (map snd scs) = true.
Proof.
  induction scs as [|[id m] scs IH]; intro h; simpl.
  - tauto.
  - rewrite IH. unfold reports_healthy at 2.
    destruct (model_health_check m) as [st|msg]; simpl.
    + destruct (status_is "healthy" st); simpl; [tauto|].
      split; [intros [H _]; discriminate | intros [_ H]; discriminate].
    + split; [intros [H _]; discriminate | intros [_ H]; discriminate].
Qed.

(** The part of C1 the orchestrator keeps: the overall status is
    ['healthy'] exactly when every model returns the status ['healthy']. *)
Lemma health_check_healthy_iff (scs : scenarios Analysis) :
  overall_status (health_check scs) = "healthy"
  <-> forallb reports_healthy (map snd scs) = true.
Proof.
  unfold health_check. rewrite health_loop_healthy. simpl. tauto.
Qed.

End Health.

(** The reduction C1 describes is the one each scenario model applies to
    its providers: ['healthy'] exactly when all are, ['error'] exactly when
    one of them reports ['error'], ['degraded'] otherwise. *)
Lemma providers_status_reduction (statuses : list (option string)) :
  (providers_status statuses = "healthy"
   <-> forallb (status_is "healthy") statuses = true) /\
  (providers_status statuses = "error"
   <-> existsb (status_is "error") statuses = true) /\
  (providers_status statuses = "degraded"
   <-> forallb (status_is "healthy") statuses = false /\
       existsb (status_is "error") statuses = false).
Proof.
  unfold providers_status.
  destruct (forallb (status_is "healthy") statuses) eqn:Hall.
  - assert (Hnone : existsb (status_is "error") statuses = false).
    { apply not_true_is_false. intro Hex.
      apply existsb_exists in Hex. destruct Hex as (st & Hin & Herr).
      rewrite forallb_forall in Hall. specialize (Hall st Hin).
      destruct st as [st|]; [|discriminate]. cbn in Hall, Herr.
      apply String.eqb_eq in Hall, Herr. congruence. }
    rewrite Hnone.
    repeat split; try reflexivity; try discriminate; intros []; discriminate.
  - destruct (existsb (status_is "error") statuses);
      repeat split; try reflexivity; try discriminate; intros []; discriminate.
Qed.

(** ** Concrete runs of the orchestrator *)

(** C1 fails on the orchestrator.  With the FRED client in error both
    scenario models report the status ['error'], and the overall status is
    ['degraded'], not ['error']: only a [health_check] that raises sets
    ['error'].  And the result depends on the order of the checks: a model
    that raises followed by a degraded one gives ['degraded'], the same two
    in the other order give ['error']. *)
Theorem health_check_loses_error :
  let h := BitcoinMacroModel.health_check
             (BitcoinMacroModel.registered Settings.default fred_in_error) in
  component_statuses h = [Some "error"; Some "error"] /\
  BitcoinMacroModel.overall_status h = "degraded" /\
  BitcoinMacroModel.overall_status
    (BitcoinMacroModel.health_check
       [(1%Z, reporting "error"); (2%Z, reporting "healthy")]) = "degraded" /\
  BitcoinMacroModel.overall_status
    (BitcoinMacroModel.health_check
       [(1%Z, crashing); (2%Z, reporting "degraded")]) = "degraded" /\
  BitcoinMacroModel.overall_status
    (BitcoinMacroModel.health_check
       [(1%Z, reporting "degraded"); (2%Z, crashing)]) = "error".
Proof.
  repeat split; reflexivity.
Qed.

(** C2 fails when no score is positive.  With no data at all both scenarios
    are analysed without error and score 0.0; the strongest signal is then
    the sentinel with the error text, not the result of scenario 1, although
    no scenario produced an error result. *)
Theorem strongest_signal_of_zero_scores :
  let scs := BitcoinMacroModel.registered Settings.default no_data in
  let all := BitcoinMacroModel.get_all_signals scs 100000 in
  map fst all = [1%Z; 2%Z] /\
  map (fun e => BitcoinMacroModel.has_error (snd e)) all = [false; false] /\
  Forall (fun e =>
            BitcoinMacroModel.result_score BitcoinMacroModel.scenario_score
                                           (snd e) == 0) all /\
  BitcoinMacroModel.get_strongest_signal BitcoinMacroModel.scenario_score
                                         scs 100000
  = BitcoinMacroModel.ErrorResult "No valid signals available" false 0.0.
Proof.
  cbv zeta. split; [reflexivity|]. split; [reflexivity|]. split.
  - repeat constructor.
  - reflexivity.
Qed.

(** Scenario 1 fails, scenario 2 is analysed on the [fred_in_error] data. *)
Lemma get_all_signals_isolates_failure_witness :
  let m2 := nth 1 (BitcoinMacroModel.registered Settings.default fred_in_error)
                (2%Z, crashing) in
  let results := BitcoinMacroModel.get_all_signals [(1%Z, crashing); m2] 100000 in
  lookup Z.eqb 1%Z results
  = Some (BitcoinMacroModel.ErrorResult "connection refused" false 0.0) /\
  lookup Z.eqb 2%Z results
  = lookup Z.eqb 2%Z (BitcoinMacroModel.get_all_signals [m2] 100000).
Proof.
  intros m2 results.
  destruct (get_all_signals_isolates_failure
              BitcoinMacroModel.scenario_analysis [(1%Z, crashing); m2]
              100000 1%Z crashing "connection refused" eq_refl eq_refl)
    as (_ & Hfail & Hother).
  split; [exact Hfail|].
  apply (Hother 2%Z). discriminate.
Defined.

(** * Further properties of the code *)

(** ** Settings *)

Lemma limits_cases (profile : string) (risk_profile : option string) :
  let limits := Settings.get_position_limits (Settings.init profile)
                                             risk_profile in
  limits = Settings.mk_limits 0.03 0.10 \/
  limits = Settings.moderate \/
  limits = Settings.mk_limits 0.10 0.25.
Proof.
  unfold Settings.get_position_limits.
  cbn [Settings.RISK_PROFILE Settings.POSITION_LIMITS Settings.init].
  match goal with
  | |- context [lookup String.eqb ?p ?d] => generalize p
  end.
  intro p. cbn [lookup].
  destruct (String.eqb p "conservative"); [left; reflexivity|].
  destruct (String.eqb p "moderate"); [right; left; reflexivity|].
  destruct (String.eqb p "aggressive"); [right; right; reflexivity|].
  right; left; reflexivity.
Qed.

Lemma position_limits_facts
  (profile : string) (risk_profile : option string) :
  let s := Settings.init profile in
  let limits := Settings.get_position_limits s risk_profile in
  (0 < Settings.base limits /\
   1.2 * Settings.base limits <= Settings.max limits /\
   Settings.max limits <= 0.25) /\
  (lookup String.eqb profile (Settings.POSITION_LIMITS s) = None ->
   Settings.get_position_limits s None = Settings.moderate).
Proof.
  intros s limits. split.
  - destruct (limits_cases profile risk_profile) as [H|[H|H]];
      fold s in H; fold limits in H; rewrite H; cbn;
      repeat split; lra.
  - unfold Settings.get_position_limits.
    cbn [Settings.RISK_PROFILE Settings.init s].
    intros ->. reflexivity.
Qed.

(** Whatever the environment's [RISK_PROFILE] and the requested profile
    are, [get_position_limits] answers with one of the three configured
    profiles, so that [0 < base < 1.2 * base <= max <= 0.25]; a profile that
    is not configured gets the moderate limits. *)
Theorem position_limits_of_any_profile
  (profile : string) (risk_profile : option string) :
  let s := Settings.init profile in
  let limits := Settings.get_position_limits s risk_profile in
  (0 < Settings.base limits /\
   1.2 * Settings.base limits <= Settings.max limits /\
   Settings.max limits <= 0.25) /\
  (lookup String.eqb profile (Settings.POSITION_LIMITS s) = None ->
   Settings.get_position_limits s None = Settings.moderate).
Proof.
  exact (position_limits_facts profile risk_profile).
Qed.

Lemma position_limits_of_any_profile_witness :
  Settings.get_position_limits (Settings.init "reckless") None
  = Settings.moderate.
Proof.
  apply (position_limits_of_any_profile "reckless" None). reflexivity.
Defined.

(** [validate_config] answers ['valid'] exactly when the risk profile is
    one of the three configured and the default portfolio value is
    positive, with no issue listed; otherwise it lists one issue per failed
    test, the profile first. *)
Theorem validate_config_valid_iff (profile : string) (portfolio_value : Q) :
  let s := Settings.init profile in
  let known := existsb (String.eqb profile)
                       ["conservative"; "moderate"; "aggressive"] in
  Settings.validate_config s portfolio_value
  = (known && negb (Qle_bool portfolio_value 0),
     (if known then [] else [Settings.InvalidRiskProfile profile])
     ++ (if Qle_bool portfolio_value 0
         then [Settings.InvalidPortfolioValue portfolio_value] else [])) /\
  (fst (Settings.validate_config s portfolio_value) = true <->
   (profile = "conservative" \/ profile = "moderate" \/
    profile = "aggressive") /\ 0 < portfolio_value).
Proof.
  intros s known. subst s known. unfold Settings.validate_config.
  cbn [Settings.RISK_PROFILE Settings.POSITION_LIMITS Settings.init lookup
       existsb].
  rewrite <- !String.eqb_eq.
  destruct (String.eqb profile "conservative"),
    (String.eqb profile "moderate"), (String.eqb profile "aggressive"),
    (Qle_bool portfolio_value 0) eqn:E; cbn;
    (split; [reflexivity|]);
    try (apply Qle_bool_iff in E);
    try (assert (0 < portfolio_value)
           by (apply Qnot_le_lt; intro Hle; apply Qle_bool_iff in Hle;
               congruence));
    split; intros; try discriminate; try reflexivity;
    try (split; [tauto | assumption]);
    try (exfalso; lra); try (exfalso; intuition discriminate).
Qed.

(** ** Signals and strength tiers *)

Lemma strength_tier_cases (c : Q) :
  (0.8 <= c /\ strength_tier c = "very_strong") \/
  (0.6 <= c /\ c < 0.8 /\ strength_tier c = "strong") \/
  (0.4 <= c /\ c < 0.6 /\ strength_tier c = "moderate") \/
  (c < 0.4 /\ strength_tier c = "weak").
Proof.
  unfold strength_tier. split_cascade; order_facts; tauto.
Qed.

(** Scenario 1 signals a buy exactly when the combined score reaches the
    threshold 0.70 (the threshold itself included), and a buy is never
    rated ['weak'] or ['moderate']: it is ['strong'] below 0.8 and
    ['very_strong'] from 0.8. *)
Theorem fed_buy_signal_and_strength
  (profile : string) (fd : FedPivotModel.fed_data)
  (rd : FedPivotModel.reserve_data) :
  let sd := FedPivotModel.calculate_signal_strength (Settings.init profile)
                                                    fd rd in
  (buy_signal sd = true <-> 0.70 <= combined_score sd) /\
  (buy_signal sd = true ->
   (combined_score sd < 0.8 /\ signal_strength sd = "strong") \/
   (0.8 <= combined_score sd /\ signal_strength sd = "very_strong")).
Proof.
  intro sd.
  assert (Hbuy : buy_signal sd = Qgeb (combined_score sd) 0.70) by reflexivity.
  assert (Hstr : signal_strength sd = strength_tier (combined_score sd))
    by reflexivity.
  rewrite Hbuy, Hstr, Qgeb_true. split; [tauto|]. intro Hge.
  destruct (strength_tier_cases (combined_score sd))
    as [[H ->]|[(H1 & H2 & ->)|[(H1 & H2 & ->)|[H ->]]]];
    try (left; split; [lra | reflexivity]);
    try (right; split; [lra | reflexivity]); exfalso; lra.
Qed.

Lemma fed_buy_signal_and_strength_witness :
  let sd := FedPivotModel.calculate_signal_strength Settings.default
              (FedPivotModel.mk_fed_data (Some 0.5) (Some true)
                 (Some "cutting") (Some 1.0) None)
              (FedPivotModel.get_exchange_reserves Settings.default
                 (Returned (Some 2400000))) in
  buy_signal sd = true /\
  ((combined_score sd < 0.8 /\ signal_strength sd = "strong") \/
   (0.8 <= combined_score sd /\ signal_strength sd = "very_strong")).
Proof.
  intro sd. split; [reflexivity|].
  apply (fed_buy_signal_and_strength "moderate"). reflexivity.
Defined.

Lemma m2_buy_signal_cases
  (profile : string) (md : M2MinerModel.m2_data)
  (mi : M2MinerModel.miner_data) :
  let sd := M2MinerModel.calculate_signal_strength (Settings.init profile)
                                                   md mi in
  (buy_signal sd = true <->
   0.75 <= combined_score sd \/
   (M2MinerModel.growth_level md = Some "extreme_expansion" /\
    0.6 <= combined_score sd)) /\
  (buy_signal sd = true ->
   signal_strength sd = "strong" \/ signal_strength sd = "very_strong" \/
   signal_strength sd = "strong_m2_override").
Proof.
  intro sd. subst sd. unfold M2MinerModel.calculate_signal_strength.
  change (Settings.get_signal_threshold (Settings.init profile) 2) with 0.75.
  set (c := M2MinerModel.calculate_m2_score md * 0.5
            + get (M2MinerModel.ribbon_score mi) 0.0 * 0.5).
  assert (Hlevel : M2MinerModel.is_extreme_expansion md = true
                   <-> M2MinerModel.growth_level md
                       = Some "extreme_expansion").
  { unfold M2MinerModel.is_extreme_expansion.
    destruct (M2MinerModel.growth_level md) as [l|]; [|split; discriminate].
    rewrite String.eqb_eq. split; congruence. }
  destruct (M2MinerModel.is_extreme_expansion md) eqn:Hx.
  - destruct (Qgeb c 0.6) eqn:E6; cbn [buy_signal signal_strength combined_score];
      order_facts.
    + split; [|tauto]. split; [|reflexivity].
      intros _. right. split; [apply Hlevel; reflexivity | exact E6].
    + rewrite Qgeb_true. split.
      * split; [tauto|]. intros [H|[_ H]]; [exact H | exfalso; lra].
      * intro H. exfalso. lra.
  - cbn [buy_signal signal_strength combined_score]. rewrite Qgeb_true. split.
    + split; [tauto|]. intros [H|[H _]]; [exact H|].
      apply Hlevel in H. discriminate.
    + intro H.
      destruct (strength_tier_cases c)
        as [[_ ->]|[(_ & _ & ->)|[(_ & H2 & _)|[H2 _]]]];
        try tauto; exfalso; lra.
Qed.

(** Scenario 2 signals a buy exactly when the combined score reaches the
    threshold 0.75 or the growth level is ['extreme_expansion'] with a
    combined score of at least 0.6; a buy is rated ['strong'],
    ['very_strong'] or ['strong_m2_override'], never ['weak'] or
    ['moderate']. *)
Theorem m2_buy_signal_and_strength
  (profile : string) (md : M2MinerModel.m2_data)
  (mi : M2MinerModel.miner_data) :
  let sd := M2MinerModel.calculate_signal_strength (Settings.init profile)
                                                   md mi in
  (buy_signal sd = true <->
   0.75 <= combined_score sd \/
   (M2MinerModel.growth_level md = Some "extreme_expansion" /\
    0.6 <= combined_score sd)) /\
  (buy_signal sd = true ->
   signal_strength sd = "strong" \/ signal_strength sd = "very_strong" \/
   signal_strength sd = "strong_m2_override").
Proof.
  exact (m2_buy_signal_cases profile md mi).
Qed.

Lemma m2_buy_signal_and_strength_witness :
  buy_signal extreme_at_065 = true /\
  (signal_strength extreme_at_065 = "strong" \/
   signal_strength extreme_at_065 = "very_strong" \/
   signal_strength extreme_at_065 = "strong_m2_override").
Proof.
  split; [reflexivity|].
  apply (m2_buy_signal_and_strength "moderate"). reflexivity.
Defined.

(** ** Position sizes *)

(** The size multiplier of both generators: [floor] at the threshold, and
    growing with the score. *)
Lemma ramp_lower (floor slope thr c : Q) :
  thr < 1 -> 0 <= slope ->
  floor <= floor + (Qmax 0 (c - thr) / (1.0 - thr)) * slope.
Proof.
  intros Hthr Hslope.
  assert (Hinv : 0 < / (1.0 - thr)) by (apply Qinv_lt_0_compat; lra).
  assert (He : 0 <= Qmax 0 (c - thr)) by apply Q.le_max_l.
  assert (0 <= Qmax 0 (c - thr) / (1.0 - thr)).
  { unfold Qdiv. apply Qmult_le_0_compat; lra. }
  assert (0 <= (Qmax 0 (c - thr) / (1.0 - thr)) * slope)
    by (apply Qmult_le_0_compat; assumption).
  lra.
Qed.

Lemma ramp_monotone (floor slope thr c1 c2 : Q) :
  thr < 1 -> 0 <= slope -> c1 <= c2 ->
  floor + (Qmax 0 (c1 - thr) / (1.0 - thr)) * slope
  <= floor + (Qmax 0 (c2 - thr) / (1.0 - thr)) * slope.
Proof.
  intros Hthr Hslope Hc.
  assert (Hinv : 0 < / (1.0 - thr)) by (apply Qinv_lt_0_compat; lra).
  assert (He : Qmax 0 (c1 - thr) <= Qmax 0 (c2 - thr)).
  { apply Q.max_le_compat_l. lra. }
  assert (Hd : Qmax 0 (c1 - thr) / (1.0 - thr)
               <= Qmax 0 (c2 - thr) / (1.0 - thr)).
  { unfold Qdiv. apply Qmult_le_compat_r; lra. }
  assert (Qmax 0 (c1 - thr) / (1.0 - thr) * slope
          <= Qmax 0 (c2 - thr) / (1.0 - thr) * slope)
    by (apply Qmult_le_compat_r; assumption).
  lra.
Qed.

Lemma ramp_at_threshold (floor slope thr c : Q) :
  thr < 1 -> c <= thr ->
  floor + (Qmax 0 (c - thr) / (1.0 - thr)) * slope == floor.
Proof.
  intros Hthr Hc.
  assert (He : Qmax 0 (c - thr) == 0) by (apply Q.max_l; lra).
  rewrite He. unfold Qdiv. ring.
Qed.

(** The position size of a plan made for a buy signal whose threshold is
    below 1. *)
Lemma fed_plan_size (s : Settings.t) (sd : signal_data) (pv : Q) :
  buy_signal sd = true -> threshold sd < 1 ->
  plan_position_size (FedPivotModel.generate_trade_plan s sd pv)
  = Qmin (Settings.max (Settings.get_position_limits s None))
         (Settings.base (Settings.get_position_limits s None)
          * (1.0 + (Qmax 0 (combined_score sd - threshold sd)
                    / (1.0 - threshold sd)) * 2.0)).
Proof.
  intros Hbuy Hthr. unfold FedPivotModel.generate_trade_plan.
  rewrite Hbuy. cbn [negb]. cbv zeta.
  assert (Hgt : Qgtb (1.0 - threshold sd) 0 = true)
    by (apply Qgtb_true; lra).
  rewrite Hgt. reflexivity.
Qed.

Lemma m2_plan_size (s : Settings.t) (sd : signal_data) (pv : Q) :
  buy_signal sd = true -> threshold sd < 1 ->
  plan_position_size (M2MinerModel.generate_trade_plan s sd pv)
  = Qmin (Settings.max (Settings.get_position_limits s None))
         (Settings.base (Settings.get_position_limits s None)
          * (1.2 + (Qmax 0 (combined_score sd - threshold sd)
                    / (1.0 - threshold sd)) * 2.5)).
Proof.
  intros Hbuy Hthr. unfold M2MinerModel.generate_trade_plan.
  rewrite Hbuy. cbn [negb]. cbv zeta.
  assert (Hgt : Qgtb (1.0 - threshold sd) 0 = true)
    by (apply Qgtb_true; lra).
  rewrite Hgt. reflexivity.
Qed.

(** Scenario 1 sizes a buy between the base and the maximum size of the
    risk profile: exactly the base size for a score at the threshold, and
    never less for a higher score than for a lower one. *)
Theorem fed_position_size_ramp
  (profile : string) (sd1 sd2 : signal_data) (pv : Q) :
  buy_signal sd1 = true -> buy_signal sd2 = true ->
  threshold sd1 < 1 -> threshold sd2 = threshold sd1 ->
  combined_score sd1 <= combined_score sd2 ->
  let s := Settings.init profile in
  let limits := Settings.get_position_limits s None in
  let size1 := plan_position_size (FedPivotModel.generate_trade_plan s sd1 pv) in
  let size2 := plan_position_size (FedPivotModel.generate_trade_plan s sd2 pv) in
  Settings.base limits <= size1 /\
  size1 <= size2 /\
  size2 <= Settings.max limits /\
  (combined_score sd1 <= threshold sd1 -> size1 == Settings.base limits).
Proof.
  intros Hb1 Hb2 Hthr Heq Hc s limits size1 size2.
  subst size1 size2.
  rewrite (fed_plan_size s sd1 pv Hb1 Hthr).
  rewrite (fed_plan_size s sd2 pv Hb2) by (rewrite Heq; exact Hthr).
  rewrite Heq. fold limits.
  destruct (position_limits_facts profile None)
    as [(Hbase & Hmax & _) _].
  fold s in Hbase, Hmax. fold limits in Hbase, Hmax.
  pose proof (ramp_lower 1.0 2.0 (threshold sd1) (combined_score sd1) Hthr
                ltac:(lra)) as Hlow.
  pose proof (ramp_monotone 1.0 2.0 (threshold sd1) _ _ Hthr ltac:(lra) Hc)
    as Hmono.
  set (m1 := 1.0 + Qmax 0 (combined_score sd1 - threshold sd1)
                   / (1.0 - threshold sd1) * 2.0) in *.
  set (m2 := 1.0 + Qmax 0 (combined_score sd2 - threshold sd1)
                   / (1.0 - threshold sd1) * 2.0) in *.
  assert (H1 : Settings.base limits <= Settings.base limits * m1) by nra.
  assert (H2 : Settings.base limits * m1 <= Settings.base limits * m2) by nra.
  repeat split.
  - apply Q.min_glb; lra.
  - apply Q.min_le_compat_l. exact H2.
  - apply Q.le_min_l.
  - intro Hle.
    pose proof (ramp_at_threshold 1.0 2.0 (threshold sd1) (combined_score sd1)
                  Hthr Hle) as Hat.
    fold m1 in Hat. rewrite Hat.
    rewrite Q.min_r by lra. ring.
Qed.

Lemma fed_position_size_ramp_witness :
  let sd := FedPivotModel.calculate_signal_strength Settings.default
              (FedPivotModel.mk_fed_data (Some 0.5) (Some true)
                 (Some "cutting") (Some 1.0) None)
              (FedPivotModel.get_exchange_reserves Settings.default
                 (Returned (Some 2400000))) in
  0.05 <= plan_position_size
            (FedPivotModel.generate_trade_plan Settings.default sd 100000).
Proof.
  intro sd.
  apply (fed_position_size_ramp "moderate" sd sd 100000);
    try reflexivity; vm_compute; discriminate.
Defined.

(** Scenario 2 sizes a buy between 1.2 times the base size and the maximum
    size of the risk profile, never less for a higher score than for a
    lower one; a buy forced by the override below the threshold gets
    exactly 1.2 times the base size. *)
Theorem m2_position_size_ramp
  (profile : string) (sd1 sd2 : signal_data) (pv : Q) :
  buy_signal sd1 = true -> buy_signal sd2 = true ->
  threshold sd1 < 1 -> threshold sd2 = threshold sd1 ->
  combined_score sd1 <= combined_score sd2 ->
  let s := Settings.init profile in
  let limits := Settings.get_position_limits s None in
  let size1 := plan_position_size (M2MinerModel.generate_trade_plan s sd1 pv) in
  let size2 := plan_position_size (M2MinerModel.generate_trade_plan s sd2 pv) in
  1.2 * Settings.base limits <= size1 /\
  size1 <= size2 /\
  size2 <= Settings.max limits /\
  (combined_score sd1 <= threshold sd1 -> size1 == 1.2 * Settings.base limits).
Proof.
  intros Hb1 Hb2 Hthr Heq Hc s limits size1 size2.
  subst size1 size2.
  rewrite (m2_plan_size s sd1 pv Hb1 Hthr).
  rewrite (m2_plan_size s sd2 pv Hb2) by (rewrite Heq; exact Hthr).
  rewrite Heq. fold limits.
  destruct (position_limits_facts profile None)
    as [(Hbase & Hmax & _) _].
  fold s in Hbase, Hmax. fold limits in Hbase, Hmax.
  pose proof (ramp_lower 1.2 2.5 (threshold sd1) (combined_score sd1) Hthr
                ltac:(lra)) as Hlow.
  pose proof (ramp_monotone 1.2 2.5 (threshold sd1) _ _ Hthr ltac:(lra) Hc)
    as Hmono.
  set (m1 := 1.2 + Qmax 0 (combined_score sd1 - threshold sd1)
                   / (1.0 - threshold sd1) * 2.5) in *.
  set (m2 := 1.2 + Qmax 0 (combined_score sd2 - threshold sd1)
                   / (1.0 - threshold sd1) * 2.5) in *.
  assert (H1 : 1.2 * Settings.base limits <= Settings.base limits * m1) by nra.
  assert (H2 : Settings.base limits * m1 <= Settings.base limits * m2) by nra.
  repeat split.
  - apply Q.min_glb; lra.
  - apply Q.min_le_compat_l. exact H2.
  - apply Q.le_min_l.
  - intro Hle.
    pose proof (ramp_at_threshold 1.2 2.5 (threshold sd1) (combined_score sd1)
                  Hthr Hle) as Hat.
    fold m1 in Hat. rewrite Hat.
    rewrite Q.min_r by lra. ring.
Qed.

(** The override buy at the combined score 0.65. *)
Lemma m2_position_size_ramp_witness :
  plan_position_size
    (M2MinerModel.generate_trade_plan Settings.default extreme_at_065 100000)
  == 1.2 * 0.05.
Proof.
  apply (m2_position_size_ramp "moderate" extreme_at_065 extreme_at_065
           100000); try reflexivity; vm_compute; discriminate.
Defined.

(** A plan made for a buy signal schedules exactly its position value: the
    values of the four tranches add up to [position_value], which is the
    portfolio value times the position size, in both scenarios. *)
Theorem tranche_values_sum
  (s : Settings.t) (sd : signal_data) (portfolio_value : Q) :
  buy_signal sd = true ->
  forall p,
    p = FedPivotModel.generate_trade_plan s sd portfolio_value \/
    p = M2MinerModel.generate_trade_plan s sd portfolio_value ->
    exists position_value,
      plan_position_value p = Some position_value /\
      values_sum (plan_entry_plan p) == position_value /\
      position_value == portfolio_value * plan_position_size p.
Proof.
  intros Hbuy p [-> | ->];
    unfold FedPivotModel.generate_trade_plan, M2MinerModel.generate_trade_plan;
    rewrite Hbuy; cbn [negb]; cbv zeta;
    eexists; (split; [reflexivity|]);
    cbn [plan_entry_plan plan_position_size values_sum fold_right value];
    split; ring.
Qed.

Lemma tranche_values_sum_witness :
  values_sum (plan_entry_plan
                (M2MinerModel.generate_trade_plan Settings.default
                                                  extreme_at_100 100000))
  == 100000 * 0.15.
Proof.
  destruct (tranche_values_sum Settings.default extreme_at_100 100000 eq_refl
              _ (or_intror eq_refl)) as (v & Hv & Hsum & Hval).
  rewrite Hsum, Hval. vm_compute. reflexivity.
Defined.

(** ** The pivot detector and the rate score *)

Lemma Qabs_cases (x : Q) :
  (0 <= x /\ Qabs x == x) \/ (x < 0 /\ Qabs x == - x).
Proof.
  destruct (Qlt_le_dec x 0) as [Hneg|Hpos].
  - right. split; [exact Hneg|]. apply Qabs_neg. lra.
  - left. split; [exact Hpos|]. apply Qabs_pos. exact Hpos.
Qed.

(** [detect_fed_pivot] reports a pivot only with a direction: a detected
    pivot is ['cutting'] or ['hiking'] and its magnitude exceeds 0.5; the
    magnitude is the absolute value of the trend change, and ['cutting']
    (['hiking']) means the recent average rate is more than 0.25 below
    (above) the older one.  With fewer than 10 observations, or when the
    series cannot be fetched, no pivot is reported. *)
Theorem detect_fed_pivot_consistent (df : outcome (list Q)) :
  let info := FREDClient.detect_fed_pivot df in
  (FREDClient.pi_pivot_detected info = Some true ->
   (FREDClient.direction info = Some "cutting" \/
    FREDClient.direction info = Some "hiking") /\
   exists m, FREDClient.magnitude info = Some m /\ 0.5 < m) /\
  (forall c, FREDClient.trend_change info = Some c ->
             FREDClient.magnitude info = Some (Qabs c) /\
             (FREDClient.direction info = Some "cutting" <-> c < -0.25) /\
             (FREDClient.direction info = Some "hiking" <-> 0.25 < c)) /\
  ((forall values, df = Returned values -> (List.length values < 10)%nat) ->
   info = FREDClient.mk_pivot_info (Some false) None None None).
Proof.
  unfold FREDClient.detect_fed_pivot.
  destruct df as [values|msg].
  - destruct (List.length values <? 10)%nat eqn:Hlen.
    + cbn. repeat split; try discriminate.
    + cbv zeta.
      set (c := FREDClient.sum (skipn (List.length values - 30) values)
                / FREDClient.len (skipn (List.length values - 30) values)
                - FREDClient.sum (firstn 30 values)
                  / FREDClient.len (firstn 30 values)).
      cbn [FREDClient.pi_pivot_detected FREDClient.direction
           FREDClient.magnitude FREDClient.trend_change].
      clearbody c.
      split; [|split].
      * intro Hdet. injection Hdet as Hdet. apply Qgtb_true in Hdet.
        split; [|exists (Qabs c); split; [reflexivity | exact Hdet]].
        destruct (Qabs_cases c) as [[Hc Habs]|[Hc Habs]].
        -- right. assert (E1 : Qltb c (-0.25) = false)
             by (apply Qltb_false; lra).
           assert (E2 : Qgtb c 0.25 = true) by (apply Qgtb_true; lra).
           rewrite E1, E2. reflexivity.
        -- left. assert (E1 : Qltb c (-0.25) = true)
             by (apply Qltb_true; lra).
           rewrite E1. reflexivity.
      * intros c' Hc'. injection Hc' as <-. split; [reflexivity|].
        destruct (Qltb c (-0.25)) eqn:E1, (Qgtb c 0.25) eqn:E2; order_facts;
          repeat split; intros; try reflexivity; try discriminate;
          try assumption; exfalso; lra.
      * intro Hshort. specialize (Hshort values eq_refl).
        apply Nat.ltb_ge in Hlen. lia.
  - cbn. repeat split; try discriminate.
Qed.

(** A rate series of 30 days at 5.0 followed by 30 days at 4.0: the trend
    change is -1, a detected cutting pivot of magnitude 1.  Two
    observations are too few. *)
Lemma detect_fed_pivot_consistent_witness :
  let info :=
    FREDClient.detect_fed_pivot (Returned (repeat 5.0 30 ++ repeat 4.0 30)) in
  FREDClient.pi_pivot_detected info = Some true /\
  ((FREDClient.direction info = Some "cutting" \/
    FREDClient.direction info = Some "hiking") /\
   exists m, FREDClient.magnitude info = Some m /\ 0.5 < m) /\
  (exists c, FREDClient.trend_change info = Some c /\ c == -1 /\
             FREDClient.direction info = Some "cutting" /\
             FREDClient.magnitude info = Some (Qabs c)) /\
  FREDClient.detect_fed_pivot (Returned [5.0; 4.0])
  = FREDClient.mk_pivot_info (Some false) None None None.
Proof.
  intro info.
  destruct (detect_fed_pivot_consistent
              (Returned (repeat 5.0 30 ++ repeat 4.0 30)))
    as (Hdet & Hchange & _).
  destruct (detect_fed_pivot_consistent (Returned [5.0; 4.0]))
    as (_ & _ & Hshort).
  assert (E : FREDClient.pi_pivot_detected info = Some true)
    by (vm_compute; reflexivity).
  assert (Ec : exists c, FREDClient.trend_change info = Some c /\ c == -1).
  { eexists. split; [reflexivity|]. vm_compute. reflexivity. }
  split; [exact E|]. split; [exact (Hdet E)|]. split.
  - destruct Ec as (c & Ec & Hc). exists c.
    destruct (Hchange c Ec) as (Hmag & Hcut & _).
    split; [exact Ec|]. split; [exact Hc|].
    split; [apply Hcut; lra | exact Hmag].
  - apply Hshort. intros values H. injection H as <-. cbn. lia.
Defined.

(** With the Fed data built from a FRED rate series, the multiplier of the
    rate score is 0.3 (a detected hiking pivot), 1.2 (cutting by more than
    0.25 but not more than 0.5), between 1.75 and 2.0 (a detected cutting
    pivot), or 1.0; a detected pivot never leaves the rate score as it
    is. *)
Theorem series_multiplier_values (df : outcome (list Q)) (m2_growth : option Q) :
  let fd := fed_data_of_series df m2_growth in
  let m := multiplier_of fd in
  (m = 0.3 \/ m = 1.2 \/ m = 1.0 \/ (1.75 < m /\ m <= 2.0)) /\
  (FedPivotModel.pivot_detected fd = Some true ->
   m = 0.3 \/ (1.75 < m /\ m <= 2.0)).
Proof.
  unfold fed_data_of_series, multiplier_of, FedPivotModel.get_fed_data.
  cbn [FedPivotModel.pivot_info FedPivotModel.current_rate
       FedPivotModel.pivot_detected FedPivotModel.pivot_direction
       FedPivotModel.pivot_magnitude get].
  unfold FREDClient.detect_fed_pivot.
  destruct df as [values|msg];
    [destruct (List.length values <? 10)%nat|];
    try (cbn; split; [tauto | discriminate]).
  cbv zeta.
  set (c := FREDClient.sum (skipn (List.length values - 30) values)
            / FREDClient.len (skipn (List.length values - 30) values)
            - FREDClient.sum (firstn 30 values)
              / FREDClient.len (firstn 30 values)).
  clearbody c.
  cbn [FREDClient.pi_pivot_detected FREDClient.direction
       FREDClient.magnitude get].
  unfold FedPivotModel.direction_multiplier.
  destruct (Qabs_cases c) as [[Hc Habs]|[Hc Habs]];
    destruct (Qgtb (Qabs c) 0.5) eqn:Ed, (Qltb c (-0.25)) eqn:E1,
      (Qgtb c 0.25) eqn:E2; order_facts; cbn [String.eqb Ascii.eqb Bool.eqb];
    try (exfalso; lra);
    try (split; [tauto | intros; try discriminate; tauto]).
  all: name_minmax; constant_division;
    (split; [right; right; right; split; lra | intros _; right; split; lra]).
Qed.

(** A detected hiking pivot rules a buy out in scenario 1: the rate score
    is at most 0.24 and the combined score at most 0.544, whatever the rate
    and the reserves are. *)
Theorem hiking_pivot_never_buys
  (profile : string) (fd : FedPivotModel.fed_data)
  (reserves : outcome (option Q)) :
  FedPivotModel.pivot_detected fd = Some true ->
  FedPivotModel.pivot_direction fd = Some "hiking" ->
  let s := Settings.init profile in
  let sd := FedPivotModel.calculate_signal_strength s fd
              (FedPivotModel.get_exchange_reserves s reserves) in
  first_score sd <= 0.24 /\ combined_score sd <= 0.544 /\
  buy_signal sd = false.
Proof.
  intros Hdet Hdir s sd.
  pose proof (reserve_score_range s reserves) as [_ Hres]. cbv zeta in Hres.
  assert (Hfed : FedPivotModel.calculate_fed_score s fd <= 0.24).
  { unfold FedPivotModel.calculate_fed_score.
    destruct (FedPivotModel.fed_funds_rate fd) as [rate|]; [|lra].
    cbv zeta. rewrite Hdet, Hdir. cbn [get].
    change (FedPivotModel.direction_multiplier true "hiking"
              (get (FedPivotModel.pivot_magnitude fd) 0)) with 0.3.
    pose proof (base_score_range s rate) as [_ Hb].
    apply Qle_trans with (FedPivotModel.base_score s rate * 0.3);
      [apply Q.le_min_r | lra]. }
  assert (Hcomb : combined_score sd <= 0.544).
  { subst sd. unfold FedPivotModel.calculate_signal_strength.
    cbn [combined_score]. lra. }
  split; [exact Hfed|]. split; [exact Hcomb|].
  apply Qgeb_false. change (combined_score sd < 0.70). lra.
Qed.

Lemma hiking_pivot_never_buys_witness :
  buy_signal
    (FedPivotModel.calculate_signal_strength Settings.default
       (FedPivotModel.mk_fed_data (Some 0.5) (Some true) (Some "hiking")
                                  (Some 1.0) None)
       (FedPivotModel.get_exchange_reserves Settings.default
          (Returned (Some 2300000)))) = false.
Proof.
  apply (hiking_pivot_never_buys "moderate"
           (FedPivotModel.mk_fed_data (Some 0.5) (Some true) (Some "hiking")
                                      (Some 1.0) None)
           (Returned (Some 2300000)) eq_refl eq_refl).
Defined.



(** The bullish case of scenario 1: a rate below 1.0 with a detected
    cutting pivot (of a magnitude that is not negative) gives the rate
    score 1.0, reserves below 2.5M BTC give the reserve score 0.7 or 1.0,
    and the signal is a buy rated ['very_strong']: the combined score
    reaches the 0.8 of that tier.  This covers the 2.35M BTC of the mock
    provider. *)
Theorem cutting_pivot_with_low_reserves_buys
  (profile : string) (rate magnitude r : Q) (err : option string) :
  rate < 1.0 -> 0 <= magnitude -> r < 2500000 ->
  let s := Settings.init profile in
  let fd := FedPivotModel.mk_fed_data (Some rate) (Some true)
              (Some "cutting") (Some magnitude) err in
  let sd := FedPivotModel.calculate_signal_strength s fd
              (FedPivotModel.get_exchange_reserves s (Returned (Some r))) in
  first_score sd == 1 /\
  ((r < 2350000 /\ second_score sd = 1.0) \/
   (2350000 <= r /\ second_score sd = 0.7)) /\
  0.8 <= combined_score sd /\
  buy_signal sd = true /\
  signal_strength sd = "very_strong".
Proof.
  intros Hrate Hmag Hr s fd sd.
  assert (Hfed : first_score sd == 1).
  { change (FedPivotModel.calculate_fed_score s fd == 1).
    unfold FedPivotModel.calculate_fed_score. cbn [FedPivotModel.fed_funds_rate fd].
    cbv zeta. cbn [get FedPivotModel.pivot_detected
                   FedPivotModel.pivot_direction
                   FedPivotModel.pivot_magnitude].
    destruct (fed_rate_scan profile rate) as (Hb & _). cbv zeta in Hb.
    fold s in Hb. rewrite (Hb Hrate).
    destruct (direction_multiplier_range true "cutting" magnitude Hmag)
      as [_ Hhi].
    assert (Hlo : 1.5 <= FedPivotModel.direction_multiplier true "cutting"
                           magnitude).
    { unfold FedPivotModel.direction_multiplier. cbn [String.eqb Ascii.eqb Bool.eqb].
      name_minmax; constant_division; lra. }
    set (m := FedPivotModel.direction_multiplier true "cutting" magnitude)
      in *.
    change (Qmin 1.0 (0.8 * m) == 1). clearbody m.
    pose proof (Q.min_l 1.0 (0.8 * m) ltac:(lra)) as Hmin. lra. }
  assert (Hres : (r < 2350000 /\ second_score sd = 1.0) \/
                 (2350000 <= r /\ second_score sd = 0.7)).
  { change (second_score sd)
      with (get (FedPivotModel.reserve_score
                   (FedPivotModel.get_exchange_reserves s
                      (Returned (Some r)))) 0.0).
    destruct (reserve_score_cases profile r)
      as [[H Hs]|[(H1 & H2 & Hs)|[[H Hs]|[(H1 & H2 & Hs)|(H1 & H2 & Hs)]]]];
      cbv zeta in Hs; fold s in Hs; rewrite Hs;
      try (exfalso; lra); [left | right]; split; try reflexivity; lra. }
  assert (Hc : combined_score sd = first_score sd * 0.6 + second_score sd * 0.4)
    by reflexivity.
  assert (Hcomb : 0.8 <= combined_score sd).
  { rewrite Hc. destruct Hres as [[_ ->]|[_ ->]]; lra. }
  split; [exact Hfed|]. split; [exact Hres|]. split; [exact Hcomb|].
  split; [apply Qgeb_true; change (0.70 <= combined_score sd); lra|].
  change (strength_tier (combined_score sd) = "very_strong").
  destruct (strength_tier_cases (combined_score sd))
    as [[_ H]|[(_ & H & _)|[(_ & H & _)|[H _]]]];
    [exact H | exfalso; lra..].
Qed.

(** The rate 0.5 with a cutting pivot of magnitude 1.0, as in the source's
    test, at the reserves of the mock provider (2.35M BTC, the boundary of
    the ['low'] bucket). *)
Lemma cutting_pivot_with_low_reserves_buys_witness :
  let sd :=
    FedPivotModel.calculate_signal_strength Settings.default
      (FedPivotModel.mk_fed_data (Some 0.5) (Some true) (Some "cutting")
                                 (Some 1.0) None)
      (FedPivotModel.get_exchange_reserves Settings.default
         (Returned MockOnChainDataProvider.get_exchange_reserves)) in
  second_score sd = 0.7 /\ buy_signal sd = true /\
  signal_strength sd = "very_strong".
Proof.
  intro sd.
  destruct (cutting_pivot_with_low_reserves_buys "moderate" 0.5 1.0 2350000
              None ltac:(lra) ltac:(lra) ltac:(lra))
    as (_ & Hres & _ & Hbuy & Htier).
  split; [|split; [exact Hbuy | exact Htier]].
  destruct Hres as [[H _]|[_ H]]; [exfalso; lra | exact H].
Defined.

(** ** Scenario 2 scoring *)

Lemma growth_cases (profile : string) (g : Q) (a : option Q) :
  let md := M2MinerModel.get_m2_data (Settings.init profile) (Some g)
                                     (Returned a) in
  M2MinerModel.m2_growth_rate md = Some g /\
  M2MinerModel.m2_acceleration md = a /\
  ((0.15 <= g /\
    M2MinerModel.growth_level md = Some "extreme_expansion" /\
    M2MinerModel.growth_score md = Some 1.0) \/
   (g < 0.15 /\
    M2MinerModel.is_extreme_expansion md = false /\
    exists score, M2MinerModel.growth_score md = Some score /\
                  0 <= score /\ score <= 0.8)).
Proof.
  unfold M2MinerModel.get_m2_data.
  cbn [Settings.M2_THRESHOLDS Settings.init Settings.extreme_expansion
       Settings.strong_expansion Settings.normal_expansion
       Settings.contraction].
  split_cascade; order_facts;
    cbn [M2MinerModel.m2_growth_rate M2MinerModel.m2_acceleration
         M2MinerModel.growth_level M2MinerModel.growth_score];
    (split; [reflexivity|]); (split; [reflexivity|]);
    try (left; split; [lra | split; reflexivity]);
    right; (split; [lra|]); (split; [reflexivity|]);
    eexists; (split; [reflexivity|]); split; lra.
Qed.

Lemma bonus_cases (x : Q) :
  let bonus := Qmin 0.2 (Qmax (-0.2) (x * 5)) in
  -0.2 <= bonus /\ bonus <= 0.2 /\
  (0 <= x -> 0 <= bonus) /\ (x <= 0 -> bonus <= 0).
Proof.
  cbv zeta.
  destruct (Q.max_spec (-0.2) (x * 5)) as [[H1 E1]|[H1 E1]];
    destruct (Q.min_spec 0.2 (Qmax (-0.2) (x * 5))) as [[H2 E2]|[H2 E2]];
    remember (Qmax (-0.2) (x * 5)) as inner;
    remember (Qmin 0.2 inner) as bonus;
    repeat split; intros; lra.
Qed.

Lemma clamp_cases (y : Q) :
  let c := Qmin 1.0 (Qmax 0.0 y) in
  (y < 0 /\ c == 0) \/ (0 <= y /\ y <= 1 /\ c == y) \/ (1 < y /\ c == 1).
Proof.
  cbv zeta.
  destruct (Q.max_spec 0.0 y) as [[H1 E1]|[H1 E1]];
    destruct (Q.min_spec 1.0 (Qmax 0.0 y)) as [[H2 E2]|[H2 E2]];
    remember (Qmax 0.0 y) as inner;
    remember (Qmin 1.0 inner) as c;
    destruct (Qlt_le_dec y 0), (Qlt_le_dec 1 y);
    try (left; split; lra);
    try (right; left; repeat split; lra);
    right; right; split; lra.
Qed.

Lemma m2_score_bonus_facts (profile : string) (g : Q) (a : option Q) :
  let md := M2MinerModel.get_m2_data (Settings.init profile) (Some g)
                                     (Returned a) in
  let base := get (M2MinerModel.growth_score md) 0 in
  let score := M2MinerModel.calculate_m2_score md in
  (0 <= base /\ base <= 1) /\
  (base - 0.2 <= score /\ score <= base + 0.2) /\
  (a = None -> score == base) /\
  (forall x, a = Some x -> 0 <= x -> base <= score) /\
  (forall x, a = Some x -> x <= 0 -> score <= base).
Proof.
  intros md base score.
  destruct (growth_cases profile g a) as (Hrate & Hacc & Hcases).
  fold md in Hrate, Hacc, Hcases.
  assert (Hbase : 0 <= base /\ base <= 1).
  { subst base.
    destruct Hcases as [(_ & _ & ->)|(_ & _ & sc & -> & H0 & H1)];
      cbn [get]; lra. }
  subst score. unfold M2MinerModel.calculate_m2_score.
  rewrite Hrate, Hacc. fold base. clearbody base. clear Hcases Hrate Hacc md.
  destruct a as [x|].
  - pose proof (bonus_cases x) as (Hb0 & Hb1 & Hbpos & Hbneg).
    cbv zeta in Hb0, Hb1, Hbpos, Hbneg.
    set (bonus := Qmin 0.2 (Qmax (-0.2) (x * 5))) in *. clearbody bonus.
    pose proof (clamp_cases (base + bonus + 0.0)) as Hclamp.
    cbv zeta in Hclamp.
    set (c := Qmin 1.0 (Qmax 0.0 (base + bonus + 0.0))) in *. clearbody c.
    split; [exact Hbase|].
    repeat split; intros; try discriminate;
      try match goal with
          | H : Some _ = Some _ |- _ => injection H as <-
          end;
      try (specialize (Hbpos ltac:(assumption)));
      try (specialize (Hbneg ltac:(assumption)));
      destruct Hclamp as [[? ?]|[(? & ? & ?)|[? ?]]]; lra.
  - pose proof (clamp_cases (base + 0.0 + 0.0)) as Hclamp.
    cbv zeta in Hclamp.
    set (c := Qmin 1.0 (Qmax 0.0 (base + 0.0 + 0.0))) in *. clearbody c.
    split; [exact Hbase|].
    repeat split; intros; try discriminate;
      destruct Hclamp as [[? ?]|[(? & ? & ?)|[? ?]]]; lra.
Qed.

(** The M2 score stays within 0.2 of the growth score of the classified
    growth rate: the acceleration adds at most 0.2 and takes at most 0.2
    away, a growing acceleration never lowers it, and without an
    acceleration reading it is the growth score itself. *)
Theorem m2_score_within_bonus (profile : string) (g : Q) (a : option Q) :
  let md := M2MinerModel.get_m2_data (Settings.init profile) (Some g)
                                     (Returned a) in
  let base := get (M2MinerModel.growth_score md) 0 in
  let score := M2MinerModel.calculate_m2_score md in
  (0 <= base /\ base <= 1) /\
  (base - 0.2 <= score /\ score <= base + 0.2) /\
  (a = None -> score == base) /\
  (forall x, a = Some x -> 0 <= x -> base <= score) /\
  (forall x, a = Some x -> x <= 0 -> score <= base).
Proof.
  exact (m2_score_bonus_facts profile g a).
Qed.

Lemma m2_score_within_bonus_witness :
  M2MinerModel.calculate_m2_score
    (M2MinerModel.get_m2_data Settings.default (Some 0.07) (Returned None))
  == 0.5.
Proof.
  destruct (m2_score_within_bonus "moderate" 0.07 None)
    as (_ & _ & Hnone & _).
  rewrite (Hnone eq_refl). reflexivity.
Defined.

(** Under an M2 growth of at least 15% scenario 2 signals a buy whenever
    the hash ribbon signal is not ['sell']: the M2 score is at least 0.8
    and the ribbon score at least 0.4, which reaches the 0.6 of the
    override. *)
Theorem extreme_expansion_buys_unless_sell
  (profile : string) (g : Q) (a : option Q) (hd : M2MinerModel.hash_data) :
  0.15 <= g ->
  String.eqb (get (M2MinerModel.signal hd) "neutral") "sell" = false ->
  let s := Settings.init profile in
  let sd := M2MinerModel.calculate_signal_strength s
              (M2MinerModel.get_m2_data s (Some g) (Returned a))
              (M2MinerModel.get_hash_ribbon_data (Returned (Some hd))) in
  0.8 <= first_score sd /\ 0.4 <= second_score sd /\
  0.6 <= combined_score sd /\ buy_signal sd = true.
Proof.
  intros Hg Hsell s sd.
  destruct (growth_cases profile g a) as (_ & _ & [(_ & Hlevel & Hscore)|(H & _)]);
    [|exfalso; lra].
  destruct (m2_score_bonus_facts profile g a) as (_ & (Hlow & _) & _).
  cbv zeta in Hlow. rewrite Hscore in Hlow. cbn [get] in Hlow.
  destruct (m2_signal_fields s
              (M2MinerModel.get_m2_data s (Some g) (Returned a))
              (M2MinerModel.get_hash_ribbon_data (Returned (Some hd))))
    as (H1 & H2 & Hc & _).
  fold sd in H1, H2, Hc.
  assert (Hm2 : 0.8 <= first_score sd) by (rewrite H1; fold s in Hlow; lra).
  assert (Hrib : 0.4 <= second_score sd).
  { rewrite H2. unfold M2MinerModel.get_hash_ribbon_data. rewrite Hsell.
    destruct (String.eqb (get (M2MinerModel.signal hd) "neutral") "buy"),
      (get (M2MinerModel.hd_miner_capitulation hd) false);
      cbn [get M2MinerModel.ribbon_score]; name_minmax; lra. }
  assert (Hcomb : 0.6 <= combined_score sd) by (rewrite Hc; lra).
  split; [exact Hm2|]. split; [exact Hrib|]. split; [exact Hcomb|].
  apply (override_cases s _ _ Hlevel). exact Hcomb.
Qed.

Lemma extreme_expansion_buys_unless_sell_witness :
  buy_signal extreme_at_065 = true.
Proof.
  apply (extreme_expansion_buys_unless_sell "moderate" 0.16 (Some (-0.02))
           (M2MinerModel.mk_hash_data (Some "neutral") (Some false)));
    [lra | reflexivity].
Defined.

(** ** The providers the factory creates *)

(** With the mock on-chain provider the reserve score is always 0.7 and
    the miner score always 0.4.  Scenario 1 then signals a buy exactly when
    the rate score is at least 0.7, and scenario 2 exactly when the M2 data
    could be fetched and the growth rate is at least 15%. *)
Theorem shipped_provider_signals
  (profile : string) (fd : FedPivotModel.fed_data)
  (m2_growth : option Q) (acceleration : outcome (option Q)) :
  let s := Settings.init profile in
  let a := shipped_fed_signals s fd in
  let b := shipped_m2_signals s m2_growth acceleration in
  second_score a = 0.7 /\
  (buy_signal a = true <-> 0.7 <= first_score a) /\
  second_score b == 0.4 /\
  (buy_signal b = true <->
   exists g x, m2_growth = Some g /\ acceleration = Returned x /\ 0.15 <= g).
Proof.
  intros s a b. split; [reflexivity|]. split; [|split].
  - assert (Hbuy : buy_signal a = Qgeb (combined_score a) 0.70)
      by reflexivity.
    assert (Hc : combined_score a = first_score a * 0.6 + 0.7 * 0.4)
      by reflexivity.
    rewrite Hbuy, Qgeb_true, Hc. split; intro; lra.
  - subst b. unfold shipped_m2_signals.
    match goal with
    | |- second_score (M2MinerModel.calculate_signal_strength ?s ?md ?mi) == _ =>
        destruct (m2_signal_fields s md mi) as (_ & -> & _)
    end.
    reflexivity.
  - subst b. unfold shipped_m2_signals. subst a s.
    set (mi := M2MinerModel.get_hash_ribbon_data
                 (Returned (Some MockOnChainDataProvider.get_hash_ribbon_signal))).
    assert (Hmi : get (M2MinerModel.ribbon_score mi) 0.0 == 0.4) by reflexivity.
    destruct (m2_buy_signal_cases profile
                (M2MinerModel.get_m2_data (Settings.init profile) m2_growth
                                          acceleration) mi)
      as [Hiff _].
    rewrite Hiff. clear Hiff.
    destruct (m2_signal_fields (Settings.init profile)
                (M2MinerModel.get_m2_data (Settings.init profile) m2_growth
                                          acceleration) mi)
      as (H1 & H2 & Hc & _).
    rewrite Hc, H1, H2.
    pose proof (m2_score_range
                  (M2MinerModel.get_m2_data (Settings.init profile) m2_growth
                                            acceleration))
      as [Hm0 Hm1].
    destruct m2_growth as [g|], acceleration as [x|msg].
    + destruct (growth_cases profile g x)
        as (_ & _ & [(Hg & Hlevel & Hscore)|(Hg & Hnot & _)]).
      * split; [intros _; exists g, x; repeat split; exact Hg|].
        intros _. right. split; [exact Hlevel|].
        destruct (m2_score_bonus_facts profile g x) as (_ & (Hlow & _) & _).
        cbv zeta in Hlow. rewrite Hscore in Hlow.
        cbn [get] in Hlow. lra.
      * split.
        -- intros [H|[H _]]; [exfalso; lra|].
           unfold M2MinerModel.is_extreme_expansion in Hnot.
           rewrite H in Hnot. discriminate.
        -- intros (g' & x' & Hg' & _ & Hge). injection Hg' as <-.
           exfalso. lra.
    + split.
      * intros [H|[H _]]; [exfalso; cbn in H; lra | discriminate].
      * intros (g' & x' & _ & Hx & _). discriminate.
    + split.
      * intros [H|[H _]]; [exfalso; cbn in H; lra | discriminate].
      * intros (g' & x' & Hg' & _). discriminate.
    + split.
      * intros [H|[H _]]; [exfalso; cbn in H; lra | discriminate].
      * intros (g' & x' & Hg' & _). discriminate.
Qed.

(** With the providers the factory creates, a scenario model never reports
    the status ['error']: it reports ['healthy'] when both the policy rate
    and the Bitcoin price can be read, and ['degraded'] otherwise. *)
Theorem shipped_status_values
  (rates : outcome (list Q)) (price : outcome (option Q)) :
  (shipped_status rates price = "healthy" <->
   FREDClient.get_current_fed_rate rates <> None /\
   CoinGeckoClient.get_bitcoin_price price <> None) /\
  (shipped_status rates price = "healthy" \/
   shipped_status rates price = "degraded") /\
  FedPivotModel.health_check (Some (FREDClient.health_check rates))
    (Some (CoinGeckoClient.health_check price))
    (Some MockOnChainDataProvider.health_check)
  = shipped_status rates price /\
  M2MinerModel.health_check (Some (FREDClient.health_check rates))
    (Some (CoinGeckoClient.health_check price))
    (Some MockOnChainDataProvider.health_check)
  = shipped_status rates price.
Proof.
  unfold shipped_status, FREDClient.health_check, CoinGeckoClient.health_check.
  destruct (FREDClient.get_current_fed_rate rates),
    (CoinGeckoClient.get_bitcoin_price price); cbn;
    repeat split; intros; try discriminate; try tauto;
    try (exfalso; intuition congruence).
Qed.

Lemma iloc_neg_some (values : list Q) (k : nat) :
  (1 <= k <= List.length values)%nat ->
  exists v, FREDClient.iloc_neg values k = Some v.
Proof.
  intro Hk. unfold FREDClient.iloc_neg.
  assert (E : (List.length values <? k)%nat = false)
    by (apply Nat.ltb_ge; lia).
  rewrite E.
  destruct (nth_error values (List.length values - k)) as [v|] eqn:Hnth;
    [eexists; reflexivity|].
  apply nth_error_None in Hnth. lia.
Qed.

(** [get_m2_growth_rate] needs thirteen monthly observations: it answers
    [None] exactly when the series cannot be fetched or has fewer than 13
    values (the guard of the source lets 12 through, and the look-up of the
    value of a year ago then fails and is caught).  Otherwise it is the
    growth of the last value over the thirteenth from the end. *)
Theorem m2_growth_needs_thirteen (df : outcome (list Q)) :
  (FREDClient.get_m2_growth_rate df = None <->
   (exists msg, df = Raised msg) \/
   (exists values, df = Returned values /\ (List.length values < 13)%nat)) /\
  (forall values current year_ago,
     df = Returned values ->
     FREDClient.iloc_neg values 1 = Some current ->
     FREDClient.iloc_neg values 13 = Some year_ago ->
     ~ year_ago == 0 ->
     exists growth,
       FREDClient.get_m2_growth_rate df = Some (FREDClient.Finite growth) /\
       growth * year_ago == current - year_ago).
Proof.
  split.
  - destruct df as [values|msg]; cbn [FREDClient.get_m2_growth_rate].
    + destruct (List.length values <? 12)%nat eqn:H12.
      * apply Nat.ltb_lt in H12. split; [|reflexivity].
        intros _. right. exists values. split; [reflexivity | lia].
      * apply Nat.ltb_ge in H12.
        destruct (iloc_neg_some values 1 ltac:(lia)) as [current ->].
        destruct (Nat.lt_ge_cases (List.length values) 13) as [Hlt|Hge].
        -- assert (E : FREDClient.iloc_neg values 13 = None).
           { unfold FREDClient.iloc_neg.
             assert (E : (List.length values <? 13)%nat = true)
               by (apply Nat.ltb_lt; lia).
             rewrite E. reflexivity. }
           rewrite E. split; [|reflexivity].
           intros _. right. exists values. split; [reflexivity | lia].
        -- destruct (iloc_neg_some values 13 ltac:(lia)) as [year_ago ->].
           split.
           ++ destruct (Qeq_bool year_ago 0); discriminate.
           ++ intros [[msg H]|(values' & H & Hlen)]; [discriminate|].
              injection H as <-. lia.
    + split; [|reflexivity]. intros _. left. exists msg. reflexivity.
  - intros values current year_ago -> Hcur Hago Hnz.
    cbn [FREDClient.get_m2_growth_rate].
    assert (H12 : (List.length values <? 12)%nat = false).
    { apply Nat.ltb_ge. unfold FREDClient.iloc_neg in Hago.
      destruct (List.length values <? 13)%nat eqn:E; [discriminate|].
      apply Nat.ltb_ge in E. lia. }
    rewrite H12, Hcur, Hago.
    assert (E : Qeq_bool year_ago 0 = false).
    { destruct (Qeq_bool year_ago 0) eqn:E; [|reflexivity].
      apply Qeq_bool_iff in E. contradiction. }
    rewrite E. eexists. split; [reflexivity|].
    field. exact Hnz.
Qed.

(** Twelve observations are not enough; thirteen growing from 100 to 110
    give 10%. *)
Lemma m2_growth_needs_thirteen_witness :
  FREDClient.get_m2_growth_rate
    (Returned [100; 1; 1; 1; 1; 1; 1; 1; 1; 1; 1; 1]) = None /\
  exists growth,
    FREDClient.get_m2_growth_rate
      (Returned [100; 1; 1; 1; 1; 1; 1; 1; 1; 1; 1; 1; 110])
    = Some (FREDClient.Finite growth) /\
    growth * 100 == 110 - 100.
Proof.
  split.
  - apply (m2_growth_needs_thirteen
             (Returned [100; 1; 1; 1; 1; 1; 1; 1; 1; 1; 1; 1])).
    right. eexists. split; [reflexivity | cbn; lia].
  - destruct (m2_growth_needs_thirteen
                (Returned [100; 1; 1; 1; 1; 1; 1; 1; 1; 1; 1; 1; 110]))
      as [_ H].
    apply (H _ 110 100 eq_refl eq_refl eq_refl).
    intro E. discriminate E.
Defined.

(** ** The orchestrator, further *)

Section OrchestratorFurther.

Context {Analysis : Type}.

Lemma health_check_snoc (scs : scenarios Analysis) (id : Z)
  (m : model Analysis) :
  overall_status (health_check (scs ++ [(id, m)]))
  = match model_health_check m with
    | Raised _ => "error"
    | Returned st =>
        if status_is "healthy" st
        then overall_status (health_check scs)
        else "degraded"
    end.
Proof.
  unfold health_check. rewrite fold_left_app. cbn [fold_left health_step].
  destruct (model_health_check m) as [st|msg]; [|reflexivity].
  destruct (status_is "healthy" st); reflexivity.
Qed.

Lemma snoc_split {A : Type} (l before after : list A) (x y : A) :
  l ++ [x] = before ++ y :: after ->
  (after = [] /\ l = before /\ x = y) \/
  (exists after', after = after' ++ [x] /\ l = before ++ y :: after').
Proof.
  intro H. destruct (exists_last (l := y :: after) ltac:(discriminate))
    as (init & z & Hlast).
  destruct after as [|a after].
  - left. apply app_inj_tail in H. destruct H as [-> ->]. tauto.
  - right.
    destruct (exists_last (l := a :: after) ltac:(discriminate))
      as (after' & z' & Hafter).
    rewrite Hafter in H.
    change (before ++ y :: after' ++ [z'])
      with (before ++ (y :: after') ++ [z']) in H.
    rewrite app_assoc in H. apply app_inj_tail in H. destruct H as [-> ->].
    exists after'. split; [exact Hafter | reflexivity].
Qed.

Lemma health_check_error_cases (scs : scenarios Analysis) :
  (overall_status (health_check scs) = "healthy" \/
   overall_status (health_check scs) = "degraded" \/
   overall_status (health_check scs) = "error") /\
  (overall_status (health_check scs) = "error" <->
   exists before id m after,
     scs = before ++ (id, m) :: after /\
     health_check_raises m = true /\
     forallb reports_healthy (map snd after) = true).
Proof.
  induction scs as [|[id m] scs [IHv IHe]] using rev_ind.
  - split; [left; reflexivity|]. split; [discriminate|].
    intros (before & id & m & after & H & _). destruct before; discriminate.
  - rewrite health_check_snoc.
    destruct (model_health_check m) as [st|msg] eqn:Hm.
    + destruct (status_is "healthy" st) eqn:Hst.
      * split; [exact IHv|]. rewrite IHe. split.
        -- intros (before & id' & m' & after & -> & Hr & Hafter).
           exists before, id', m', (after ++ [(id, m)]).
           split; [rewrite <- app_assoc; reflexivity|]. split; [exact Hr|].
           rewrite map_app, forallb_app, Hafter. cbn.
           unfold reports_healthy. rewrite Hm, Hst. reflexivity.
        -- intros (before & id' & m' & after & H & Hr & Hafter).
           apply snoc_split in H.
           destruct H as [(-> & -> & Hx)|(after' & -> & ->)].
           ++ injection Hx as <- <-. unfold health_check_raises in Hr.
              rewrite Hm in Hr. discriminate.
           ++ exists before, id', m', after'. split; [reflexivity|].
              split; [exact Hr|].
              rewrite map_app, forallb_app in Hafter.
              apply andb_true_iff in Hafter. tauto.
      * split; [right; left; reflexivity|]. split; [discriminate|].
        intros (before & id' & m' & after & H & Hr & Hafter).
        apply snoc_split in H.
        destruct H as [(-> & -> & Hx)|(after' & -> & ->)].
        -- injection Hx as <- <-. unfold health_check_raises in Hr.
           rewrite Hm in Hr. discriminate.
        -- rewrite map_app, forallb_app in Hafter.
           apply andb_true_iff in Hafter. destruct Hafter as [_ Hlast].
           cbn in Hlast. unfold reports_healthy in Hlast.
           rewrite Hm, Hst in Hlast. discriminate.
    + split; [right; right; reflexivity|]. split; [|reflexivity].
      intros _. exists scs, id, m, []. split; [reflexivity|].
      split; [|reflexivity].
      unfold health_check_raises. rewrite Hm. reflexivity.
Qed.

(** The overall status of the orchestrator's [health_check] is ['healthy'],
    ['degraded'] or ['error'], and it is ['error'] exactly when some
    scenario's [health_check] raises and every scenario checked after it
    is healthy: the last scenario that is not healthy decides. *)
Theorem health_check_error_iff (scs : scenarios Analysis) :
  (overall_status (health_check scs) = "healthy" \/
   overall_status (health_check scs) = "degraded" \/
   overall_status (health_check scs) = "error") /\
  (overall_status (health_check scs) = "error" <->
   exists before id m after,
     scs = before ++ (id, m) :: after /\
     health_check_raises m = true /\
     forallb reports_healthy (map snd after) = true).
Proof.
  exact (health_check_error_cases scs).
Qed.

(** The strongest signal carries an error field exactly when no entry
    without an error field has a positive score, and it is then the
    sentinel; an entry with an error field is never returned. *)
Theorem strongest_signal_error_iff (score_of : Analysis -> Q)
  (all : list (Z * result Analysis)) :
  (has_error (strongest_of score_of all) = true <->
   forall e, In e all -> candidate score_of (snd e) = false) /\
  (has_error (strongest_of score_of all) = true ->
   strongest_of score_of all
   = ErrorResult "No valid signals available" false 0.0).
Proof.
  destruct (existsb (fun e => candidate score_of (snd e)) all) eqn:Hex.
  - apply existsb_exists in Hex. destruct Hex as (e & Hin & Hc).
    pose proof (strongest_of_candidate score_of all
                  (ex_intro _ e (conj Hin Hc)))
      as (before & k & after & _ & Herr & _).
    rewrite Herr. split; [|discriminate]. split; [discriminate|].
    intro Hnone. rewrite (Hnone e Hin) in Hc. discriminate.
  - assert (Hnone : forall e, In e all -> candidate score_of (snd e) = false).
    { intros e Hin. apply not_true_is_false. intro Hc.
      assert (Hex' : existsb (fun e => candidate score_of (snd e)) all = true)
        by (apply existsb_exists; exists e; tauto).
      congruence. }
    rewrite (strongest_of_no_candidate score_of all Hnone).
    split; [|reflexivity]. split; [intros _; exact Hnone | reflexivity].
Qed.

Lemma lookup_in_nodup (scs : scenarios Analysis) (id : Z) (m : model Analysis) :
  NoDup (map fst scs) -> In (id, m) scs -> lookup Z.eqb id scs = Some m.
Proof.
  induction scs as [|[k m'] scs IH]; intros Hnodup Hin; [destruct Hin|].
  cbn [map fst] in Hnodup. apply NoDup_cons_iff in Hnodup.
  destruct Hnodup as [Hfresh Hnodup]. cbn [lookup].
  destruct Hin as [Heq|Hin].
  - injection Heq as -> ->. rewrite Z.eqb_refl. reflexivity.
  - destruct (Z.eqb id k) eqn:E.
    + apply Z.eqb_eq in E. subst k. exfalso. apply Hfresh.
      apply (in_map fst) in Hin. exact Hin.
    + apply IH; assumption.
Qed.

(** With distinct scenario ids, [get_all_signals] returns exactly one entry
    per registered scenario, under its id and in registration order: the
    analysis of its model for the portfolio value, or the error result of
    its exception. *)
Theorem all_signals_in_registration_order
  (scs : scenarios Analysis) (portfolio_value : Q) :
  NoDup (map fst scs) ->
  get_all_signals scs portfolio_value
  = map (fun item => (fst item, entry (snd item) (fst item) portfolio_value))
        scs /\
  map fst (get_all_signals scs portfolio_value) = map fst scs.
Proof.
  intro Hnodup.
  assert (Heq : get_all_signals scs portfolio_value
                = map (fun item =>
                         (fst item,
                          entry (snd item) (fst item) portfolio_value)) scs).
  { rewrite (get_all_signals_in_order scs portfolio_value Hnodup).
    rewrite map_map. apply map_ext_in. intros [id m] Hin. cbn [fst snd].
    unfold recorded, run_analysis, entry.
    rewrite (lookup_in_nodup scs id m Hnodup Hin).
    destruct (model_analyze m portfolio_value); reflexivity. }
  split; [exact Heq|].
  rewrite Heq, map_map. apply map_ext. intros [id m]. reflexivity.
Qed.

End OrchestratorFurther.

Lemma all_signals_in_registration_order_witness :
  map fst (get_all_signals (registered Settings.default no_data) 100000)
  = [1%Z; 2%Z].
Proof.
  apply (all_signals_in_registration_order
           (registered Settings.default no_data) 100000).
  repeat constructor; cbn; intuition discriminate.
Defined.

(** With the [fred_in_error] data scenario 1 scores 0.76 and scenario 2
    scores 0.7: the strongest signal is the entry of scenario 1. *)
Lemma get_strongest_signal_first_maximum_witness :
  first_maximum scenario_score
    (map (fun id => (id, recorded (registered Settings.default fred_in_error)
                                  100000 id))
         [1%Z; 2%Z])
    (get_strongest_signal scenario_score
       (registered Settings.default fred_in_error) 100000).
Proof.
  apply (get_strongest_signal_first_maximum scenario_score
           (registered Settings.default fred_in_error) 100000).
  - repeat constructor; cbn; intuition discriminate.
  - exists 1%Z. split; [left; reflexivity | reflexivity].
Defined.

(** ** Error handling utilities *)

(** [safe_division] undoes the multiplication by a divisor that is not 0,
    and answers the default for the divisor 0. *)
Theorem safe_division_inverse (numerator denominator default : Q) :
  (denominator == 0 ->
   ErrorHandling.safe_division numerator denominator default = default) /\
  (~ denominator == 0 ->
   ErrorHandling.safe_division numerator denominator default * denominator
   == numerator).
Proof.
  unfold ErrorHandling.safe_division. split; intro H.
  - apply Qeq_bool_iff in H. rewrite H. reflexivity.
  - destruct (Qeq_bool denominator 0) eqn:E.
    + apply Qeq_bool_iff in E. contradiction.
    + field. exact H.
Qed.

Lemma safe_division_inverse_witness :
  ErrorHandling.safe_division 1 0 7 = 7 /\
  ErrorHandling.safe_division 1 4 7 * 4 == 1.
Proof.
  split.
  - apply (safe_division_inverse 1 0 7). reflexivity.
  - apply (safe_division_inverse 1 4 7). intro H. discriminate H.
Defined.

Section Retry.

Context {A : Type} (func : nat -> outcome A) (retryable : string -> bool)
        (max_retries : Z) (delay : Q).




Lemma retry_loop_bounds :
  forall remaining attempt last slept,
    (slept <= attempt)%nat -> (Z.of_nat slept <= Z.max 0 max_retries)%Z ->
    let r := ErrorHandling.retry_loop func retryable max_retries delay
                                      remaining attempt last slept in
    (ErrorHandling.calls r <= attempt + remaining)%nat /\
    (ErrorHandling.sleeps r <= ErrorHandling.calls r)%nat /\
    (Z.of_nat (ErrorHandling.sleeps r) <= Z.max 0 max_retries)%Z.
Proof.
  induction remaining as [|remaining IH]; intros attempt last slept H1 H2;
    cbn [ErrorHandling.retry_loop].
  - cbn. lia.
  - destruct (func attempt) as [a|e].
    + cbn. lia.
    + destruct (retryable e); [|cbn; lia].
      destruct (Z.of_nat attempt <? max_retries)%Z eqn:E.
      * apply Z.ltb_lt in E.
        destruct (Qltb delay 0); [cbn; lia|].
        specialize (IH (S attempt) (Some e) (S slept) ltac:(lia) ltac:(lia)).
        cbv zeta in IH. lia.
      * specialize (IH (S attempt) (Some e) slept ltac:(lia) ltac:(lia)).
        cbv zeta in IH. lia.
Qed.




(** Whatever the wrapped function does, the wrapper calls it at most
    [max_retries + 1] times and sleeps at most [max_retries] times, less
    often than it calls; with a negative [max_retries] it never calls the
    function and raises a [TypeError]. *)
Theorem retry_bounds :
  let r := ErrorHandling.retry_on_exception max_retries delay retryable func in
  (Z.of_nat (ErrorHandling.calls r) <= Z.max 0 (max_retries + 1))%Z /\
  (Z.of_nat (ErrorHandling.sleeps r) <= Z.max 0 max_retries)%Z /\
  (ErrorHandling.sleeps r <= ErrorHandling.calls r)%nat /\
  ((max_retries < 0)%Z ->
   r = ErrorHandling.mk_retried
         (Raised "TypeError: exceptions must derive from BaseException") 0 0).
Proof.
  intro r. subst r. unfold ErrorHandling.retry_on_exception.
  pose proof (retry_loop_bounds (Z.to_nat (max_retries + 1)) 0 None 0
                ltac:(lia) ltac:(lia)) as (Hc & Hs & Hm).
  cbv zeta in Hc, Hs, Hm.
  repeat split; try lia.
  intro Hneg. replace (Z.to_nat (max_retries + 1)) with 0%nat by lia.
  reflexivity.
Qed.

End Retry.



Lemma lookup_set_item {V : Type} (k k' : string) (v : V)
  (d : list (string * V)) :
  lookup String.eqb k (ErrorHandling.set_item k' v d)
  = if String.eqb k k' then Some v else lookup String.eqb k d.
Proof.
  induction d as [|[k0 v0] d IH]; cbn [ErrorHandling.set_item lookup].
  - reflexivity.
  - destruct (String.eqb k' k0) eqn:E0; cbn [lookup].
    + apply String.eqb_eq in E0. subst k0.
      destruct (String.eqb k k'); reflexivity.
    + destruct (String.eqb k k0) eqn:E1.
      * apply String.eqb_eq in E1. subst k0.
        rewrite String.eqb_sym, E0. reflexivity.
      * exact IH.
Qed.

Lemma count_key_snoc (key : string) (errs : list ErrorHandling.error_record)
  (e : ErrorHandling.error_record) :
  count_key key (errs ++ [e])
  = (count_key key errs
     + if String.eqb (ErrorHandling.error_key (ErrorHandling.component e)
                                              (ErrorHandling.error_type e))
                     key
       then 1 else 0)%Z.
Proof.
  unfold count_key. rewrite filter_app, length_app. cbn [filter].
  destruct (String.eqb _ key); cbn [List.length]; lia.
Qed.

(** The counts an [ErrorTracker] keeps agree with the errors it keeps,
    after any sequence of [record_error] and [clear_errors]: the count
    under a key is the number of recorded errors with that key, and a key
    without recorded error is absent. *)
Theorem tracker_counts_match (ops : list tracker_op) (key : string) :
  let t := run_tracker ops in
  lookup String.eqb key (ErrorHandling.error_counts t)
  = if Z.eqb (count_key key (ErrorHandling.errors t)) 0 then None
    else Some (count_key key (ErrorHandling.errors t)).
Proof.
  cbv zeta. unfold run_tracker. revert key.
  induction ops as [|op ops IH] using rev_ind; intro key.
  - reflexivity.
  - rewrite fold_left_app. cbn [fold_left].
    set (t := fold_left apply_op ops ErrorHandling.new_tracker) in *.
    destruct op as [now etype msg ctx comp|]; cbn [apply_op]; [|reflexivity].
    unfold ErrorHandling.record_error.
    cbn [ErrorHandling.errors ErrorHandling.error_counts].
    rewrite lookup_set_item, count_key_snoc.
    cbn [ErrorHandling.component ErrorHandling.error_type].
    rewrite (String.eqb_sym (ErrorHandling.error_key comp etype) key).
    destruct (String.eqb key (ErrorHandling.error_key comp etype)) eqn:E.
    + apply String.eqb_eq in E. subst key.
      rewrite IH.
      assert (Hnn : (0 <= count_key (ErrorHandling.error_key comp etype)
                                    (ErrorHandling.errors t))%Z)
        by (unfold count_key; lia).
      destruct (Z.eqb (count_key (ErrorHandling.error_key comp etype)
                                 (ErrorHandling.errors t)) 0) eqn:E0.
      * apply Z.eqb_eq in E0. rewrite E0. reflexivity.
      * cbn [get].
        assert (E1 : Z.eqb (count_key (ErrorHandling.error_key comp etype)
                                      (ErrorHandling.errors t) + 1) 0 = false)
          by (apply Z.eqb_neq; lia).
        rewrite E1. reflexivity.
    + rewrite Z.add_0_r. apply IH.
Qed.

Lemma summary_snoc (errs : list ErrorHandling.error_record)
  (r : ErrorHandling.error_record) (counts : list (string * Z)) :
  ErrorHandling.get_error_summary (ErrorHandling.mk_tracker (errs ++ [r]) counts)
  = ErrorHandling.mk_summary
      (S (List.length errs)) counts
      (map (fun err => (ErrorHandling.timestamp err,
                        ErrorHandling.error_type err,
                        ErrorHandling.message err,
                        ErrorHandling.component err))
           (skipn (S (List.length errs) - 10) errs ++ [r])).
Proof.
  unfold ErrorHandling.get_error_summary. cbn [ErrorHandling.errors].
  destruct (errs ++ [r]) as [|e0 rest] eqn:Herrs.
  { destruct errs; discriminate. }
  rewrite <- Herrs. cbn [ErrorHandling.error_counts].
  rewrite length_app. cbn [List.length].
  replace (List.length errs + 1)%nat with (S (List.length errs)) by lia.
  rewrite skipn_app.
  replace (S (List.length errs) - 10 - List.length errs)%nat with 0%nat by lia.
  reflexivity.
Qed.

(** The summary of an [ErrorTracker] counts the errors recorded since the
    last [clear_errors] and lists the last ten of them, oldest first:
    recording one more error raises the total by one and puts it last. *)
Theorem error_summary_after_record
  (ops : list tracker_op) (now error_type message context component : string) :
  let before := ErrorHandling.get_error_summary (run_tracker ops) in
  let after :=
    ErrorHandling.get_error_summary
      (run_tracker (ops ++ [RecordError now error_type message context
                                        component])) in
  ErrorHandling.total_errors before
  = List.length (ErrorHandling.errors (run_tracker ops)) /\
  ErrorHandling.total_errors after = S (ErrorHandling.total_errors before) /\
  List.length (ErrorHandling.recent_errors after)
  = Nat.min 10 (ErrorHandling.total_errors after) /\
  last (ErrorHandling.recent_errors after) ("", "", "", "")
  = (now, error_type, message, component) /\
  ErrorHandling.total_errors
    (ErrorHandling.get_error_summary (run_tracker (ops ++ [ClearErrors]))) = 0%nat.
Proof.
  cbv zeta. unfold run_tracker. rewrite !fold_left_app. cbn [fold_left apply_op].
  set (t := fold_left apply_op ops ErrorHandling.new_tracker).
  assert (Hbefore : ErrorHandling.total_errors (ErrorHandling.get_error_summary t)
                    = List.length (ErrorHandling.errors t)).
  { unfold ErrorHandling.get_error_summary.
    destruct (ErrorHandling.errors t); reflexivity. }
  split; [exact Hbefore|]. rewrite Hbefore.
  unfold ErrorHandling.record_error. rewrite summary_snoc.
  cbn [ErrorHandling.total_errors ErrorHandling.recent_errors].
  split; [reflexivity|]. split; [|split; [|reflexivity]].
  - rewrite length_map, length_app, length_skipn. cbn [List.length]. lia.
  - rewrite map_app. cbn [map]. rewrite last_last. reflexivity.
Qed.

(** ** Trading configuration and the trader's constructor *)

Lemma append_if_nil (condition : bool) (e : string) (errors : list string) :
  TradingConfig.append_if condition e errors = []
  <-> condition = false /\ errors = [].
Proof.
  unfold TradingConfig.append_if. destruct condition.
  - split; [|intros [H _]; discriminate].
    intro H. destruct errors; discriminate.
  - tauto.
Qed.

Lemma validate_conditions (c : TradingConfig.t) :
  TradingConfig.validate c = [] <->
  String.eqb (TradingConfig.api_key c) "" = false /\
  String.eqb (TradingConfig.api_secret c) "" = false /\
  existsb (String.eqb (TradingConfig.exchange c)) TradingConfig.ExchangeType
  = true /\
  Qle_bool (TradingConfig.max_position_size c) 0
  || Qgtb (TradingConfig.max_position_size c) 1.0 = false /\
  Qle_bool (TradingConfig.min_order_size_btc c) 0 = false /\
  Qle_bool (TradingConfig.max_daily_loss c) 0
  || Qgtb (TradingConfig.max_daily_loss c) 1.0 = false /\
  Qltb (TradingConfig.slippage_tolerance c) 0
  || Qgtb (TradingConfig.slippage_tolerance c) 0.5 = false /\
  TradingConfig.testnet c = true /\
  TradingConfig.dry_run c = true.
Proof.
  unfold TradingConfig.validate. cbv zeta.
  rewrite !append_if_nil, !negb_false_iff. tauto.
Qed.

Lemma Qle_bool_false (x y : Q) : Qle_bool x y = false <-> y < x.
Proof. apply (Qgeb_false y x). Qed.

Lemma validate_accepts_cases (c : TradingConfig.t) :
  TradingConfig.validate c = [] <->
  TradingConfig.api_key c <> "" /\
  TradingConfig.api_secret c <> "" /\
  In (TradingConfig.exchange c) TradingConfig.ExchangeType /\
  (0 < TradingConfig.max_position_size c /\
   TradingConfig.max_position_size c <= 1) /\
  0 < TradingConfig.min_order_size_btc c /\
  (0 < TradingConfig.max_daily_loss c /\ TradingConfig.max_daily_loss c <= 1) /\
  (0 <= TradingConfig.slippage_tolerance c /\
   TradingConfig.slippage_tolerance c <= 0.5) /\
  TradingConfig.testnet c = true /\
  TradingConfig.dry_run c = true.
Proof.
  rewrite validate_conditions, !orb_false_iff, !String.eqb_neq.
  rewrite !Qle_bool_false, !Qgtb_false, Qltb_false.
  assert (Hex : existsb (String.eqb (TradingConfig.exchange c))
                        TradingConfig.ExchangeType = true
                <-> In (TradingConfig.exchange c) TradingConfig.ExchangeType).
  { rewrite existsb_exists. split.
    - intros (x & Hin & Heq). apply String.eqb_eq in Heq. subst x. exact Hin.
    - intro Hin. exists (TradingConfig.exchange c). split; [exact Hin|].
      apply String.eqb_refl. }
  rewrite Hex.
  assert (H1 : forall x : Q, x <= 1.0 <-> x <= 1) by (intro; split; intro; lra).
  rewrite !H1. tauto.
Qed.

(** [validate] returns no error exactly when both credentials are there,
    the exchange is one of the seven supported, the limits are in range
    ([0 < max_position_size <= 1], [0 < min_order_size_btc],
    [0 < max_daily_loss <= 1], [0 <= slippage_tolerance <= 0.5]) and both
    [testnet] and [dry_run] are set: the two warnings count as errors. *)
Theorem validate_accepts_iff (c : TradingConfig.t) :
  TradingConfig.validate c = [] <->
  TradingConfig.api_key c <> "" /\
  TradingConfig.api_secret c <> "" /\
  In (TradingConfig.exchange c) TradingConfig.ExchangeType /\
  (0 < TradingConfig.max_position_size c /\
   TradingConfig.max_position_size c <= 1) /\
  0 < TradingConfig.min_order_size_btc c /\
  (0 < TradingConfig.max_daily_loss c /\ TradingConfig.max_daily_loss c <= 1) /\
  (0 <= TradingConfig.slippage_tolerance c /\
   TradingConfig.slippage_tolerance c <= 0.5) /\
  TradingConfig.testnet c = true /\
  TradingConfig.dry_run c = true.
Proof.
  exact (validate_accepts_cases c).
Qed.

(** An [AutomatedTrader] can only be built in dry run on the test net: the
    constructor raises for any other configuration, because [validate]
    lists the two warnings as errors.  A trader that is built has an
    accepted configuration, a fresh safety manager, no position, and is not
    running. *)
Theorem trader_is_always_dry_run
  (c : TradingConfig.t) (exchange_class connection : outcome unit)
  (tr : AutomatedTrader.t) :
  AutomatedTrader.init c exchange_class connection = Returned tr ->
  TradingConfig.dry_run (AutomatedTrader.config tr) = true /\
  TradingConfig.testnet (AutomatedTrader.config tr) = true /\
  0 < TradingConfig.min_order_size_btc (AutomatedTrader.config tr) /\
  TradingConfig.validate c = [] /\
  tr = AutomatedTrader.mk c SafetyManager.init false 0.0.
Proof.
  unfold AutomatedTrader.init.
  destruct (TradingConfig.validate c) as [|e errors] eqn:Hval; [|discriminate].
  destruct (AutomatedTrader._initialize_exchange c exchange_class connection);
    [|discriminate].
  intro H. injection H as <-. cbn [AutomatedTrader.config].
  apply validate_accepts_cases in Hval. tauto.
Qed.

Lemma trader_is_always_dry_run_witness :
  TradingConfig.dry_run (example_config 20) = true /\
  TradingConfig.testnet (example_config 20) = true.
Proof.
  destruct (trader_is_always_dry_run (example_config 20) (Returned tt)
              (Returned tt)
              (AutomatedTrader.mk (example_config 20) SafetyManager.init false
                                  0.0) eq_refl) as (H1 & H2 & _).
  split; [exact H1 | exact H2].
Defined.

(** [get_exchange_specific_config] raises exactly for
    [requests_per_minute = 0], a value [validate] accepts: the constructor
    of the trader then raises although the configuration validates.
    Otherwise the dict carries the credentials and the test-net flag, its
    delay between requests is [60000 / requests_per_minute] (so it has the
    sign of [requests_per_minute] and is at most 60000 ms in absolute
    value), only Coinbase gets a passphrase and only Binance the spot
    option. *)
Theorem exchange_config_rate_limit (c : TradingConfig.t) :
  (TradingConfig.requests_per_minute c = 0%Z ->
   TradingConfig.get_exchange_specific_config c = Raised "ZeroDivisionError" /\
   AutomatedTrader._initialize_exchange c (Returned tt) (Returned tt)
   = Raised "ZeroDivisionError" /\
   (TradingConfig.validate c = [] ->
    AutomatedTrader.init c (Returned tt) (Returned tt)
    = Raised "ZeroDivisionError")) /\
  (TradingConfig.requests_per_minute c <> 0%Z ->
   exists config,
     TradingConfig.get_exchange_specific_config c = Returned config /\
     TradingConfig.rateLimit config
     = 60000 / inject_Z (TradingConfig.requests_per_minute c) /\
     ((0 < TradingConfig.requests_per_minute c)%Z ->
      0 <= TradingConfig.rateLimit config /\
      TradingConfig.rateLimit config <= 60000) /\
     ((TradingConfig.requests_per_minute c < 0)%Z ->
      -60000 <= TradingConfig.rateLimit config /\
      TradingConfig.rateLimit config <= 0) /\
     TradingConfig.apiKey config = TradingConfig.api_key c /\
     TradingConfig.secret config = TradingConfig.api_secret c /\
     TradingConfig.sandbox config = TradingConfig.testnet c /\
     (TradingConfig.passphrase config <> None
      <-> TradingConfig.exchange c = "coinbase") /\
     (TradingConfig.options_defaultType config <> None
      <-> TradingConfig.exchange c = "binance")).
Proof.
  split; intro Hrpm.
  - assert (Hcfg : TradingConfig.get_exchange_specific_config c
                   = Raised "ZeroDivisionError").
    { unfold TradingConfig.get_exchange_specific_config.
      rewrite Hrpm. reflexivity. }
    split; [exact Hcfg|].
    assert (Hinit : AutomatedTrader._initialize_exchange c (Returned tt)
                                                         (Returned tt)
                    = Raised "ZeroDivisionError").
    { unfold AutomatedTrader._initialize_exchange. rewrite Hcfg. reflexivity. }
    split; [exact Hinit|].
    intro Hval. unfold AutomatedTrader.init. rewrite Hval, Hinit. reflexivity.
  - unfold TradingConfig.get_exchange_specific_config.
    assert (E : Z.eqb (TradingConfig.requests_per_minute c) 0 = false)
      by (apply Z.eqb_neq; exact Hrpm).
    rewrite E.
    set (n := TradingConfig.requests_per_minute c) in *.
    assert (Hpos : (0 < n)%Z -> 0 <= 60000 / inject_Z n /\
                                60000 / inject_Z n <= 60000).
    { intro Hn. assert (H1 : 1 <= inject_Z n)
        by (change 1 with (inject_Z 1); rewrite <- Zle_Qle; lia).
      split.
      - apply Qle_shift_div_l; lra.
      - apply Qle_shift_div_r; [lra|]. nra. }
    assert (Hneg : (n < 0)%Z -> -60000 <= 60000 / inject_Z n /\
                                60000 / inject_Z n <= 0).
    { intro Hn. assert (H1 : inject_Z n <= -1)
        by (change (-1) with (inject_Z (-1)); rewrite <- Zle_Qle; lia).
      assert (Heq : 60000 / inject_Z n == - (60000 / - inject_Z n))
        by (field; lra).
      assert (Hlo : 0 <= 60000 / - inject_Z n)
        by (apply Qle_shift_div_l; lra).
      assert (Hhi : 60000 / - inject_Z n <= 60000)
        by (apply Qle_shift_div_r; [lra | nra]).
      rewrite Heq. split; lra. }
    destruct (String.eqb (TradingConfig.exchange c) "coinbase") eqn:Ecb;
      [|destruct (String.eqb (TradingConfig.exchange c) "binance") eqn:Ebn];
      eexists; (split; [reflexivity|]);
      cbn [TradingConfig.rateLimit TradingConfig.apiKey TradingConfig.secret
           TradingConfig.sandbox TradingConfig.passphrase
           TradingConfig.options_defaultType];
      (split; [reflexivity|]); (split; [exact Hpos|]); (split; [exact Hneg|]);
      repeat (split; [reflexivity|]);
      rewrite <- !String.eqb_eq; rewrite ?Ecb, ?Ebn;
      try (apply String.eqb_eq in Ecb; rewrite Ecb; cbn);
      split; split; intro H; try discriminate; try congruence.
Qed.

(** The example configuration: with 0 requests per minute it validates and
    the constructor raises; with 7 requests per minute the delay is
    60000/7 ms. *)
Lemma exchange_config_rate_limit_witness :
  AutomatedTrader.init (example_config 0) (Returned tt) (Returned tt)
  = Raised "ZeroDivisionError" /\
  exists config,
    TradingConfig.get_exchange_specific_config (example_config 7)
    = Returned config /\
    TradingConfig.rateLimit config = 60000 / 7 /\
    TradingConfig.rateLimit config <= 60000 /\
    TradingConfig.options_defaultType config <> None.
Proof.
  destruct (exchange_config_rate_limit (example_config 0)) as [H0 _].
  destruct (exchange_config_rate_limit (example_config 7)) as [_ H7].
  split; [apply (H0 eq_refl); reflexivity|].
  destruct (H7 ltac:(discriminate))
    as (config & Hcfg & Hrate & Hpos & _ & _ & _ & _ & _ & Hbin).
  exists config. split; [exact Hcfg|]. split; [exact Hrate|].
  split; [apply Hpos; reflexivity | apply Hbin; reflexivity].
Defined.

(** ** The safety manager *)

Lemma run_trades_snoc (m : SafetyManager.t) (trades : list (Q * bool))
  (pnl : Q) (profitable : bool) :
  run_trades m (trades ++ [(pnl, profitable)])
  = SafetyManager.record_trade_result (run_trades m trades) pnl profitable.
Proof.
  unfold run_trades. rewrite fold_left_app. reflexivity.
Qed.

Lemma total_pnl_snoc (trades : list (Q * bool)) (t : Q * bool) :
  total_pnl (trades ++ [t]) == total_pnl trades + fst t.
Proof.
  induction trades as [|t' trades IH]; cbn [app total_pnl fold_right].
  - ring.
  - fold (total_pnl (trades ++ [t])). fold (total_pnl trades). lra.
Qed.

Lemma run_trades_limits (m : SafetyManager.t) (trades : list (Q * bool)) :
  SafetyManager.daily_loss_limit (run_trades m trades)
  = SafetyManager.daily_loss_limit m /\
  SafetyManager.consecutive_loss_limit (run_trades m trades)
  = SafetyManager.consecutive_loss_limit m /\
  SafetyManager.trades_today (run_trades m trades)
  = (SafetyManager.trades_today m + Z.of_nat (List.length trades))%Z /\
  SafetyManager.daily_pnl (run_trades m trades)
  == SafetyManager.daily_pnl m + total_pnl trades.
Proof.
  induction trades as [|[pnl profitable] trades IH] using rev_ind.
  - cbn. repeat split; try lia. ring.
  - rewrite run_trades_snoc. destruct IH as (H1 & H2 & H3 & H4).
    cbn [SafetyManager.record_trade_result SafetyManager.daily_loss_limit
         SafetyManager.consecutive_loss_limit SafetyManager.trades_today
         SafetyManager.daily_pnl].
    split; [exact H1|]. split; [exact H2|]. split.
    + rewrite H3, length_app. cbn [List.length]. lia.
    + pose proof (total_pnl_snoc trades (pnl, profitable)) as Hsnoc.
      cbn [fst] in Hsnoc. lra.
Qed.

Lemma losing_streak (m : SafetyManager.t) (streak : list (Q * bool)) :
  Forall (fun t => snd t = false) streak ->
  SafetyManager.consecutive_losses (run_trades m streak)
  = (SafetyManager.consecutive_losses m + Z.of_nat (List.length streak))%Z.
Proof.
  induction streak as [|[pnl profitable] streak IH] using rev_ind; intro Hall.
  - cbn. lia.
  - apply Forall_app in Hall. destruct Hall as [Hstreak Hlast].
    inversion Hlast as [|? ? Hp _]; subst. cbn in Hp. subst profitable.
    rewrite run_trades_snoc.
    cbn [SafetyManager.record_trade_result SafetyManager.consecutive_losses].
    rewrite (IH Hstreak), length_app. cbn [List.length]. lia.
Qed.

(** The safety manager counts every recorded trade, adds up the profits and
    losses of the day, and counts the losing trades since the last
    profitable one: after a profitable trade followed by a streak of
    losing trades the count is the length of the streak.  The daily reset
    clears the daily counters and keeps the streak. *)
Theorem safety_counters
  (before streak : list (Q * bool)) (pnl : Q) :
  Forall (fun t => snd t = false) streak ->
  let trades := before ++ [(pnl, true)] ++ streak in
  let m := run_trades SafetyManager.init trades in
  SafetyManager.consecutive_losses m = Z.of_nat (List.length streak) /\
  SafetyManager.trades_today m = Z.of_nat (List.length trades) /\
  SafetyManager.daily_pnl m == total_pnl trades /\
  SafetyManager.consecutive_losses (SafetyManager.reset_daily_counters m)
  = Z.of_nat (List.length streak) /\
  SafetyManager.trades_today (SafetyManager.reset_daily_counters m) = 0%Z /\
  SafetyManager.daily_pnl (SafetyManager.reset_daily_counters m) = 0.0.
Proof.
  intros Hall trades m.
  assert (Hlosses : SafetyManager.consecutive_losses m
                    = Z.of_nat (List.length streak)).
  { subst m trades. unfold run_trades. rewrite app_assoc, fold_left_app.
    fold (run_trades SafetyManager.init (before ++ [(pnl, true)])).
    fold (run_trades (run_trades SafetyManager.init (before ++ [(pnl, true)]))
                     streak).
    rewrite (losing_streak _ streak Hall), run_trades_snoc.
    cbn [SafetyManager.record_trade_result SafetyManager.consecutive_losses].
    lia. }
  destruct (run_trades_limits SafetyManager.init trades) as (_ & _ & H3 & H4).
  fold m in H3, H4.
  split; [exact Hlosses|]. split; [rewrite H3; reflexivity|].
  split; [rewrite H4; cbn [SafetyManager.daily_pnl SafetyManager.init]; ring|].
  split; [exact Hlosses|]. split; reflexivity.
Qed.

Lemma safety_counters_witness :
  SafetyManager.consecutive_losses
    (run_trades SafetyManager.init
       ([(-10, false)] ++ [(25, true)] ++ [(-5, false); (-7, false)]))
  = 2%Z.
Proof.
  apply (safety_counters [(-10, false)] [(-5, false); (-7, false)] 25).
  repeat constructor.
Defined.

Lemma check_returns (m : SafetyManager.t) (pv price : Q) :
  ~ pv == 0 ->
  exists c,
    SafetyManager.check_safety_conditions m pv price
    = Returned (c, SafetyManager.mk
                     (SafetyManager.daily_loss_limit m)
                     (SafetyManager.consecutive_loss_limit m)
                     (SafetyManager.unusual_price_movement_threshold m)
                     (SafetyManager.daily_pnl m)
                     (SafetyManager.consecutive_losses m) price
                     (SafetyManager.trades_today m)) /\
    (SafetyManager.safe_to_trade c = true <-> SafetyManager.reasons c = []) /\
    (SafetyManager.safe_to_trade c = true <->
     Qabs (SafetyManager.daily_pnl m) / pv < SafetyManager.daily_loss_limit m /\
     (SafetyManager.consecutive_losses m
      < SafetyManager.consecutive_loss_limit m)%Z).
Proof.
  intro Hpv. unfold SafetyManager.check_safety_conditions.
  assert (E : Qeq_bool pv 0 = false).
  { destruct (Qeq_bool pv 0) eqn:E; [|reflexivity].
    apply Qeq_bool_iff in E. contradiction. }
  rewrite E. cbv zeta. eexists. split; [reflexivity|].
  destruct (Qgeb (Qabs (SafetyManager.daily_pnl m) / pv)
                 (SafetyManager.daily_loss_limit m)) eqn:E1;
    destruct (SafetyManager.consecutive_loss_limit m
              <=? SafetyManager.consecutive_losses m)%Z eqn:E2;
    destruct (Qgtb (SafetyManager.last_price_check m) 0);
    try destruct (Qgeb (Qabs (price - SafetyManager.last_price_check m)
                        / SafetyManager.last_price_check m)
                       (SafetyManager.unusual_price_movement_threshold m));
    cbn [SafetyManager.safe_to_trade SafetyManager.reasons app];
    order_facts;
    try (apply Z.leb_le in E2); try (apply Z.leb_gt in E2);
    (split; [split; intro H; (discriminate || reflexivity)|]);
    split; intro H; try discriminate; try reflexivity;
    try (split; assumption);
    try (exfalso; destruct H; lra); try (exfalso; destruct H; lia).
Qed.



(** The circuit breaker on losing streaks: after three losing trades in a
    row (the default limit) the safety manager refuses to trade at any
    portfolio value other than 0 and at any price, and the daily reset does
    not lift the refusal. *)
Theorem losing_streak_blocks_trading
  (before streak : list (Q * bool)) (pnl pv price : Q) :
  Forall (fun t => snd t = false) streak ->
  (3 <= List.length streak)%nat ->
  ~ pv == 0 ->
  let m := run_trades SafetyManager.init (before ++ [(pnl, true)] ++ streak) in
  exists c c' m1 m2,
    SafetyManager.check_safety_conditions m pv price = Returned (c, m1) /\
    SafetyManager.safe_to_trade c = false /\
    SafetyManager.check_safety_conditions
      (SafetyManager.reset_daily_counters m) pv price = Returned (c', m2) /\
    SafetyManager.safe_to_trade c' = false.
Proof.
  intros Hall Hlen Hpv m.
  assert (Hlosses : SafetyManager.consecutive_losses m
                    = Z.of_nat (List.length streak)).
  { subst m. unfold run_trades. rewrite app_assoc, fold_left_app.
    fold (run_trades SafetyManager.init (before ++ [(pnl, true)])).
    fold (run_trades (run_trades SafetyManager.init (before ++ [(pnl, true)]))
                     streak).
    rewrite (losing_streak _ streak Hall), run_trades_snoc.
    cbn [SafetyManager.record_trade_result SafetyManager.consecutive_losses].
    lia. }
  destruct (run_trades_limits SafetyManager.init
              (before ++ [(pnl, true)] ++ streak)) as (_ & Hlimit & _).
  fold m in Hlimit. cbn [SafetyManager.init SafetyManager.consecutive_loss_limit]
    in Hlimit.
  destruct (check_returns m pv price Hpv) as (c & Hc & _ & Hsafe).
  destruct (check_returns (SafetyManager.reset_daily_counters m) pv price Hpv)
    as (c' & Hc' & _ & Hsafe').
  cbn [SafetyManager.reset_daily_counters SafetyManager.consecutive_losses
       SafetyManager.consecutive_loss_limit] in Hsafe'.
  exists c, c'. eexists. eexists.
  split; [exact Hc|]. split.
  - apply not_true_is_false. intro H. apply Hsafe in H. lia.
  - split; [exact Hc'|].
    apply not_true_is_false. intro H. apply Hsafe' in H. lia.
Qed.

Lemma losing_streak_blocks_trading_witness :
  exists c m1,
    SafetyManager.check_safety_conditions
      (run_trades SafetyManager.init
         ([] ++ [(25, true)] ++ [(-5, false); (-7, false); (-1, false)]))
      100000 50000 = Returned (c, m1) /\
    SafetyManager.safe_to_trade c = false.
Proof.
  destruct (losing_streak_blocks_trading []
              [(-5, false); (-7, false); (-1, false)] 25 100000 50000)
    as (c & _ & m1 & _ & H1 & H2 & _).
  - repeat constructor.
  - cbn. lia.
  - intro H. discriminate H.
  - exists c, m1. split; [exact H1 | exact H2].
Defined.

(** ** The trader *)

(** Rounding down to a multiple of 1/8 is a rounding in the sense of
    [float_rounding]. *)
Lemma eighths_rounding : float_rounding eighths.
Proof.
  unfold float_rounding, eighths. split; [|split; [|split]].
  - intros x y H. unfold Qdiv.
    apply Qmult_le_compat_r; [|vm_compute; discriminate].
    rewrite <- Zle_Qle. apply Qfloor_resp_le.
    apply Qmult_le_compat_r; [exact H | vm_compute; discriminate].
  - intro x. set (n := Qfloor (x * 8)).
    assert (E : Qfloor (inject_Z n / 8 * 8) = n).
    { assert (H : inject_Z n / 8 * 8 == inject_Z n) by field.
      rewrite H. apply Qfloor_Z. }
    rewrite E. reflexivity.
  - vm_compute. reflexivity.
  - vm_compute. reflexivity.
Qed.




Section TraderArithmetic.

Variable fl : Q -> Q.
Hypothesis Hfl : float_rounding fl.

Lemma fl_monotone (x y : Q) : x <= y -> fl x <= fl y.
Proof. apply Hfl. Qed.

Lemma fl_compat (x y : Q) : x == y -> fl x == fl y.
Proof.
  intro H. apply Qle_antisym; apply fl_monotone; lra.
Qed.

Lemma fl_idempotent (x : Q) : representable fl (fl x).
Proof. apply Hfl. Qed.

Lemma fl_zero : fl 0 == 0.
Proof. apply Hfl. Qed.

Lemma fl_one : fl 1 == 1.
Proof. apply Hfl. Qed.

(** A float above (below) [x] is above (below) the rounding of [x]. *)
Lemma fl_below (x z : Q) : representable fl z -> x <= z -> fl x <= z.
Proof.
  unfold representable. intros Hz H.
  pose proof (fl_monotone x z H). lra.
Qed.

Lemma fl_above (x z : Q) : representable fl z -> z <= x -> z <= fl x.
Proof.
  unfold representable. intros Hz H.
  pose proof (fl_monotone z x H). lra.
Qed.

Lemma target_representable (portfolio_value position_size btc_price : Q) :
  representable fl (AutomatedTrader.target_btc_amount
                      fl portfolio_value position_size btc_price).
Proof. apply fl_idempotent. Qed.


Lemma immediate_buy_dry_run (tr : AutomatedTrader.t) (amount : Q) (order : bool) :
  TradingConfig.dry_run (AutomatedTrader.config tr) = true ->
  AutomatedTrader._execute_immediate_buy fl tr amount order
  = AutomatedTrader.mk (AutomatedTrader.config tr)
                       (AutomatedTrader.safety_manager tr)
                       (AutomatedTrader.is_running tr)
                       (fl (AutomatedTrader.current_position tr + amount)).
Proof.
  intro Hdry. unfold AutomatedTrader._execute_immediate_buy.
  rewrite Hdry. reflexivity.
Qed.

Lemma acting_plan (p : option trade_plan) :
  negb (status_is "buy" (AutomatedTrader.plan_action p))
  && negb (status_is "accumulate" (AutomatedTrader.plan_action p)) = false ->
  AutomatedTrader.plan_action p = Some "buy" \/
  AutomatedTrader.plan_action p = Some "accumulate".
Proof.
  destruct (AutomatedTrader.plan_action p) as [action|]; [|discriminate].
  cbn [status_is].
  destruct (String.eqb action "buy") eqn:Eb;
    [apply String.eqb_eq in Eb; subst action; left; reflexivity|].
  destruct (String.eqb action "accumulate") eqn:Ea;
    [apply String.eqb_eq in Ea; subst action; right; reflexivity|].
  discriminate.
Qed.

Lemma execute_trade_plan_cases
  (tr : AutomatedTrader.t) (p : option trade_plan)
  (portfolio_value btc_price : Q) (order : bool) :
  TradingConfig.dry_run (AutomatedTrader.config tr) = true ->
  0 < TradingConfig.min_order_size_btc (AutomatedTrader.config tr) ->
  ~ btc_price == 0 ->
  representable fl (AutomatedTrader.current_position tr) ->
  let target :=
    AutomatedTrader.target_btc_amount fl portfolio_value
      (AutomatedTrader.plan_size p) btc_price in
  exists tr',
    AutomatedTrader._execute_trade_plan fl tr p portfolio_value btc_price order
    = Returned tr' /\
    AutomatedTrader.config tr' = AutomatedTrader.config tr /\
    AutomatedTrader.safety_manager tr' = AutomatedTrader.safety_manager tr /\
    AutomatedTrader.current_position tr
    <= AutomatedTrader.current_position tr' /\
    representable fl (AutomatedTrader.current_position tr') /\
    (tr' = tr \/
     ((AutomatedTrader.plan_action p = Some "buy" \/
       AutomatedTrader.plan_action p = Some "accumulate") /\
      AutomatedTrader.current_position tr < fl (target * fl 0.9) /\
      AutomatedTrader.current_position tr < target /\
      TradingConfig.min_order_size_btc (AutomatedTrader.config tr)
      <= fl (target - AutomatedTrader.current_position tr) /\
      AutomatedTrader.current_position tr'
      = fl (AutomatedTrader.current_position tr
            + fl (target - AutomatedTrader.current_position tr)))) /\
    (AutomatedTrader.current_position tr == 0 ->
     (tr' = tr \/ AutomatedTrader.current_position tr' == target) /\
     AutomatedTrader._execute_trade_plan fl tr' p portfolio_value btc_price
                                         order
     = Returned tr').
Proof.
  intros Hdry Hmin Hprice Hrep target.
  assert (Ep : Qeq_bool btc_price 0 = false).
  { destruct (Qeq_bool btc_price 0) eqn:E; [|reflexivity].
    apply Qeq_bool_iff in E. contradiction. }
  assert (Hsame : forall t,
             AutomatedTrader._execute_trade_plan fl t p portfolio_value
                                                 btc_price order
             = Returned t ->
             t = tr ->
             exists tr',
               AutomatedTrader._execute_trade_plan fl tr p portfolio_value
                                                   btc_price order
               = Returned tr' /\
               AutomatedTrader.config tr' = AutomatedTrader.config tr /\
               AutomatedTrader.safety_manager tr'
               = AutomatedTrader.safety_manager tr /\
               AutomatedTrader.current_position tr
               <= AutomatedTrader.current_position tr' /\
               representable fl (AutomatedTrader.current_position tr') /\
               (tr' = tr \/
                ((AutomatedTrader.plan_action p = Some "buy" \/
                  AutomatedTrader.plan_action p = Some "accumulate") /\
                 AutomatedTrader.current_position tr < fl (target * fl 0.9) /\
                 AutomatedTrader.current_position tr < target /\
                 TradingConfig.min_order_size_btc (AutomatedTrader.config tr)
                 <= fl (target - AutomatedTrader.current_position tr) /\
                 AutomatedTrader.current_position tr'
                 = fl (AutomatedTrader.current_position tr
                       + fl (target - AutomatedTrader.current_position tr)))) /\
               (AutomatedTrader.current_position tr == 0 ->
                (tr' = tr \/ AutomatedTrader.current_position tr' == target) /\
                AutomatedTrader._execute_trade_plan
                  fl tr' p portfolio_value btc_price order
                = Returned tr')).
  { intros t Hexec ->. exists tr.
    split; [exact Hexec|]. split; [reflexivity|]. split; [reflexivity|].
    split; [apply Qle_refl|]. split; [exact Hrep|].
    split; [left; reflexivity|].
    intros _. split; [left; reflexivity | exact Hexec]. }
  unfold AutomatedTrader._execute_trade_plan in Hsame |- *. cbv zeta in *.
  fold target in Hsame |- *.
  destruct (negb (status_is "buy" (AutomatedTrader.plan_action p))
            && negb (status_is "accumulate" (AutomatedTrader.plan_action p)))
    eqn:Eact.
  { apply (Hsame tr); reflexivity. }
  rewrite Ep in Hsame |- *.
  destruct (Qgeb (AutomatedTrader.current_position tr) (fl (target * fl 0.9)))
    eqn:Ehave.
  { apply (Hsame tr); [rewrite Ehave|]; reflexivity. }
  destruct (Qltb (fl (target - AutomatedTrader.current_position tr))
                 (TradingConfig.min_order_size_btc (AutomatedTrader.config tr)))
    eqn:Esmall.
  { apply (Hsame tr); [rewrite Ehave, Esmall|]; reflexivity. }
  clear Hsame. order_facts.
  set (cur := AutomatedTrader.current_position tr) in *.
  set (b := fl (target - cur)) in *.
  set (tr' := AutomatedTrader.mk (AutomatedTrader.config tr)
                (AutomatedTrader.safety_manager tr)
                (AutomatedTrader.is_running tr) (fl (cur + b))).
  assert (Hbuy : forall timeframe,
             AutomatedTrader._execute_scaled_entry fl tr b timeframe order
             = tr').
  { intro. unfold AutomatedTrader._execute_scaled_entry.
    apply immediate_buy_dry_run, Hdry. }
  assert (Hbuy' : AutomatedTrader._execute_immediate_buy fl tr b order = tr')
    by (apply immediate_buy_dry_run, Hdry).
  assert (Hbelow : cur < target).
  { destruct (Qlt_le_dec cur target) as [H|H]; [exact H|].
    assert (Hb : b <= 0).
    { subst b. pose proof (fl_monotone (target - cur) 0 ltac:(lra)).
      pose proof fl_zero. lra. }
    exfalso. lra. }
  exists tr'.
  split.
  { destruct (String.eqb (AutomatedTrader.plan_strategy p) "scaled_72h");
      [|destruct (String.eqb (AutomatedTrader.plan_strategy p)
                             "accumulate_30_days")];
      rewrite ?Hbuy, ?Hbuy'; reflexivity. }
  split; [reflexivity|]. split; [reflexivity|].
  split.
  { cbn [AutomatedTrader.current_position tr'].
    apply fl_above; [exact Hrep | lra]. }
  split; [apply fl_idempotent|].
  split.
  { right. split; [apply acting_plan, Eact|].
    split; [exact Ehave|]. split; [exact Hbelow|].
    split; [exact Esmall | reflexivity]. }
  intro Hzero.
  assert (Hb : b == target).
  { subst b. pose proof (fl_compat (target - cur) target ltac:(lra)).
    pose proof (target_representable portfolio_value
                  (AutomatedTrader.plan_size p) btc_price) as Ht.
    fold target in Ht. unfold representable in Ht. lra. }
  assert (Hpos : AutomatedTrader.current_position tr' == target).
  { cbn [AutomatedTrader.current_position tr'].
    pose proof (fl_compat (cur + b) target ltac:(lra)).
    pose proof (target_representable portfolio_value
                  (AutomatedTrader.plan_size p) btc_price) as Ht.
    fold target in Ht. unfold representable in Ht. lra. }
  split; [right; exact Hpos|].
  change (AutomatedTrader.config tr') with (AutomatedTrader.config tr).
  assert (Hnine : fl 0.9 <= 1).
  { pose proof (fl_monotone 0.9 1 ltac:(lra)). pose proof fl_one. lra. }
  assert (Ehave' : Qgeb (AutomatedTrader.current_position tr')
                        (fl (target * fl 0.9)) = true).
  { apply Qgeb_true.
    apply Qle_trans with target; [|lra].
    apply fl_below.
    - apply (target_representable portfolio_value
               (AutomatedTrader.plan_size p) btc_price).
    - nra. }
  rewrite Ehave'. reflexivity.
Qed.

(** In dry run, with a positive minimum order size, a price other than 0
    and whatever the rounding of the float operations is,
    [_execute_trade_plan] never lowers the position and leaves the
    configuration and the safety manager alone.  It changes the position
    only for a plan whose action is ['buy'] or ['accumulate'], when the
    position is below 90% of the target as computed and the computed
    difference to the target is at least one minimum order; the new
    position is the old one plus that difference.  For a trader without a
    position, as the constructor builds it, a buy reaches the computed
    target exactly, and executing the same plan again changes nothing: the
    plan is bought once. *)
Theorem execute_trade_plan_buys_once
  (tr : AutomatedTrader.t) (p : option trade_plan)
  (portfolio_value btc_price : Q) (order : bool) :
  TradingConfig.dry_run (AutomatedTrader.config tr) = true ->
  0 < TradingConfig.min_order_size_btc (AutomatedTrader.config tr) ->
  ~ btc_price == 0 ->
  representable fl (AutomatedTrader.current_position tr) ->
  let target :=
    AutomatedTrader.target_btc_amount fl portfolio_value
      (AutomatedTrader.plan_size p) btc_price in
  exists tr',
    AutomatedTrader._execute_trade_plan fl tr p portfolio_value btc_price order
    = Returned tr' /\
    AutomatedTrader.config tr' = AutomatedTrader.config tr /\
    AutomatedTrader.safety_manager tr' = AutomatedTrader.safety_manager tr /\
    AutomatedTrader.current_position tr
    <= AutomatedTrader.current_position tr' /\
    representable fl (AutomatedTrader.current_position tr') /\
    (tr' = tr \/
     ((AutomatedTrader.plan_action p = Some "buy" \/
       AutomatedTrader.plan_action p = Some "accumulate") /\
      AutomatedTrader.current_position tr < fl (target * fl 0.9) /\
      AutomatedTrader.current_position tr < target /\
      TradingConfig.min_order_size_btc (AutomatedTrader.config tr)
      <= fl (target - AutomatedTrader.current_position tr) /\
      AutomatedTrader.current_position tr'
      = fl (AutomatedTrader.current_position tr
            + fl (target - AutomatedTrader.current_position tr)))) /\
    (AutomatedTrader.current_position tr == 0 ->
     (tr' = tr \/ AutomatedTrader.current_position tr' == target) /\
     AutomatedTrader._execute_trade_plan fl tr' p portfolio_value btc_price
                                         order
     = Returned tr').
Proof.
  exact (execute_trade_plan_cases tr p portfolio_value btc_price order).
Qed.


End TraderArithmetic.

(** A plan for 15% of a portfolio of 100000 at the price 50000, with every
    result rounded down to a multiple of 1/8: the target 0.3 becomes 0.25,
    the trader goes from no position to 0.25 BTC, and executing the plan
    again changes nothing. *)
Lemma execute_trade_plan_buys_once_witness :
  let tr := AutomatedTrader.mk (example_config 20) SafetyManager.init false 0.0 in
  let p := Some (M2MinerModel.generate_trade_plan Settings.default
                   extreme_at_100 100000) in
  exists tr',
    AutomatedTrader._execute_trade_plan eighths tr p 100000 50000 false
    = Returned tr' /\
    AutomatedTrader.current_position tr' == 0.25 /\
    AutomatedTrader._execute_trade_plan eighths tr' p 100000 50000 false
    = Returned tr'.
Proof.
  intros tr p.
  destruct (execute_trade_plan_buys_once eighths eighths_rounding tr p
              100000 50000 false)
    as (tr' & Hexec & _ & _ & _ & _ & _ & Hzero).
  - reflexivity.
  - reflexivity.
  - intro H. discriminate H.
  - vm_compute. reflexivity.
  - exists tr'. split; [exact Hexec|].
    destruct (Hzero ltac:(reflexivity)) as [_ Hagain].
    split; [|exact Hagain].
    vm_compute in Hexec. injection Hexec as <-. reflexivity.
Defined.


(** In dry run the trader's health check fails exactly when the overall
    status of the model is ['error'].  It passes whenever no scenario's
    [health_check] raises, whatever statuses the scenarios report, and so
    it always passes for the two registered scenario models. *)
Theorem trader_health_gate
  (tr : AutomatedTrader.t) (ticker : outcome Q)
  (scs : scenarios scenario_analysis) (s : Settings.t) (sn : snapshot) :
  TradingConfig.dry_run (AutomatedTrader.config tr) = true ->
  (AutomatedTrader._health_check tr (health_check scs) ticker = true
   <-> overall_status (health_check scs) <> "error") /\
  ((forall item, In item scs -> health_check_raises (snd item) = false) ->
   AutomatedTrader._health_check tr (health_check scs) ticker = true) /\
  AutomatedTrader._health_check tr (health_check (registered s sn)) ticker
  = true.
Proof.
  intro Hdry.
  assert (Hiff : forall scs' : scenarios scenario_analysis,
             AutomatedTrader._health_check tr (health_check scs') ticker = true
             <-> overall_status (health_check scs') <> "error").
  { intro scs'. unfold AutomatedTrader._health_check. rewrite Hdry.
    rewrite <- String.eqb_neq.
    destruct (String.eqb (overall_status (health_check scs')) "error");
      split; intro H; congruence. }
  assert (Hnoraise : forall scs' : scenarios scenario_analysis,
             (forall item, In item scs' ->
                           health_check_raises (snd item) = false) ->
             AutomatedTrader._health_check tr (health_check scs') ticker
             = true).
  { intros scs' Hall. apply Hiff. intro Herr.
    apply (health_check_error_cases scs') in Herr.
    destruct Herr as (before & id & m & after & -> & Hr & _).
    specialize (Hall (id, m) ltac:(apply in_elt)). cbn [snd] in Hall.
    congruence. }
  split; [apply Hiff|]. split; [apply Hnoraise|].
  apply Hnoraise. intros item [<-|[<-|[]]]; reflexivity.
Qed.

Lemma trader_health_gate_witness :
  AutomatedTrader._health_check
    (AutomatedTrader.mk (example_config 20) SafetyManager.init false 0.0)
    (health_check (registered Settings.default fred_in_error))
    (Raised "no exchange")
  = true.
Proof.
  apply (trader_health_gate
           (AutomatedTrader.mk (example_config 20) SafetyManager.init false 0.0)
           (Raised "no exchange") [] Settings.default fred_in_error).
  reflexivity.
Defined.

(** ** Instances of the equivalences above *)

Lemma retry_bounds_witness :
  ErrorHandling.retry_on_exception (-1) 1.0 (fun _ => true)
    (fun _ : nat => Returned 7%Z)
  = ErrorHandling.mk_retried
      (Raised "TypeError: exceptions must derive from BaseException") 0 0.
Proof.
  apply (retry_bounds (fun _ : nat => Returned 7%Z) (fun _ => true) (-1) 1.0).
  lia.
Defined.

Lemma strongest_signal_error_iff_witness :
  strongest_of scenario_score
    (get_all_signals (registered Settings.default no_data) 100000)
  = ErrorResult "No valid signals available" false 0.0.
Proof.
  apply (strongest_signal_error_iff scenario_score
           (get_all_signals (registered Settings.default no_data) 100000)).
  reflexivity.
Defined.

Lemma health_check_error_iff_witness :
  overall_status (health_check [(1%Z, reporting "degraded"); (2%Z, crashing)])
  = "error".
Proof.
  apply (health_check_error_iff
           [(1%Z, reporting "degraded"); (2%Z, crashing)]).
  exists [(1%Z, reporting "degraded")], 2%Z, crashing, [].
  repeat split.
Defined.

Lemma validate_accepts_iff_witness :
  TradingConfig.validate (example_config 20) = [].
Proof.
  apply (validate_accepts_iff (example_config 20)). cbn.
  repeat split; try discriminate; try lra; tauto.
Defined.

Lemma shipped_provider_signals_witness :
  buy_signal (shipped_m2_signals Settings.default (Some 0.16) (Returned None))
  = true.
Proof.
  apply (shipped_provider_signals "moderate"
           (FedPivotModel.get_fed_data (Raised "unused")) (Some 0.16)
           (Returned None)).
  exists 0.16, None. repeat split. lra.
Defined.
